(** * The presentation builder: validator, executor, workspace and run analysis

    A shallow embedding of the pipeline core of the presentation builder
    ([app/ppt_gen/tools_ppt.py], [app/ppt_gen/ppt_templates.py] and
    [app/ppt_gen/ppt_generator_agent.py]) together with the properties its
    specification states about it, and of the mail and image tools
    ([app/email/email_tools.py], [app/image_scrap/image_integration.py] and
    [app/image_scrap/image_tools.py]) with further properties of the code.

    Python [str] values are lists of characters.  A character is one byte
    of the UTF-8 encoding of the text: the substring, prefix and suffix
    tests used by the code give the same answer on UTF-8 bytes as on code
    points, and every character the code compares against is ASCII. *)

From Stdlib Require Import Ascii String List Arith ZArith Lia Bool DecimalString.
From stdpp Require Import gmap strings list.
From Equations Require Import Equations.
From Equations.Prop Require Import Logic.

Abbreviation pystr := (list ascii).
Coercion list_ascii_of_string : string >-> list.

(** ** Python string primitives *)
Module Py.

Definition dquote : ascii := "034"%char.
Definition newline : ascii := "010"%char.
Definition backslash : ascii := "092"%char.
Definition slash : ascii := "/"%char.

(** [s.startswith(p)] *)
Fixpoint startswith (p s : pystr) : bool :=
  match p, s with
  | [], _ => true
  | _ :: _, [] => false
  | a :: p', b :: s' => if Ascii.eqb a b then startswith p' s' else false
  end.

(** [sub in s] *)
Fixpoint contains (sub s : pystr) : bool :=
  startswith sub s ||
  match s with
  | [] => false
  | _ :: s' => contains sub s'
  end.

(** [s.endswith(p)] *)
Definition endswith (p s : pystr) : bool :=
  startswith (rev p) (rev s).

(** [s.replace(a, b)] for one-character [a] and [b] *)
Definition replace_char (a b : ascii) (s : pystr) : pystr :=
  map (fun c => if Ascii.eqb c a then b else c) s.

(** [s.split(sep)] for a one-character separator *)
Fixpoint split (sep : ascii) (s : pystr) : list pystr :=
  match s with
  | [] => [[]]
  | c :: t =>
      if Ascii.eqb c sep then [] :: split sep t
      else match split sep t with
           | [] => [[c]]
           | w :: ws => (c :: w) :: ws
           end
  end.

(** [sep.join(parts)] *)
Fixpoint join (sep : pystr) (parts : list pystr) : pystr :=
  match parts with
  | [] => []
  | [w] => w
  | w :: ws => w ++ sep ++ join sep ws
  end.

(** [s.lower()] on ASCII text *)
Definition lower_char (c : ascii) : ascii :=
  let n := nat_of_ascii c in
  if (65 <=? n) && (n <=? 90) then ascii_of_nat (n + 32) else c.

Definition lower (s : pystr) : pystr := map lower_char s.

(** [s.encode('ascii', 'replace').decode('ascii')]: every code point
    outside ASCII becomes one question mark; on UTF-8 bytes the lead byte
    of a sequence is replaced and its continuation bytes are dropped. *)
Definition ascii_replace (s : pystr) : pystr :=
  flat_map (fun c =>
    let n := nat_of_ascii c in
    if n <? 128 then [c]
    else if n <? 192 then []
    else ["?"%char]) s.

(** [a or b] on strings *)
Definition or_else (a b : pystr) : pystr :=
  match a with
  | [] => b
  | _ :: _ => a
  end.

(** truthiness of a string *)
Definition truthy (s : pystr) : bool :=
  match s with
  | [] => false
  | _ :: _ => true
  end.

(** The white space of [str]: the code points for which [str.isspace]
    holds, each as the bytes of its UTF-8 encoding.  They are the
    characters 9 to 13 and 28 to 31, the blank, U+0085, U+00A0, U+1680,
    U+2000 to U+200A, U+2028, U+2029, U+202F, U+205F and U+3000. *)
Definition whitespace : list pystr :=
  map (fun n => [ascii_of_nat n]) [9; 10; 11; 12; 13; 28; 29; 30; 31; 32]
  ++ map (map ascii_of_nat)
       [[194; 133]; [194; 160]; [225; 154; 128];
        [226; 128; 128]; [226; 128; 129]; [226; 128; 130]; [226; 128; 131];
        [226; 128; 132]; [226; 128; 133]; [226; 128; 134]; [226; 128; 135];
        [226; 128; 136]; [226; 128; 137]; [226; 128; 138];
        [226; 128; 168]; [226; 128; 169]; [226; 128; 175];
        [226; 129; 159]; [227; 128; 128]].

(** The number of bytes of the character among [chars] that [s] starts
    with; 0 when it starts with none of them. *)
Definition lead (chars : list pystr) (s : pystr) : nat :=
  match List.find (fun p => startswith p s) chars with
  | Some p => length p
  | None => 0
  end.

(** Dropping the characters of [chars] at the front of [s]; every step
    drops at least one byte, so [length s] steps are enough. *)
Fixpoint drop_leading (fuel : nat) (chars : list pystr) (s : pystr) : pystr :=
  match fuel with
  | 0 => s
  | S n =>
      match lead chars s with
      | 0 => s
      | S k => drop_leading n chars (drop (S k) s)
      end
  end.

(** [s.lstrip()], [s.rstrip()] and [s.strip()]; at the end of the text the
    bytes of a character are met in reverse order. *)
Definition lstrip (s : pystr) : pystr :=
  drop_leading (length s) whitespace s.

Definition rstrip (s : pystr) : pystr :=
  rev (drop_leading (length s) (map (@rev ascii) whitespace) (rev s)).

Definition strip (s : pystr) : pystr := rstrip (lstrip s).

(** [str(n)] for a non-negative integer *)
Definition str_nat (n : nat) : pystr :=
  NilZero.string_of_uint (Nat.to_uint n).

End Py.

(** ** The regular expression of the save-path rewrite

    [re.sub(r'\.save\([^)]*\)', repl, code)]: scanning from the left, a
    match starts with the six characters of the save-call opening and runs
    to the first closing parenthesis after them; the negated class also
    accepts newlines.  Where no closing parenthesis follows there is no
    match.  Matches do not overlap. *)
Module Re.

Fixpoint strip_prefix (p s : pystr) : option pystr :=
  match p, s with
  | [], _ => Some s
  | _ :: _, [] => None
  | a :: p', b :: s' => if Ascii.eqb a b then strip_prefix p' s' else None
  end.

(** the text after the first closing parenthesis *)
Fixpoint after_rparen (s : pystr) : option pystr :=
  match s with
  | [] => None
  | c :: t => if Ascii.eqb c ")" then Some t else after_rparen t
  end.

Definition save_open : pystr := ".save(".

(** a match anchored at the start of [s]; the result is the text after it *)
Definition match_save (s : pystr) : option pystr :=
  match strip_prefix save_open s with
  | Some r => after_rparen r
  | None => None
  end.

Equations? re_sub_save (repl s : pystr) : pystr by wf (length s) lt :=
  re_sub_save repl [] := [];
  re_sub_save repl (c :: t) with inspect (match_save (c :: t)) := {
    | exist _ (Some rest) _ := repl ++ re_sub_save repl rest;
    | exist _ None _ := c :: re_sub_save repl t }.
Proof.
  assert (Hs : forall p s r, strip_prefix p s = Some r -> length r <= length s).
  { induction p as [|a p IH]; intros [|b s] r E; simpl in E; try congruence.
    - inversion E; simpl; lia.
    - inversion E; simpl; lia.
    - destruct (Ascii.eqb a b); [|congruence]. apply IH in E. simpl; lia. }
  assert (Ha : forall s r, after_rparen s = Some r -> length r < length s).
  { induction s as [|b s IH]; intros r E; simpl in E; [congruence|].
    destruct (Ascii.eqb b ")").
    - inversion E; subst; simpl; lia.
    - apply IH in E. simpl; lia. }
  unfold match_save in e.
  destruct (strip_prefix save_open (c :: t)) as [r|] eqn:E; [|congruence].
  apply Hs in E. apply Ha in e. simpl in E. simpl. lia.
Qed.

End Re.

(** ** [pathlib] on a POSIX host

    A path is its root ([""], ["/"] or ["//"]) and its components; parsing
    drops empty components and ["."], keeps [".."], and joining with an
    absolute path discards the left operand. *)
Module Pathlib.
Import Py.

Record PurePath := { root : pystr; parts : list pystr }.

(** [posixpath.splitroot]: exactly two leading slashes are a root of their
    own, any other number of them is the root directory. *)
Definition splitroot (s : pystr) : pystr * pystr :=
  if negb (startswith "/" s) then ([], s)
  else if negb (startswith "//" s) || startswith "///" s
       then ("/" : pystr, drop 1 s)
       else ("//" : pystr, drop 2 s).

Definition is_component (x : pystr) : bool :=
  negb (if decide (x = []) then true else false)
  && negb (if decide (x = ("." : pystr)) then true else false).

(** [Path(s)] *)
Definition Path (s : pystr) : PurePath :=
  let '(rt, rel) := splitroot s in
  {| root := rt; parts := List.filter is_component (split slash rel) |}.

(** [p / key] *)
Definition div (p : PurePath) (key : pystr) : PurePath :=
  let q := Path key in
  match root q with
  | [] => {| root := root p; parts := parts p ++ parts q |}
  | _ :: _ => q
  end.

(** [str(p)] *)
Definition str (p : PurePath) : pystr :=
  match root p, parts p with
  | [], [] => "."
  | rt, ps => rt ++ join "/" ps
  end.

(** [p.parent] *)
Definition parent (p : PurePath) : PurePath :=
  {| root := root p; parts := removelast (parts p) |}.

(** [p.name] *)
Definition name (p : PurePath) : pystr := List.last (parts p) [].

End Pathlib.

(** ** The world the tools act on

    The file system (directories and regular files, keyed by the path text
    handed to the operating system), the log records emitted so far, and
    Python exceptions as values. *)
Module Effects.
Import Py Pathlib.

Inductive level := INFO | WARNING | ERROR.

Record World := {
  dirs : gset pystr;
  files : gmap pystr pystr;
  log : list (level * pystr) }.

Inductive exn :=
| SyntaxError (lineno : option nat) (msg : pystr)
| TimeoutExpired
| FileNotFoundError (msg : pystr)
| OSError (msg : pystr)
| AttributeError (msg : pystr)
| OtherException (msg : pystr).

(** [str(e)] *)
Definition exn_str (e : exn) : pystr :=
  match e with
  | SyntaxError _ m => m
  | TimeoutExpired => "Command timed out"
  | FileNotFoundError m | OSError m | AttributeError m | OtherException m => m
  end.

Inductive result (A : Type) :=
| Ok (a : A)
| Raise (e : exn).
Arguments Ok {A} a.
Arguments Raise {A} e.

Definition M (A : Type) : Type := World -> result A * World.

#[global] Instance M_ret : MRet M := fun A a w => (Ok a, w).
#[global] Instance M_bind : MBind M := fun A B f m w =>
  match m w with
  | (Ok a, w') => f a w'
  | (Raise e, w') => (Raise e, w')
  end.

Definition raise {A} (e : exn) : M A := fun w => (Raise e, w).

(** [try: body  except Exception as e: handler e] *)
Definition try_except {A} (body : M A) (handler : exn -> M A) : M A :=
  fun w =>
    match body w with
    | (Ok a, w') => (Ok a, w')
    | (Raise e, w') => handler e w'
    end.

Definition logger (l : level) (msg : pystr) : M unit := fun w =>
  (Ok (), {| dirs := dirs w; files := files w; log := log w ++ [(l, msg)] |}).

Definition is_dir (p : pystr) (w : World) : bool := bool_decide (p ∈ dirs w).
Definition is_file (p : pystr) (w : World) : bool :=
  bool_decide (is_Some (files w !! p)).
Definition path_exists (p : pystr) (w : World) : bool :=
  is_dir p w || is_file p w.

(** [os.path.exists(p)] and [Path.exists()] *)
Definition os_path_exists (p : pystr) : M bool := fun w =>
  (Ok (path_exists p w), w).

Definition errno (text path : pystr) : pystr :=
  text ++ ": '" ++ path ++ "'".

(** [os.mkdir(p)] *)
Definition os_mkdir (p : PurePath) : M unit := fun w =>
  let k := str p in
  if path_exists k w then
    (Raise (OSError (errno "[Errno 17] File exists" k)), w)
  else if is_dir (str (parent p)) w then
    (Ok (), {| dirs := {[k]} ∪ dirs w; files := files w; log := log w |})
  else if is_file (str (parent p)) w then
    (Raise (OSError (errno "[Errno 20] Not a directory" k)), w)
  else
    (Raise (FileNotFoundError (errno "[Errno 2] No such file or directory" k)), w).

(** [Path.mkdir(parents=..., exist_ok=...)].  The recursion climbs one
    parent per level; with [parents] set, [fuel] is the number of components
    of [p], so it is zero exactly where the path is its own parent and the
    code re-raises. *)
Fixpoint mkdir_fuel (fuel : nat) (parents exist_ok : bool) (p : PurePath)
  : M unit :=
  try_except (os_mkdir p) (fun e =>
    match e with
    | FileNotFoundError _ =>
        match fuel with
        | S n =>
            if negb parents then raise e
            else
              mkdir_fuel n true true (parent p) ;;
              mkdir_fuel n false exist_ok p
        | 0 => raise e
        end
    | OSError _ =>
        fun w =>
          if negb exist_ok || negb (is_dir (str p) w) then (Raise e, w)
          else (Ok (), w)
    | _ => raise e
    end).

Definition mkdir (parents exist_ok : bool) (p : PurePath) : M unit :=
  mkdir_fuel (length (parts p)) parents exist_ok p.

(** [with open(p, 'w') as f: f.write(content)] *)
Definition write_text (p : PurePath) (content : pystr) : M unit := fun w =>
  let k := str p in
  if is_dir k w then
    (Raise (OSError (errno "[Errno 21] Is a directory" k)), w)
  else if is_dir (str (parent p)) w then
    (Ok (), {| dirs := dirs w; files := <[k := content]> (files w);
               log := log w |})
  else
    (Raise (FileNotFoundError (errno "[Errno 2] No such file or directory" k)), w).

(** [os.path.basename(s)] *)
Definition basename (s : pystr) : pystr := List.last (split slash s) [].

(** [shutil.copy2(src, dst)] *)
Definition copy2 (src : pystr) (dst : PurePath) : M unit := fun w =>
  match files w !! src with
  | None =>
      (Raise (FileNotFoundError (errno "[Errno 2] No such file or directory" src)), w)
  | Some content =>
      if is_dir (str dst) w
      then write_text (div dst (basename src)) content w
      else write_text dst content w
  end.

(** The outcome of [subprocess.run(..., timeout=...)]: the child exited
    with a return code and its captured streams, or the deadline passed
    and the child was killed. *)
Inductive proc_outcome :=
| Completed (returncode : Z) (stdout stderr : pystr)
| Expired.

End Effects.

(** ** [app/ppt_gen/tools_ppt.py] *)
Module ToolsPPT.
Import Py Re Pathlib Effects.

(** *** [create_project_folder] *)

Record folder_result := {
  unique_id : pystr;
  project_folder : pystr;
  folder_status : pystr;
  folder_error : option pystr }.

Definition folder_name (topic timestamp uid : pystr) : pystr :=
  "ppt_presentation_" ++ topic ++ "_" ++ timestamp ++ "_" ++ uid.

Definition project_root (cwd topic timestamp uid : pystr) : PurePath :=
  div (div (Path cwd) "generated_presentations")
      (folder_name topic timestamp uid).

Definition subdirectories : list pystr :=
  ["code" : pystr; "presentations" : pystr; "assets" : pystr; "logs" : pystr].

(** [cwd] is [Path.cwd()], [uuid4] the text of [uuid.uuid4()] and
    [timestamp] the formatted [datetime.now()] read by the call. *)
Definition create_project_folder (cwd uuid4 timestamp topic : pystr)
  : M folder_result :=
  try_except
    (let uid := take 8 uuid4 in
     let folder := project_root cwd topic timestamp uid in
     mkdir true true folder ;;
     logger INFO ("Created project folder: " ++ str folder) ;;
     mkdir false true (div folder "code") ;;
     mkdir false true (div folder "presentations") ;;
     mkdir false true (div folder "assets") ;;
     mkdir false true (div folder "logs") ;;
     mret {| unique_id := uid;
             project_folder := str folder;
             folder_status := "success";
             folder_error := None |})
    (fun e =>
       logger ERROR ("Error creating project folder: " ++ exn_str e) ;;
       mret {| unique_id := [];
               project_folder := [];
               folder_status := "error";
               folder_error := Some (exn_str e) |}).

(** *** [validate_ppt_code] *)

(** The returned dict; a key the dict does not hold is [None]. *)
Record validation_results := {
  syntax_valid : bool;
  imports_template : option bool;
  uses_template_system : option bool;
  creates_presentation : bool;
  saves_presentation : bool;
  has_slides : bool;
  template_theme_selected : option bool;
  uses_raw_pptx : option bool;
  imports_pptx : option bool;
  errors : list pystr;
  warnings : list pystr }.

Definition themes : list pystr :=
  ["business" : pystr; "tech" : pystr; "creative" : pystr; "corporate" : pystr].

Definition template_methods : list pystr :=
  ["create_title_slide" : pystr; "create_content_slide" : pystr;
   "create_section_slide" : pystr; "create_comparison_slide" : pystr;
   "create_conclusion_slide" : pystr; "create_thank_you_slide" : pystr;
   "create_image_slide" : pystr; "create_image_content_slide" : pystr;
   "create_image_comparison_slide" : pystr].

Definition problematic_patterns : list pystr :=
  ["Visual note:" : pystr; "Image suggestion:" : pystr;
   "supporting image" : pystr; "image located at" : pystr;
   "assets/image_" : pystr; "project_images/" : pystr;
   ".jpg" : pystr; ".png" : pystr].

Definition theme_call (theme : pystr) : pystr :=
  "create_template(" ++ [dquote] ++ theme ++ [dquote] ++ ")".

Definition pattern_warning (pattern : pystr) : pystr :=
  "WARNING: Found '" ++ pattern
  ++ "' in code - images should use image slide methods, not text references".

Definition missing_import_error : pystr :=
  "CRITICAL: Missing template import. Must include: from ppt_templates import create_template".
Definition missing_template_error : pystr :=
  "CRITICAL: Must use template system. Include: ppt = create_template('theme_name')".
Definition raw_pptx_error : pystr :=
  "CRITICAL: Raw python-pptx usage detected. Must use template system only".
Definition theme_warning : pystr :=
  "Template theme not clearly specified. Use: business, tech, creative, or corporate".
Definition save_warning : pystr := "Presentation save method not found".
Definition slides_warning : pystr := "No template slide creation methods found".

(** The checks made once the text has parsed. *)
Definition check_requirements (code : pystr) : validation_results :=
  let lines := split newline code in
  let code_text := join [newline] lines in
  let imports := contains "from ppt_templates import create_template" code_text in
  let uses := contains "create_template(" code_text in
  let theme := existsb (fun t => contains (theme_call t) code_text) themes in
  let raw :=
    contains "Presentation()" code_text || contains "pptx.Presentation()" code_text
    || contains "from pptx import Presentation" code_text
    || contains "import pptx" code_text in
  let saves := contains ".save(" code_text in
  let slides := existsb (fun m => contains m code_text) template_methods in
  let found :=
    List.filter (fun pat => contains pat code_text
                            && contains "create_content_slide" code_text)
                problematic_patterns in
  {| syntax_valid := true;
     imports_template := Some imports;
     uses_template_system := Some uses;
     creates_presentation := uses;
     saves_presentation := saves;
     has_slides := slides;
     template_theme_selected := Some theme;
     uses_raw_pptx := Some raw;
     imports_pptx := None;
     errors :=
       (if imports then [] else [missing_import_error])
       ++ (if uses then [] else [missing_template_error])
       ++ (if raw then [raw_pptx_error] else []);
     warnings :=
       map pattern_warning found
       ++ (if theme then [] else [theme_warning])
       ++ (if saves then [] else [save_warning])
       ++ (if slides then [] else [slides_warning]) |}.

Definition rejected (message : pystr) : validation_results :=
  {| syntax_valid := false;
     imports_template := None;
     uses_template_system := None;
     creates_presentation := false;
     saves_presentation := false;
     has_slides := false;
     template_theme_selected := None;
     uses_raw_pptx := None;
     imports_pptx := Some false;
     errors := [message];
     warnings := [] |}.

(** [str(e.lineno)]; the attribute may be [None] *)
Definition str_lineno (lineno : option nat) : pystr :=
  match lineno with
  | Some n => str_nat n
  | None => "None"
  end.

Section Validator.
(** [ast.parse]: [None] when the text parses, otherwise the exception
    the parser raises on it. *)
Variable ast_parse : pystr -> option exn.

Definition parse (code : pystr) : M unit :=
  match ast_parse code with
  | None => mret ()
  | Some e => raise e
  end.

Definition validate_ppt_code (code : pystr) : M validation_results :=
  try_except
    (logger INFO ("Validating code: " ++ code) ;;
     parse code ;;
     mret (check_requirements code))
    (fun e =>
       match e with
       | SyntaxError lineno msg =>
           mret (rejected ("Syntax error at line " ++ str_lineno lineno
                           ++ ": " ++ msg))
       | _ => mret (rejected ("Validation error: " ++ exn_str e))
       end).
End Validator.

(** *** [execute_ppt_code] *)

Record exec_result := {
  status : pystr;
  ppt_path : pystr;
  output : option pystr;
  error : option pystr;
  message : pystr }.

Definition ensure_pptx (filename : pystr) : pystr :=
  if endswith ".pptx" filename then filename else filename ++ ".pptx".

Definition output_path (project_folder filename : pystr) : PurePath :=
  div (div (Path project_folder) "presentations") (ensure_pptx filename).

Definition output_path_str (project_folder filename : pystr) : pystr :=
  replace_char backslash slash (str (output_path project_folder filename)).

(** the replacement text [.save(r"<out>")]; it holds no backslash, so the
    regular-expression engine inserts it literally *)
Definition save_call (out : pystr) : pystr :=
  ".save(r" ++ [dquote] ++ out ++ [dquote] ++ ")".

Definition appended_save (out : pystr) : pystr :=
  [newline; newline] ++ "# Save the presentation" ++ [newline] ++ "prs"
  ++ save_call out.

(** "Fix save path in the code" *)
Definition fix_save_path (out code : pystr) : pystr :=
  if contains ".save(" code then re_sub_save (save_call out) code
  else code ++ appended_save out.

Definition template_import : pystr := "from ppt_templates import".
Definition template_source : pystr := "app\ppt_gen\ppt_templates.py".

Definition path_setup : pystr :=
  join [newline]
    ["import sys" : pystr;
     "import os" : pystr;
     "# Add current directory to Python path for template imports" : pystr;
     "sys.path.insert(0, os.path.dirname(os.path.abspath(__file__)))" : pystr;
     "sys.path.insert(0, os.path.dirname(os.path.dirname(os.path.abspath(__file__))))" : pystr;
     [];
     []].

(** [template_source.exists()]: [template_source] is a [str], which has
    no such method. *)
Definition str_exists : M bool :=
  raise (AttributeError "'str' object has no attribute 'exists'").

Section Executor.
(** The child process: what running [argv] in directory [cwd] under the
    deadline does to the world, and how it ends. *)
Variable child : list pystr -> pystr -> nat -> World -> proc_outcome * World.
Variable sys_executable : pystr.

(** [subprocess.run(argv, capture_output=True, text=True, timeout=t, cwd=cwd)] *)
Definition subprocess_run (argv : list pystr) (cwd : pystr) (t : nat)
  : M (Z * pystr * pystr) :=
  fun w =>
    match child argv cwd t w with
    | (Completed rc out err, w') => (Ok (rc, out, err), w')
    | (Expired, w') => (Raise TimeoutExpired, w')
    end.

Definition run_and_classify (project_path code_file out_path : PurePath)
  : M exec_result :=
  '(returncode, stdout, stderr) ←
    subprocess_run [sys_executable; str code_file] (str project_path) 120;
  if (returncode =? 0)%Z then
    present ← os_path_exists (str out_path);
    if present : bool then
      logger INFO ("Presentation generated successfully: " ++ str out_path) ;;
      mret {| status := "success";
              ppt_path := str out_path;
              output := Some stdout;
              error := None;
              message := "PowerPoint presentation generated successfully" |}
    else
      logger WARNING "Code execution completed but no presentation file found" ;;
      mret {| status := "warning";
              ppt_path := [];
              output := Some stdout;
              error := None;
              message := "Code execution completed but no presentation file found" |}
  else
    let error_msg := or_else stderr stdout in
    logger ERROR ("PowerPoint code execution failed: " ++ error_msg) ;;
    mret {| status := "error";
            ppt_path := [];
            output := Some stdout;
            error := Some error_msg;
            message := "PowerPoint code execution failed: " ++ error_msg |}.

(** "Always copy template file to project directory": the result is the
    dict returned early when the source file is missing. *)
Definition copy_to_project (project_path : PurePath) : M (option exec_result) :=
  let template_dest := div project_path "ppt_templates.py" in
  present ← os_path_exists template_source;
  if present : bool then
    copy2 template_source template_dest ;;
    logger INFO ("Copied ppt_templates.py to " ++ str template_dest) ;;
    mret None
  else
    logger ERROR ("Template source file not found at " ++ template_source) ;;
    mret (Some {| status := "error";
                  ppt_path := [];
                  output := None;
                  error := None;
                  message := "Template source file not found at "
                             ++ template_source |}).

(** "Also copy template to code directory for easier import" *)
Definition copy_to_code (project_path : PurePath) : M () :=
  let code_template_dest := div (div project_path "code") "ppt_templates.py" in
  present ← str_exists;
  if present : bool then
    copy2 template_source code_template_dest ;;
    logger INFO ("Copied ppt_templates.py to " ++ str code_template_dest)
  else mret ().

Definition execute_body (code project_folder filename : pystr)
  : M exec_result :=
  let project_path := Path project_folder in
  let code_file := div (div project_path "code") "generate_ppt.py" in
  let out_path := output_path project_folder filename in
  let code := fix_save_path (output_path_str project_folder filename) code in
  early ←
    (if contains template_import code then copy_to_project project_path
     else mret None);
  match early with
  | Some r => mret r
  | None =>
      (if contains template_import code then copy_to_code project_path
       else mret ()) ;;
      let code :=
        if contains template_import code then path_setup ++ code else code in
      write_text code_file code ;;
      logger INFO ("Executing PowerPoint code in " ++ str code_file) ;;
      run_and_classify project_path code_file out_path
  end.

Definition execute_ppt_code (code project_folder filename : pystr)
  : M exec_result :=
  try_except (execute_body code project_folder filename)
    (fun e =>
       match e with
       | TimeoutExpired =>
           logger ERROR "PowerPoint code execution timed out" ;;
           mret {| status := "error";
                   ppt_path := [];
                   output := None;
                   error := None;
                   message := "PowerPoint code execution timed out (>2 minutes)" |}
       | _ =>
           logger ERROR ("Error executing PowerPoint code: " ++ exn_str e) ;;
           mret {| status := "error";
                   ppt_path := [];
                   output := None;
                   error := None;
                   message := "Error executing PowerPoint code: " ++ exn_str e |}
       end).
End Executor.

(** *** [save_code_to_file] *)

Record save_result := { save_status : pystr; save_message : pystr }.

(** The [filename] argument is accepted and not used. *)
Definition save_code_to_file (code project_folder filename : pystr)
  : M save_result :=
  try_except
    (let project_path := Path project_folder in
     let code_file := div (div project_path "code") "generate_ppt.py" in
     write_text code_file code ;;
     mret {| save_status := "success";
             save_message := "Code saved to " ++ str code_file |})
    (fun e =>
       mret {| save_status := "error";
               save_message := "Error saving code to file: " ++ exn_str e |}).

(** *** [check_pptx_installation] *)

Record install_result := {
  install_status : pystr;
  version : option pystr;
  install_message : pystr }.

Definition import_check : list pystr :=
  ["-c" : pystr; "import pptx; print(pptx.__version__)" : pystr].

Definition pip_install : list pystr :=
  ["-m" : pystr; "pip" : pystr; "install" : pystr; "python-pptx" : pystr].

Section Installer.
(** A child started without a working directory of its own: what running
    [argv] under the deadline does to the world, and how it ends. *)
Variable run : list pystr -> nat -> World -> proc_outcome * World.
Variable sys_executable : pystr.

(** [subprocess.run(argv, capture_output=True, text=True, timeout=t)] *)
Definition run_python (args : list pystr) (t : nat) : M (Z * pystr * pystr) :=
  fun w =>
    match run (sys_executable :: args) t w with
    | (Completed rc out err, w') => (Ok (rc, out, err), w')
    | (Expired, w') => (Raise TimeoutExpired, w')
    end.

Definition check_pptx_installation : M install_result :=
  try_except
    ('(returncode, stdout, _) ← run_python import_check 30;
     if (returncode =? 0)%Z then
       let v := strip stdout in
       logger INFO ("python-pptx is already installed, version: " ++ v) ;;
       mret {| install_status := "already_installed";
               version := Some v;
               install_message := "python-pptx version " ++ v ++ " is ready to use" |}
     else
       logger INFO "Installing python-pptx..." ;;
       '(install_code, _, install_stderr) ← run_python pip_install 120;
       if (install_code =? 0)%Z then
         '(verify_code, verify_stdout, _) ← run_python import_check 30;
         if (verify_code =? 0)%Z then
           let v := strip verify_stdout in
           logger INFO ("python-pptx successfully installed, version: " ++ v) ;;
           mret {| install_status := "newly_installed";
                   version := Some v;
                   install_message :=
                     "python-pptx version " ++ v
                     ++ " has been installed successfully" |}
         else
           logger ERROR "python-pptx installation verification failed" ;;
           mret {| install_status := "error";
                   version := None;
                   install_message :=
                     "python-pptx installation verification failed" |}
       else
         let error_msg := or_else install_stderr "Unknown installation error" in
         logger ERROR ("python-pptx installation failed: " ++ error_msg) ;;
         mret {| install_status := "error";
                 version := None;
                 install_message :=
                   "python-pptx installation failed: " ++ error_msg |})
    (fun e =>
       match e with
       | TimeoutExpired =>
           logger ERROR "python-pptx installation/check timed out" ;;
           mret {| install_status := "error";
                   version := None;
                   install_message :=
                     "python-pptx installation/check timed out" |}
       | _ =>
           logger ERROR ("Error checking/installing python-pptx: " ++ exn_str e) ;;
           mret {| install_status := "error";
                   version := None;
                   install_message :=
                     "Error checking/installing python-pptx: " ++ exn_str e |}
       end).
End Installer.

End ToolsPPT.

(** ** [app/ppt_gen/ppt_templates.py]: the template factory *)
Module Templates.

Inductive RGBColor := RGB (r g b : nat).

Record scheme := {
  primary : RGBColor;
  secondary : RGBColor;
  accent : RGBColor;
  background : RGBColor;
  text : RGBColor }.

#[global] Instance scheme_inhabited : Inhabited scheme :=
  populate {| primary := RGB 0 0 0; secondary := RGB 0 0 0;
              accent := RGB 0 0 0; background := RGB 0 0 0;
              text := RGB 0 0 0 |}.

(** [PPTDesignSystem.COLORS] *)
Definition COLORS : gmap pystr scheme :=
  <[("business_blue" : pystr) :=
      {| primary := RGB 0 120 212; secondary := RGB 40 40 40;
         accent := RGB 0 178 148; background := RGB 255 255 255;
         text := RGB 32 32 32 |}]>
  (<[("modern_purple" : pystr) :=
      {| primary := RGB 102 45 145; secondary := RGB 68 68 68;
         accent := RGB 255 185 0; background := RGB 255 255 255;
         text := RGB 33 33 33 |}]>
  (<[("tech_green" : pystr) :=
      {| primary := RGB 46 125 50; secondary := RGB 55 71 79;
         accent := RGB 255 152 0; background := RGB 255 255 255;
         text := RGB 33 33 33 |}]>
  (<[("corporate_red" : pystr) :=
      {| primary := RGB 183 28 28; secondary := RGB 66 66 66;
         accent := RGB 0 188 212; background := RGB 255 255 255;
         text := RGB 33 33 33 |}]> ∅))).

Record font := { font_name : pystr; size_pt : nat; bold : bool }.

(** [PPTDesignSystem.FONTS] *)
Definition FONTS : gmap pystr font :=
  <[("title" : pystr) := {| font_name := "Calibri"; size_pt := 44; bold := true |}]>
  (<[("subtitle" : pystr) := {| font_name := "Calibri"; size_pt := 20; bold := false |}]>
  (<[("heading" : pystr) := {| font_name := "Calibri"; size_pt := 32; bold := true |}]>
  (<[("body" : pystr) := {| font_name := "Calibri"; size_pt := 16; bold := false |}]>
  (<[("caption" : pystr) := {| font_name := "Calibri"; size_pt := 14; bold := false |}]> ∅)))).

Inductive template_class :=
| BusinessTemplate
| TechTemplate
| CreativeTemplate
| CorporateTemplate.

Inductive slide := Slide (layout : nat) (title : pystr).

(** An instance: its class, the deck built so far, and the design data
    [__init__] stores. *)
Record PPTTemplate := {
  class_of : template_class;
  prs : list slide;
  color_scheme : scheme;
  fonts : gmap pystr font }.

(** [PPTTemplate.__init__(self, color_scheme)] *)
Definition init (c : template_class) (scheme_name : pystr) : PPTTemplate :=
  {| class_of := c;
     prs := [];
     color_scheme :=
       default (COLORS !!! ("business_blue" : pystr)) (COLORS !! scheme_name);
     fonts := FONTS |}.

(** [template_class()] *)
Definition instantiate (c : template_class) : PPTTemplate :=
  match c with
  | BusinessTemplate => init c "business_blue"
  | TechTemplate => init c "tech_green"
  | CreativeTemplate => init c "modern_purple"
  | CorporateTemplate => init c "corporate_red"
  end.

Definition templates : gmap pystr template_class :=
  <[("business" : pystr) := BusinessTemplate]>
  (<[("tech" : pystr) := TechTemplate]>
  (<[("creative" : pystr) := CreativeTemplate]>
  (<[("corporate" : pystr) := CorporateTemplate]> ∅))).

Definition create_template (template_type : pystr) : PPTTemplate :=
  let template_class := default BusinessTemplate (templates !! template_type) in
  instantiate template_class.

(** [PPTTemplate.save(filename)]: the path text handed to the save of the
    presentation library. *)
Definition save_target (filename : pystr) : pystr :=
  let filename' :=
    if Py.endswith ".pptx" filename then filename else filename ++ ".pptx" in
  Pathlib.str (Pathlib.Path filename').

End Templates.

(** ** [app/ppt_gen/ppt_generator_agent.py] *)
Module Agent.
Import Py Effects.

Record message := { content : pystr }.

(** What the supervisor yields for one agent; the [messages] key may be
    missing. *)
Record value := { messages : option (list message) }.

(** One streamed event: agent name to value, in the order of its items. *)
Definition event := list (pystr * value).

(** The iterator of [supervisor.stream]: the events it yields and, when
    it does not end normally, the exception it raises after them. *)
Record stream := { events : list event; failure : option exn }.

(** The declared graph state; no function of the module reads or writes
    a value of this type. *)
Record PPTGeneratorState := {
  state_messages : list message;
  state_topic : pystr;
  research_content : pystr;
  content_plan : pystr;
  slide_structure : pystr;
  ppt_code : pystr;
  validation_result : pystr;
  execution_result : pystr;
  state_ppt_path : pystr;
  state_unique_id : pystr;
  state_project_folder : pystr;
  state_errors : list pystr;
  current_iteration : Z;
  max_iterations : Z }.

Record log_entry := {
  agent : pystr;
  entry_content : pystr;
  timestamp : pystr }.

Record generation_result := {
  success : bool;
  topic : pystr;
  thread_id : pystr;
  workflow_log : list log_entry;
  agent_outputs : option (gmap pystr pystr);
  ppt_path : option pystr;
  project_folder : option pystr;
  email_sent : option bool;
  email_recipient : option pystr;
  error : option pystr }.

Definition success_indicators : list pystr :=
  ["PowerPoint presentation generated successfully" : pystr;
   "ppt_path" : pystr;
   "status.*success" : pystr;
   "presentation.*created" : pystr].

(** the white heavy check mark, in UTF-8 *)
Definition check_mark : pystr := ["226"%char; "156"%char; "133"%char].

Definition is_successful (executor_output : pystr) : bool :=
  existsb (fun indicator => contains (lower indicator) (lower executor_output))
          success_indicators.

Definition email_delivered (email_output : pystr) : bool :=
  truthy email_output
  && (contains "Email sent successfully" email_output
      || contains check_mark email_output).

Definition str_bool (b : bool) : pystr := if b then "True" else "False".

Section Run.
(** [supervisor.stream(input, config)], given the text of the human
    message and the thread id. *)
Variable supervisor_stream : pystr -> pystr -> stream.
(** the text of the [k]-th reading of [datetime.now().isoformat()] *)
Variable now : nat -> pystr.
(** the text of [uuid.uuid4()] drawn when no thread id is given *)
Variable uuid4 : pystr.

Definition track := (list log_entry * gmap pystr pystr)%type.

Definition record_item (st : track) (item : pystr * value) : M track :=
  let '(agent_name, v) := item in
  match messages v with
  | Some (m :: ms) =>
      let latest_message := List.last ms m in
      let safe_content := ascii_replace (content latest_message) in
      logger INFO ("Agent '" ++ agent_name ++ "': " ++ safe_content ++ "...") ;;
      logger INFO (repeat "-"%char 40) ;;
      mret (st.1 ++ [{| agent := agent_name;
                        entry_content := content latest_message;
                        timestamp := now (length st.1) |}],
            <[agent_name := content latest_message]> st.2)
  | _ => mret st
  end.

Fixpoint record_event (st : track) (ev : event) : M track :=
  match ev with
  | [] => mret st
  | item :: rest => st' ← record_item st item; record_event st' rest
  end.

Fixpoint record_events (st : track) (evs : list event) : M track :=
  match evs with
  | [] => mret st
  | ev :: rest => st' ← record_event st ev; record_events st' rest
  end.

(** the text of the human message handed to the supervisor *)
Definition request_text (topic_ : pystr) (email_recipient_ : option pystr)
  : pystr :=
  let email_instruction : pystr :=
    match email_recipient_ with
    | Some (c :: r) => " Also send the presentation to " ++ (c :: r) ++ " via email."
    | _ => []
    end in
  "Generate a professional PowerPoint presentation about: " ++ topic_
  ++ email_instruction.

Definition thread_of (thread_id_ : option pystr) : pystr :=
  match thread_id_ with
  | Some t => t
  | None => take 8 uuid4
  end.

Definition generate_powerpoint_presentation
    (topic_ : pystr) (thread_id_ email_recipient_ : option pystr)
  : M generation_result :=
  let tid := thread_of thread_id_ in
  logger INFO ("Starting PowerPoint presentation generation for topic: " ++ topic_) ;;
  logger INFO (repeat "="%char 60) ;;
  let run := supervisor_stream (request_text topic_ email_recipient_) tid in
  st ← record_events ([], ∅) (events run);
  match failure run with
  | Some e =>
      logger ERROR ("Error during presentation generation: " ++ exn_str e) ;;
      mret {| success := false; topic := topic_; thread_id := tid;
              workflow_log := st.1; agent_outputs := None;
              ppt_path := None; project_folder := None;
              email_sent := None; email_recipient := None;
              error := Some (exn_str e) |}
  | None =>
      let executor_output :=
        default [] (st.2 !! ("ppt_executor_agent" : pystr)) in
      logger INFO ("executor_output : " ++ executor_output) ;;
      let email_output :=
        default [] (st.2 !! ("email_sender_agent" : pystr)) in
      let ok := is_successful executor_output in
      logger INFO ("Presentation generation completed. Success: " ++ str_bool ok) ;;
      mret {| success := ok; topic := topic_; thread_id := tid;
              workflow_log := st.1; agent_outputs := Some st.2;
              ppt_path := None; project_folder := None;
              email_sent := Some (email_delivered email_output);
              email_recipient := email_recipient_;
              error := None |}
  end.
End Run.

End Agent.

(** ** [app/email/email_tools.py] *)
Module Email.
Import Py Pathlib Effects.

(** An attached part: its content type, the bytes read from the file
    (they travel base64-encoded) and its [Content-Disposition] header. *)
Record mime_part := {
  maintype : pystr;
  subtype : pystr;
  payload : pystr;
  content_disposition : pystr }.

(** The [MIMEMultipart] message: its headers in the order they are set,
    the text part with its subtype, and the attached parts. *)
Record mime_message := {
  headers : list (pystr * pystr);
  text_body : pystr;
  text_subtype : pystr;
  attached : list mime_part }.

(** The dict [send_gmail_with_attachment] returns; a key the dict does not
    hold is [None]. *)
Record send_result := {
  success : bool;
  message : option pystr;
  attachment : option pystr;
  recipients : option nat;
  error : option pystr }.

(** The [generation_details] dict as the body reads it: the text of the
    value under [timestamp], when the key is there, and the truth of the
    value under [success]. *)
Record details := {
  timestamp : option pystr;
  succeeded : bool }.

Definition no_details : details := {| timestamp := None; succeeded := false |}.

(** the white heavy check mark and the cross mark, in UTF-8 *)
Definition white_check_mark : pystr := ["226"%char; "156"%char; "133"%char].
Definition cross_mark : pystr := ["226"%char; "157"%char; "140"%char].

Definition credentials_error : pystr :=
  "Gmail credentials not found. Please set GMAIL_EMAIL and GMAIL_APP_PASSWORD environment variables.".

(** [ctype.split('/', 1)] unpacked into two names *)
Fixpoint split_once (s : pystr) : option (pystr * pystr) :=
  match s with
  | [] => None
  | c :: t =>
      if Ascii.eqb c slash then Some ([], t)
      else match split_once t with
           | Some (a, b) => Some (c :: a, b)
           | None => None
           end
  end.

(** [with open(p, 'rb') as fp: fp.read()] *)
Definition read_bytes (p : pystr) : M pystr := fun w =>
  match files w !! p with
  | Some data => (Ok data, w)
  | None =>
      if is_dir p w
      then (Raise (OSError (errno "[Errno 21] Is a directory" p)), w)
      else (Raise (FileNotFoundError
                     (errno "[Errno 2] No such file or directory" p)), w)
  end.

(** a list argument that is given and not empty *)
Definition given (l : option (list pystr)) : list pystr := default [] l.

Section Sender.
(** [os.getenv] *)
Variable getenv : pystr -> option pystr.
(** [mimetypes.guess_type]: the content type and the encoding *)
Variable guess_type : pystr -> option pystr * option pystr.
(** The SMTP session with [smtp.gmail.com:587]: connect, [starttls],
    [login(sender, password)], [sendmail(sender, recipients, text of the
    message)], [quit].  Any of the steps may raise. *)
Variable smtp_session :
  pystr -> pystr -> list pystr -> mime_message -> M unit.

(** [x or os.getenv(key)] *)
Definition or_getenv (x : option pystr) (key : pystr) : option pystr :=
  match x with
  | Some (c :: s) => Some (c :: s)
  | _ => getenv key
  end.

(** The attachment part of the message: the name of the file and the
    part, when a path is given and exists. *)
Definition attach (attachment_path : option pystr)
  : M (option pystr * list mime_part) :=
  match attachment_path with
  | Some (c :: p) =>
      let path := c :: p in
      present ← (os_path_exists (str (Path path)) : M bool);
      if present : bool then
        let attachment_name := name (Path path) in
        let ctype :=
          match guess_type path with
          | (Some ctype, None) => ctype
          | _ => "application/octet-stream" : pystr
          end in
        match split_once ctype with
        | Some (maintype_, subtype_) =>
            data ← read_bytes path;
            mret (Some attachment_name,
                  [{| maintype := maintype_; subtype := subtype_;
                      payload := data;
                      content_disposition :=
                        "attachment; filename=" ++ attachment_name |}])
        | None =>
            raise (OtherException
                     "not enough values to unpack (expected 2, got 1)")
        end
      else mret (None, [])
  | _ => mret (None, [])
  end.

Definition send_gmail_with_attachment
    (to_email subject body : pystr) (attachment_path : option pystr)
    (sender_email sender_password : option pystr)
    (cc_emails bcc_emails : option (list pystr)) : M send_result :=
  try_except
    (match or_getenv sender_email "GMAIL_EMAIL",
           or_getenv sender_password "GMAIL_APP_PASSWORD" with
     | Some (c :: s), Some (d :: p) =>
         let sender := c :: s in
         let password := d :: p in
         let hdrs :=
           [("From" : pystr, sender); ("To" : pystr, to_email);
            ("Subject" : pystr, subject)]
           ++ match given cc_emails with
              | [] => []
              | cc => [("Cc" : pystr, join ", " cc)]
              end
           ++ match given bcc_emails with
              | [] => []
              | bcc => [("Bcc" : pystr, join ", " bcc)]
              end in
         '(attachment_name, parts_) ← attach attachment_path;
         let msg :=
           {| headers := hdrs;
              text_body := body;
              text_subtype := if contains "<" body then "html" else "plain";
              attached := parts_ |} in
         let recipients_ := to_email :: given cc_emails ++ given bcc_emails in
         smtp_session sender password recipients_ msg ;;
         logger INFO ("Email sent successfully to " ++ to_email) ;;
         mret {| success := true;
                 message := Some ("Email sent successfully to " ++ to_email);
                 attachment :=
                   match attachment_name with
                   | Some (a :: n) => Some (a :: n)
                   | _ => None
                   end;
                 recipients := Some (length recipients_);
                 error := None |}
     | _, _ =>
         mret {| success := false; message := None; attachment := None;
                 recipients := None; error := Some credentials_error |}
     end)
    (fun e =>
       let error_msg := "Failed to send email: " ++ exn_str e in
       logger ERROR error_msg ;;
       mret {| success := false; message := None; attachment := None;
               recipients := None; error := Some error_msg |}).

Definition create_ppt_email_body
    (topic ppt_path : pystr) (generation_details : details) : pystr :=
  let ppt_filename : pystr :=
    match ppt_path with
    | [] => "presentation.pptx"
    | _ :: _ => name (Path ppt_path)
    end in
  let generated : pystr := default ("Recently" : pystr) (timestamp generation_details) in
  let status_text : pystr :=
    if succeeded generation_details
    then white_check_mark ++ " Successfully generated"
    else cross_mark ++ " Generation had issues" in
  [newline]
  ++ "    <html>" ++ [newline]
  ++ "    <body style=" ++ [dquote] ++ "font-family: Arial, sans-serif; line-height: 1.6; color: #333;" ++ [dquote] ++ ">" ++ [newline]
  ++ "        <h2 style=" ++ [dquote] ++ "color: #2c3e50;" ++ [dquote] ++ ">PowerPoint Presentation: " ++ topic ++ "</h2>" ++ [newline]
  ++ "        " ++ [newline]
  ++ "        <p>Hello,</p>" ++ [newline]
  ++ "        " ++ [newline]
  ++ "        <p>I'm pleased to share the PowerPoint presentation on <strong>" ++ [dquote] ++ topic ++ [dquote] ++ "</strong> that was automatically generated using our AI-powered presentation system.</p>" ++ [newline]
  ++ "        " ++ [newline]
  ++ "        <h3 style=" ++ [dquote] ++ "color: #34495e;" ++ [dquote] ++ ">Presentation Details:</h3>" ++ [newline]
  ++ "        <ul>" ++ [newline]
  ++ "            <li><strong>Topic:</strong> " ++ topic ++ "</li>" ++ [newline]
  ++ "            <li><strong>File:</strong> " ++ ppt_filename ++ "</li>" ++ [newline]
  ++ "            <li><strong>Generated:</strong> " ++ generated ++ "</li>" ++ [newline]
  ++ "            <li><strong>Status:</strong> " ++ status_text ++ "</li>" ++ [newline]
  ++ "        </ul>" ++ [newline]
  ++ "        " ++ [newline]
  ++ "        <p>The presentation includes:</p>" ++ [newline]
  ++ "        <ul>" ++ [newline]
  ++ "            <li>Research-backed content</li>" ++ [newline]
  ++ "            <li>Professional slide layouts</li>" ++ [newline]
  ++ "            <li>Relevant images and graphics</li>" ++ [newline]
  ++ "            <li>Well-structured information flow</li>" ++ [newline]
  ++ "        </ul>" ++ [newline]
  ++ "        " ++ [newline]
  ++ "        <p>Please find the PowerPoint presentation attached to this email.</p>" ++ [newline]
  ++ "        " ++ [newline]
  ++ "        <p>If you have any questions or need modifications to the presentation, please don't hesitate to reach out.</p>" ++ [newline]
  ++ "        " ++ [newline]
  ++ "        <p>Best regards,<br>" ++ [newline]
  ++ "        <strong>AI Presentation Generator</strong></p>" ++ [newline]
  ++ "        " ++ [newline]
  ++ "        <hr style=" ++ [dquote] ++ "border: 1px solid #eee; margin: 20px 0;" ++ [dquote] ++ ">" ++ [newline]
  ++ "        <p style=" ++ [dquote] ++ "font-size: 12px; color: #666;" ++ [dquote] ++ ">" ++ [newline]
  ++ "            This presentation was automatically generated using AI technology. Please review the content for accuracy and appropriateness before use." ++ [newline]
  ++ "        </p>" ++ [newline]
  ++ "    </body>" ++ [newline]
  ++ "    </html>" ++ [newline]
  ++ "    ".

Definition send_ppt_email_tool
    (to_email subject ppt_path topic : pystr)
    (generation_details : option details) (custom_message : option pystr)
  : M pystr :=
  try_except
    (let body :=
       match custom_message with
       | Some (c :: m) =>
           "<p>" ++ (c :: m) ++ "</p><br>"
           ++ create_ppt_email_body topic ppt_path
                (default no_details generation_details)
       | _ =>
           create_ppt_email_body topic ppt_path
             (default no_details generation_details)
       end in
     result ← send_gmail_with_attachment to_email subject body (Some ppt_path)
                None None None None;
     if success result then
       mret (white_check_mark ++ " Email sent successfully to " ++ to_email
             ++ ". Attachment: " ++ default ("None" : pystr) (attachment result))
     else
       mret (cross_mark ++ " Failed to send email: "
             ++ default [] (error result)))
    (fun e => mret (cross_mark ++ " Error sending email: " ++ exn_str e)).

(** the tool the delivery agent calls *)
Definition send_presentation_email
    (to_email subject ppt_path topic : pystr) (custom_message : option pystr)
  : M pystr :=
  send_ppt_email_tool to_email subject ppt_path topic None custom_message.

End Sender.

End Email.

(** ** [app/image_scrap/image_integration.py] and [image_tools.py] *)
Module Images.
Import Py Pathlib Effects.

(** The values the image dicts hold. *)
Inductive pyval :=
| PyNone
| PyStr (s : pystr)
| PyBool (b : bool)
| PyInt (n : Z).

(** truth of a value *)
Definition py_truthy (v : pyval) : bool :=
  match v with
  | PyNone => false
  | PyStr s => truthy s
  | PyBool b => b
  | PyInt n => negb (n =? 0)%Z
  end.

(** the text of a value inside an f-string *)
Definition py_str (v : pyval) : pystr :=
  match v with
  | PyNone => "None"
  | PyStr s => s
  | PyBool b => if b then "True" else "False"
  | PyInt n => NilZero.string_of_int (Z.to_int n)
  end.

Abbreviation dict := (gmap pystr pyval).

(** [d.get(key, dflt)] *)
Definition get (d : dict) (key : pystr) (dflt : pyval) : pyval :=
  default dflt (d !! key).

(** truth of an optional dict: [None] and the empty dict are false *)
Definition dict_truthy (o : option dict) : bool :=
  match o with
  | Some d => negb (bool_decide (d = ∅))
  | None => false
  end.

(** [l[:n]] *)
Definition prefix {A} (n : Z) (l : list A) : list A :=
  if (0 <=? n)%Z then take (Z.to_nat n) l
  else take (length l - Z.to_nat (- n)) l.

(** An [UnsplashImageManager]: the one attribute its methods read. *)
Record manager := { access_key : option pystr }.

(** The dict [search_presentation_image] returns. *)
Record image_result := {
  status : pystr;
  image_id : pyval;
  local_path : pyval;
  filename : pyval;
  description : pyval;
  photographer : pyval;
  is_placeholder : pyval;
  message : pystr }.

(** An entry of [results] in the dict [search_multiple_images] returns. *)
Record image_entry := {
  entry_topic : pystr;
  entry_status : pystr;
  entry_image_id : pyval;
  entry_local_path : pyval;
  entry_filename : pyval;
  entry_description : pyval;
  entry_photographer : pyval;
  entry_is_placeholder : pyval }.

(** The dict [search_multiple_images] returns. *)
Record images_result := {
  images_status : pystr;
  total_requested : nat;
  successful_downloads : nat;
  results : list image_entry;
  images_message : pystr }.

Section Manager.
(** [os.getenv] *)
Variable getenv : pystr -> option pystr.
(** The request to the search API made by [search_images] and the reading
    of its answer, with both handlers: the image dicts found, the empty
    list when the request or the reading fails.  The arguments are the
    access key, the query and the page size. *)
Variable fetch : pystr -> pystr -> nat -> World -> list dict * World.
(** [download_image(url, save_path)]: the download and the processing of
    the image with the imaging library; true when the file was saved. *)
Variable download_image : pyval -> pystr -> World -> bool * World.
(** Drawing the placeholder for a text and saving it under a path, with the
    imaging library; the directory of the path is created first. *)
Variable render : pystr -> pystr -> M unit.
(** the text of [uuid.uuid4()] and of [uuid.uuid4().hex] *)
Variable uuid4 : pystr.
Variable uuid4_hex : pystr.
(** [s.title()] *)
Variable title : pystr -> pystr.

(** [UnsplashImageManager(access_key)] *)
Definition UnsplashImageManager (key : option pystr) : M manager :=
  let key' :=
    match key with
    | Some (c :: k) => Some (c :: k)
    | _ => getenv "UNSPLASH_ACCESS_KEY"
    end in
  match key' with
  | Some (_ :: _) => mret {| access_key := key' |}
  | _ =>
      logger WARNING "No Unsplash access key provided. Image search will not work." ;;
      mret {| access_key := key' |}
  end.

(** [create_image_manager()] *)
Definition create_image_manager : M manager := UnsplashImageManager None.

(** [self.search_images(query, per_page)] *)
Definition search_images (self : manager) (query : pystr) (per_page : nat)
  : M (list dict) :=
  match access_key self with
  | Some (c :: k) =>
      fun w => let '(images, w') := fetch (c :: k) query (Nat.min per_page 30) w in
               (Ok images, w')
  | _ =>
      logger ERROR "No Unsplash access key available for image search" ;;
      mret []
  end.

(** [self.get_best_image_for_topic(topic, project_folder)] *)
Definition get_best_image_for_topic
    (self : manager) (topic project_folder : pystr) : M (option dict) :=
  try_except
    (images ← search_images self topic 5;
     match images with
     | [] =>
         logger WARNING ("No images found for topic: " ++ topic) ;;
         mret None
     | best_image :: _ =>
         let image_id := get best_image "id" (PyStr (take 8 uuid4)) in
         let filename_ : pystr := "image_" ++ py_str image_id ++ ".jpg" in
         let assets_folder := div (Path project_folder) "assets" in
         let save_path := div assets_folder filename_ in
         let image_url :=
           if py_truthy (get best_image "url_regular" PyNone)
           then get best_image "url_regular" PyNone
           else get best_image "url_small" PyNone in
         saved ← (if py_truthy image_url
                  then (fun w => let '(b, w') :=
                                   download_image image_url (str save_path) w in
                                 (Ok b, w'))
                  else mret false : M bool);
         if saved : bool then
           mret (Some (<[("filename" : pystr) := PyStr filename_]>
                         (<[("local_path" : pystr) := PyStr (str save_path)]>
                            best_image)))
         else
           logger ERROR ("Failed to download image for topic: " ++ topic) ;;
           mret None
     end)
    (fun e =>
       logger ERROR ("Error getting best image for topic '" ++ topic ++ "': "
                     ++ exn_str e) ;;
       mret None).

(** [FallbackImageManager().create_placeholder_image(text, save_path=...)] *)
Definition create_placeholder_image (text_ : pystr) (save_path : option pystr)
  : M pystr :=
  try_except
    (let path : pystr :=
       match save_path with
       | Some (c :: p) => c :: p
       | _ => "placeholder_" ++ take 8 uuid4_hex ++ ".jpg"
       end in
     render text_ path ;;
     logger INFO ("Created placeholder image: " ++ path) ;;
     mret path)
    (fun e =>
       logger ERROR ("Error creating placeholder image: " ++ exn_str e) ;;
       mret []).

(** The dict that stands for a placeholder. *)
Definition placeholder_info (topic created_path : pystr) : dict :=
  <[("id" : pystr) := PyStr "placeholder"]>
  (<[("description" : pystr) := PyStr ("Placeholder for " ++ topic)]>
  (<[("local_path" : pystr) := PyStr created_path]>
  (<[("filename" : pystr) := PyStr (name (Path created_path))]>
  (<[("is_placeholder" : pystr) := PyBool true]> ∅)))).

Definition search_and_download_image
    (topic project_folder : pystr) (use_fallback : bool) : M (option dict) :=
  manager_ ← create_image_manager;
  result ← get_best_image_for_topic manager_ topic project_folder;
  if negb (dict_truthy result) && use_fallback then
    let assets_folder := div (Path project_folder) "assets" in
    let placeholder_path :=
      div assets_folder ("placeholder_" ++ take 8 uuid4_hex ++ ".jpg") in
    created_path ← create_placeholder_image (title topic)
                     (Some (str placeholder_path));
    if truthy created_path
    then mret (Some (placeholder_info topic created_path))
    else mret result
  else mret result.

(** *** The tools *)

Definition no_image (message_ : pystr) : image_result :=
  {| status := "error"; image_id := PyStr []; local_path := PyStr [];
     filename := PyStr []; description := PyStr []; photographer := PyStr [];
     is_placeholder := PyBool false; message := message_ |}.

Definition search_presentation_image (topic project_folder : pystr)
  : M image_result :=
  try_except
    (image_info ← search_and_download_image topic project_folder true;
     match image_info with
     | Some info =>
         if dict_truthy image_info then
           mret {| status := "success";
                   image_id := get info "id" (PyStr "unknown");
                   local_path := get info "local_path" (PyStr []);
                   filename := get info "filename" (PyStr []);
                   description :=
                     get info "description" (PyStr ("Image for " ++ topic));
                   photographer := get info "photographer" (PyStr []);
                   is_placeholder := get info "is_placeholder" (PyBool false);
                   message := "Successfully found and downloaded image for '"
                              ++ topic ++ "'" |}
         else
           mret (no_image ("Failed to find or download image for '"
                           ++ topic ++ "'"))
     | None =>
         mret (no_image ("Failed to find or download image for '"
                         ++ topic ++ "'"))
     end)
    (fun e =>
       logger ERROR ("Error in search_presentation_image: " ++ exn_str e) ;;
       mret (no_image ("Error searching for image: " ++ exn_str e))).

Definition found_entry (topic : pystr) (info : dict) : image_entry :=
  {| entry_topic := topic;
     entry_status := "success";
     entry_image_id := get info "id" (PyStr "unknown");
     entry_local_path := get info "local_path" (PyStr []);
     entry_filename := get info "filename" (PyStr []);
     entry_description :=
       get info "description" (PyStr ("Image for " ++ topic));
     entry_photographer := get info "photographer" (PyStr []);
     entry_is_placeholder := get info "is_placeholder" (PyBool false) |}.

Definition missing_entry (topic : pystr) : image_entry :=
  {| entry_topic := topic;
     entry_status := "error";
     entry_image_id := PyStr []; entry_local_path := PyStr [];
     entry_filename := PyStr []; entry_description := PyStr [];
     entry_photographer := PyStr []; entry_is_placeholder := PyBool false |}.

(** The body of the loop over the topics: the results so far and the
    number of successful downloads. *)
Fixpoint search_each (project_folder : pystr) (topic_list : list pystr)
    (acc : list image_entry * nat) : M (list image_entry * nat) :=
  match topic_list with
  | [] => mret acc
  | topic :: rest =>
      match topic with
      | [] => search_each project_folder rest acc
      | _ :: _ =>
          image_info ← search_and_download_image topic project_folder true;
          match image_info with
          | Some info =>
              if dict_truthy image_info
              then search_each project_folder rest
                     (acc.1 ++ [found_entry topic info], S acc.2)
              else search_each project_folder rest
                     (acc.1 ++ [missing_entry topic], acc.2)
          | None =>
              search_each project_folder rest
                (acc.1 ++ [missing_entry topic], acc.2)
          end
      end
  end.

Definition search_multiple_images
    (topics project_folder : pystr) (max_images : Z) : M images_result :=
  try_except
    (let topic_list := prefix max_images (map strip (split "," topics)) in
     '(results_, successful) ← search_each project_folder topic_list ([], 0);
     mret {| images_status := if 0 <? successful then "success" else "error";
             total_requested := length topic_list;
             successful_downloads := successful;
             results := results_;
             images_message :=
               "Downloaded " ++ str_nat successful ++ " out of "
               ++ str_nat (length topic_list) ++ " requested images" |})
    (fun e =>
       logger ERROR ("Error in search_multiple_images: " ++ exn_str e) ;;
       mret {| images_status := "error"; total_requested := 0;
               successful_downloads := 0; results := [];
               images_message :=
                 "Error searching for multiple images: " ++ exn_str e |}).

End Manager.

End Images.

(** * Reading the results

    The vocabulary in which the properties below are stated: what a call
    leaves in the world, what a report or a run says, and the sample data
    on which the statements are tried. *)

Module Reading.
Import Py Re Pathlib Effects ToolsPPT.

(** ** Directories *)

(** The path and its ancestors, [n] levels up. *)
Fixpoint lineage (n : nat) (p : PurePath) : list pystr :=
  str p :: match n with
           | 0 => []
           | S m => lineage m (parent p)
           end.

(** [w'] has the files of [w] and its directories, and every further
    directory is one of [new]. *)
Definition grows_by (new : list pystr) (w w' : World) : Prop :=
  files w' = files w /\
  dirs w ⊆ dirs w' /\
  forall k, k ∈ dirs w' -> k ∈ dirs w \/ k ∈ new.

(** The ways [os.mkdir] can end. *)
Inductive mkdir_case (p : PurePath) (w : World) : result () * World -> Prop :=
| mkdir_created :
    path_exists (str p) w = false ->
    mkdir_case p w
      (Ok (), {| dirs := {[str p]} ∪ dirs w; files := files w; log := log w |})
| mkdir_present m :
    path_exists (str p) w = true ->
    mkdir_case p w (Raise (OSError m), w)
| mkdir_blocked m :
    path_exists (str p) w = false ->
    mkdir_case p w (Raise (OSError m), w)
| mkdir_orphan m :
    mkdir_case p w (Raise (FileNotFoundError m), w).

(** ** Paths in normal form *)

Definition clean (x : pystr) : Prop := is_component x = true /\ slash ∉ x.

Definition normal (p : PurePath) : Prop :=
  (root p = [] \/ root p = ("/" : pystr) \/ root p = ("//" : pystr))
  /\ Forall clean (parts p).

(** ** Reports *)

Section Reports.
Variable ast_parse : pystr -> option exn.

(** The report as a function of the text and of the parser's verdict. *)
Definition report_of (code : pystr) : validation_results :=
  match ast_parse code with
  | None => check_requirements code
  | Some (SyntaxError lineno msg) =>
      rejected ("Syntax error at line " ++ str_lineno lineno ++ ": " ++ msg)
  | Some e => rejected ("Validation error: " ++ exn_str e)
  end.

End Reports.

(** The world after a call: one more log record, nothing else. *)
Definition logged (l : level) (msg : pystr) (w : World) : World :=
  {| dirs := dirs w; files := files w; log := log w ++ [(l, msg)] |}.

(** The specification reads the returned dict as an ordered list of
    findings, the entries of [errors] being blocking and those of [warnings]
    not, and as passing when no finding is blocking. *)
Inductive severity := Blocking | Advisory.

Definition findings (r : validation_results) : list (severity * pystr) :=
  map (pair Blocking) (errors r) ++ map (pair Advisory) (warnings r).

Definition overall_pass (r : validation_results) : bool :=
  forallb (fun f => match f.1 with Blocking => false | Advisory => true end)
          (findings r).


(** ** Runs of the executor *)

Definition code_file_of (project_folder : pystr) : PurePath :=
  div (div (Path project_folder) "code") "generate_ppt.py".

Definition error_result (msg : pystr) : exec_result :=
  {| status := "error"; ppt_path := []; output := None; error := None;
     message := msg |}.

(** The ways the first staging step can end. *)
Inductive staged (project_path : PurePath) (w : World)
  : result (option exec_result) * World -> Prop :=
| staged_copied w' :
    path_exists template_source w = true ->
    staged project_path w (Ok None, w')
| staged_missing r w' :
    path_exists template_source w = false ->
    status r = "error" -> ppt_path r = [] ->
    staged project_path w (Ok (Some r), w')
| staged_failed e w' :
    e <> TimeoutExpired ->
    staged project_path w (Raise e, w').

(** The dict returned for each way the child can end. *)
Definition classified (out_path : PurePath) (o : proc_outcome) (present : bool)
  : exec_result :=
  match o with
  | Completed rc stdout stderr =>
      if (rc =? 0)%Z then
        if present then
          {| status := "success"; ppt_path := str out_path;
             output := Some stdout; error := None;
             message := "PowerPoint presentation generated successfully" |}
        else
          {| status := "warning"; ppt_path := [];
             output := Some stdout; error := None;
             message := "Code execution completed but no presentation file found" |}
      else
        {| status := "error"; ppt_path := [];
           output := Some stdout; error := Some (or_else stderr stdout);
           message := "PowerPoint code execution failed: " ++ or_else stderr stdout |}
  | Expired => error_result "PowerPoint code execution timed out (>2 minutes)"
  end.

(** The world in which the child starts: the rewritten source is in the
    code file and the start of the run is logged. *)
Definition launched (code pf fn : pystr) (w : World) : World :=
  logged INFO ("Executing PowerPoint code in " ++ str (code_file_of pf))
    {| dirs := dirs w;
       files := <[str (code_file_of pf)
                  := fix_save_path (output_path_str pf fn) code]> (files w);
       log := log w |}.

(** ** Runs of the supervisor *)
Import Agent.

Section Tracking.
Variable now : nat -> pystr.

(** What one streamed item adds to the log and to the outputs. *)
Definition keep (st : track) (item : pystr * value) : track :=
  match messages item.2 with
  | Some (m :: ms) =>
      (st.1 ++ [{| agent := item.1;
                   entry_content := content (List.last ms m);
                   timestamp := now (length st.1) |}],
       <[item.1 := content (List.last ms m)]> st.2)
  | _ => st
  end.

Definition tracked (st : track) (evs : list event) : track :=
  fold_left (fun st ev => fold_left keep ev st) evs st.

End Tracking.

Definition has_messages (v : value) : bool :=
  match messages v with
  | Some (_ :: _) => true
  | _ => false
  end.

(** How many items of the stream come from agent [a] and carry a message. *)
Definition yielded (a : pystr) (evs : list event) : nat :=
  length (List.filter (fun item => bool_decide (item.1 = a) && has_messages item.2)
                      (concat evs)).




(** What a streamed item says for agent [a]: the content of its last
    message, when the item is of that agent and carries messages. *)
Definition said (a : pystr) (item : pystr * value) : option pystr :=
  if bool_decide (item.1 = a) then
    match messages item.2 with
    | Some (m :: ms) => Some (content (List.last ms m))
    | _ => None
    end
  else None.

(** The last thing agent [a] says in a stream. *)
Definition last_said (a : pystr) (evs : list event) : option pystr :=
  last (omap (said a) (concat evs)).

(** ** Mail *)

(** The message [send_gmail_with_attachment] builds: the headers in the
    order they are set, the body text with its subtype, and the attached
    parts. *)
Definition outgoing (sender to_email subject body : pystr)
    (cc bcc : list pystr) (parts_ : list Email.mime_part) : Email.mime_message :=
  {| Email.headers :=
       [("From" : pystr, sender); ("To" : pystr, to_email);
        ("Subject" : pystr, subject)]
       ++ match cc with
          | [] => []
          | _ :: _ => [("Cc" : pystr, join ", " cc)]
          end
       ++ match bcc with
          | [] => []
          | _ :: _ => [("Bcc" : pystr, join ", " bcc)]
          end;
     Email.text_body := body;
     Email.text_subtype := if contains "<" body then "html" else "plain";
     Email.attached := parts_ |}.

(** The dict returned when sending fails with an exception. *)
Definition send_failed (e : exn) : Email.send_result :=
  {| Email.success := false; Email.message := None; Email.attachment := None;
     Email.recipients := None;
     Email.error := Some ("Failed to send email: " ++ exn_str e) |}.

(** The body [send_ppt_email_tool] writes when it is given no details. *)
Definition tool_body (topic_ ppt_path_ : pystr) (custom_message : option pystr)
  : pystr :=
  match custom_message with
  | Some (c :: m) =>
      "<p>" ++ (c :: m) ++ "</p><br>"
      ++ Email.create_ppt_email_body topic_ ppt_path_ Email.no_details
  | _ => Email.create_ppt_email_body topic_ ppt_path_ Email.no_details
  end.

(** An environment that holds the two credentials. *)
Definition has_credentials (getenv : pystr -> option pystr)
    (sender password : pystr) : Prop :=
  getenv "GMAIL_EMAIL" = Some sender /\ sender <> []
  /\ getenv "GMAIL_APP_PASSWORD" = Some password /\ password <> [].

End Reading.

(** ** Sample data *)
Module Samples.
Import Py Pathlib Effects ToolsPPT.

(** A host with one directory, in which the tool is started. *)
Definition host : World :=
  {| dirs := {[ ("/srv" : pystr) ]}; files := ∅; log := [] |}.

Definition sample_uuid : pystr := "1b4e28ba-2fa1-11d2-883f-0016d3cca427".

(** The no-break space and the em space, in UTF-8. *)
Definition no_break_space : pystr := ["194"%char; "160"%char].
Definition em_space : pystr := ["226"%char; "128"%char; "131"%char].
Definition sample_time : pystr := "20250101_120000".

(** A workspace as [create_project_folder] leaves it. *)
Definition workspace : World :=
  {| dirs := {[ ("ws" : pystr); ("ws/code" : pystr);
                ("ws/presentations" : pystr); ("ws/assets" : pystr);
                ("ws/logs" : pystr) ]};
     files := ∅;
     log := [] |}.

(** The same workspace on a host where the design-system module is found
    at its source location. *)
Definition workspace_with_templates : World :=
  {| dirs := dirs workspace;
     files := {[ template_source := ("# design system" : pystr) ]};
     log := [] |}.

(** A parser for the sample texts: it rejects a text in which a parenthesis
    stays open, as [ast.parse] does, and accepts the others. *)
Fixpoint open_parens (depth : nat) (s : pystr) : nat :=
  match s with
  | [] => depth
  | c :: t =>
      if Ascii.eqb c "(" then open_parens (S depth) t
      else if Ascii.eqb c ")" then open_parens (pred depth) t
      else open_parens depth t
  end.

Definition sample_parser (code : pystr) : option exn :=
  match open_parens 0 code with
  | 0 => None
  | S _ => Some (SyntaxError (Some 1) "'(' was never closed")
  end.


(** A source that follows the generation contract. *)
Definition contract_source : pystr :=
  "from ppt_templates import create_template" ++ [newline]
  ++ "ppt = create_template('business')" ++ [newline]
  ++ "ppt.create_title_slide('Solar Energy')" ++ [newline]
  ++ "ppt.save('deck.pptx')".

End Samples.

(** ** Sample runs *)
Module SampleRuns.
Import Py Effects Agent.

Definition says (a text : pystr) : event :=
  [(a, {| messages := Some [{| content := text |}] |})].



Definition produced (mail : pystr) : stream :=
  {| events := [says "content_planner_agent" "Plan: six slides on solar energy";
                says "ppt_code_generator_agent" "ppt = create_template('business')";
                says "code_validator_agent" "The code is valid";
                says "ppt_executor_agent"
                     "PowerPoint presentation generated successfully";
                says "email_sender_agent" mail];
     failure := None |}.

Definition clock (k : nat) : pystr := "2025-01-01T12:00:" ++ str_nat k.


(** A run in which the delivery raises after the executor has announced the
    artifact. *)
Definition delivery_raised : stream :=
  {| events := [says "content_planner_agent" "Plan: six slides on solar energy";
                says "ppt_code_generator_agent" "ppt = create_template('business')";
                says "code_validator_agent" "The code is valid";
                says "ppt_executor_agent"
                     "PowerPoint presentation generated successfully"];
     failure := Some (OtherException "SMTPServerDisconnected: Connection unexpectedly closed") |}.

(** A run that breaks off after the executor has announced the artifact. *)
Definition interrupted : stream :=
  {| events := events (produced []);
     failure := Some (OtherException "Recursion limit of 25 reached") |}.

(** A run in which the executor first announces the artifact and then
    reports that a second execution failed. *)
Definition overturned : stream :=
  {| events := events (produced [])
               ++ [says "ppt_executor_agent" "The execution failed: NameError"];
     failure := None |}.

End SampleRuns.

(** * Properties *)

Import Py Re Pathlib Effects Reading Samples SampleRuns.

(** ** Strings *)
Section StringFacts.

Lemma startswith_app (p r : pystr) : startswith p (p ++ r) = true.
Proof.
  induction p as [|a p IH]; [reflexivity|].
  simpl. rewrite Ascii.eqb_refl. exact IH.
Qed.

Lemma startswith_split (p s : pystr) :
  startswith p s = true -> exists r, s = p ++ r.
Proof.
  revert s. induction p as [|a p IH]; intros s H.
  - exists s. reflexivity.
  - destruct s as [|b s]; [discriminate|]. simpl in H.
    destruct (Ascii.eqb_spec a b) as [->|]; [|discriminate].
    destruct (IH _ H) as [r ->]. exists r. reflexivity.
Qed.

Lemma contains_here (p s : pystr) :
  startswith p s = true -> contains p s = true.
Proof. intros H. destruct s; simpl in *; rewrite H; reflexivity. Qed.

Lemma contains_cons (p : pystr) c s :
  contains p s = true -> contains p (c :: s) = true.
Proof. intros H. simpl. rewrite H. apply orb_true_r. Qed.

Lemma contains_app_r (p a b : pystr) :
  contains p b = true -> contains p (a ++ b) = true.
Proof.
  intros H. induction a as [|c a IH]; [exact H|].
  apply contains_cons. exact IH.
Qed.

Lemma contains_false_cons (p : pystr) c s :
  contains p (c :: s) = false ->
  startswith p (c :: s) = false /\ contains p s = false.
Proof. cbn [contains]. intros H. apply orb_false_elim in H. exact H. Qed.

Lemma split_join (s : pystr) : join [newline] (split newline s) = s.
Proof.
  induction s as [|c t IH]; [reflexivity|].
  cbn [split]. destruct (Ascii.eqb_spec c newline) as [->|Hc].
  - destruct (split newline t) as [|w ws] eqn:E.
    + simpl in IH. subst t. discriminate E.
    + cbn [join] in *. cbn. f_equal. exact IH.
  - destruct (split newline t) as [|w ws] eqn:E.
    + simpl in IH. subst t. discriminate E.
    + destruct ws; cbn [join] in *; cbn; f_equal; exact IH.
Qed.

Lemma split_no_sep sep (s : pystr) : sep ∉ s -> split sep s = [s].
Proof.
  induction s as [|c t IH]; intros H; [reflexivity|].
  cbn [split]. destruct (Ascii.eqb_spec c sep) as [->|Hc].
  - exfalso. apply H. left.
  - rewrite IH; [reflexivity|]. intros Hin. apply H. right. exact Hin.
Qed.

Lemma startswith_nil (p : pystr) : startswith p [] = true -> p = [].
Proof. destruct p; [reflexivity|discriminate]. Qed.

Lemma lead_nil chars : lead chars [] = 0.
Proof.
  unfold lead. destruct (List.find _ chars) as [p|] eqn:E; [|reflexivity].
  apply List.find_some in E. destruct E as [_ E].
  rewrite (startswith_nil p E). reflexivity.
Qed.

(** The steps allowed are enough: what is left starts with none of the
    characters. *)
Lemma drop_leading_done chars : forall n (s : pystr),
  length s <= n -> lead chars (drop_leading n chars s) = 0.
Proof.
  induction n as [|n IH]; intros s H.
  - destruct s; [apply lead_nil|cbn in H; lia].
  - cbn [drop_leading]. destruct (lead chars s) as [|k] eqn:E; [exact E|].
    apply IH. rewrite length_drop.
    destruct s; [rewrite lead_nil in E; discriminate E|cbn in *; lia].
Qed.

Lemma lstrip_done (s : pystr) : lead whitespace (lstrip s) = 0.
Proof. apply drop_leading_done. reflexivity. Qed.

Lemma rstrip_done (s : pystr) :
  lead (map (@rev ascii) whitespace) (rev (rstrip s)) = 0.
Proof.
  unfold rstrip. rewrite rev_involutive. apply drop_leading_done.
  rewrite length_rev. reflexivity.
Qed.

End StringFacts.

(** ** The substitution *)
Section Substitution.
Variable repl : pystr.

Lemma re_sub_save_match c t rest :
  match_save (c :: t) = Some rest ->
  re_sub_save repl (c :: t) = repl ++ re_sub_save repl rest.
Proof.
  intros H. rewrite re_sub_save_equation_2.
  destruct (inspect (match_save (c :: t))) as [[r|] E];
    cbn; congruence.
Qed.

Lemma re_sub_save_skip c t :
  match_save (c :: t) = None ->
  re_sub_save repl (c :: t) = c :: re_sub_save repl t.
Proof.
  intros H. rewrite re_sub_save_equation_2.
  destruct (inspect (match_save (c :: t))) as [[r|] E];
    cbn; congruence.
Qed.


Lemma strip_prefix_app p r : strip_prefix p (p ++ r) = Some r.
Proof.
  induction p as [|a p IH]; [reflexivity|].
  simpl. rewrite Ascii.eqb_refl. exact IH.
Qed.

Lemma strip_prefix_startswith p s :
  startswith p s = false -> strip_prefix p s = None.
Proof.
  revert s. induction p as [|a p IH]; intros s H; [discriminate|].
  destruct s as [|b s]; [reflexivity|]. simpl in *.
  destruct (Ascii.eqb a b); [apply IH; exact H|reflexivity].
Qed.


Lemma after_rparen_app a b :
  ")"%char ∉ a -> after_rparen (a ++ ")"%char :: b) = Some b.
Proof.
  induction a as [|c a IH]; intros H; simpl.
  - reflexivity.
  - destruct (Ascii.eqb_spec c ")") as [->|Hc].
    + exfalso. apply H. left.
    + apply IH. intros Hin. apply H. right. exact Hin.
Qed.



End Substitution.

Import ToolsPPT.

(** Membership of a character in a text with a literal head: walk over the
    literal characters. *)
Ltac skip_chars H :=
  repeat (apply elem_of_cons in H; destruct H as [H|H]; [discriminate|]).

(** ** The save-path rewrite *)
Section SavePath.
Variable out : pystr.



Lemma match_save_startswith s :
  startswith save_open s = false -> match_save s = None.
Proof.
  intros H. unfold match_save. rewrite strip_prefix_startswith by exact H.
  reflexivity.
Qed.





(** An occurrence of the opening cannot straddle the end of a text and a
    following dot. *)
Lemma startswith_save_open_dot w y :
  w <> [] ->
  startswith save_open (w ++ "."%char :: y) = true ->
  startswith save_open w = true.
Proof.
  intros Hw.
  destruct w as [|c1 [|c2 [|c3 [|c4 [|c5 [|c6 w]]]]]]; [congruence|..];
    cbn; repeat match goal with
         | |- context [Ascii.eqb ?a ?b] => destruct (Ascii.eqb a b)
         end; auto.
Qed.



Lemma re_sub_save_prefix u y :
  contains save_open u = false ->
  re_sub_save (save_call out) (u ++ "."%char :: y)
  = u ++ re_sub_save (save_call out) ("."%char :: y).
Proof.
  induction u as [|c u IH]; intros H; [reflexivity|].
  apply contains_false_cons in H. destruct H as [Hs Hu].
  change ((c :: u) ++ "."%char :: y) with (c :: (u ++ "."%char :: y)).
  rewrite re_sub_save_skip.
  - rewrite (IH Hu). reflexivity.
  - apply match_save_startswith.
    destruct (startswith save_open (c :: u ++ "."%char :: y)) eqn:E;
      [|reflexivity].
    apply (startswith_save_open_dot (c :: u)) in E; congruence.
Qed.

Hypothesis out_no_rparen : ")"%char ∉ out.






End SavePath.

(** ** The monad *)
Section MonadFacts.
Context {A B : Type}.

Lemma bind_Ok (m : M A) (f : A -> M B) w b w' :
  (m ≫= f) w = (Ok b, w') ->
  exists a w1, m w = (Ok a, w1) /\ f a w1 = (Ok b, w').
Proof.
  unfold mbind, M_bind. destruct (m w) as [[a|e] w1]; intros H.
  - exists a, w1. split; [reflexivity|exact H].
  - discriminate.
Qed.

Lemma bind_step (m : M A) (f : A -> M B) w a w1 :
  m w = (Ok a, w1) -> (m ≫= f) w = f a w1.
Proof. unfold mbind, M_bind. intros ->. reflexivity. Qed.

Lemma bind_raise (m : M A) (f : A -> M B) w e w1 :
  m w = (Raise e, w1) -> (m ≫= f) w = (Raise e, w1).
Proof. unfold mbind, M_bind. intros ->. reflexivity. Qed.

Lemma try_except_Ok (m : M A) h w a w1 :
  m w = (Ok a, w1) -> try_except m h w = (Ok a, w1).
Proof. unfold try_except. intros ->. reflexivity. Qed.

Lemma try_except_raise (m : M A) h w e w1 :
  m w = (Raise e, w1) -> try_except m h w = h e w1.
Proof. unfold try_except. intros ->. reflexivity. Qed.

End MonadFacts.

(** ** Directory creation *)
Section Mkdir.

Lemma grows_by_refl new w : grows_by new w w.
Proof. repeat split; [reflexivity|auto]. Qed.

Lemma grows_by_trans new1 new2 w w1 w2 :
  grows_by new1 w w1 -> grows_by new2 w1 w2 -> grows_by (new1 ++ new2) w w2.
Proof.
  intros (Hf1 & Hd1 & Hn1) (Hf2 & Hd2 & Hn2). repeat split.
  - congruence.
  - etrans; eassumption.
  - intros k Hk. destruct (Hn2 k Hk) as [H|H].
    + destruct (Hn1 k H) as [H'|H']; [left; exact H'|].
      right. apply elem_of_app. left. exact H'.
    + right. apply elem_of_app. right. exact H.
Qed.

Lemma grows_by_weaken new new' w w' :
  (forall k, k ∈ new -> k ∈ new') -> grows_by new w w' -> grows_by new' w w'.
Proof.
  intros Hsub (Hf & Hd & Hn). repeat split; [exact Hf|exact Hd|].
  intros k Hk. destruct (Hn k Hk); [left|right]; auto.
Qed.

Lemma logger_grows l msg w u w' :
  logger l msg w = (Ok u, w') -> grows_by [] w w'.
Proof.
  unfold logger. intros H. injection H as _ <-.
  repeat split; cbn; [reflexivity|auto].
Qed.

Lemma not_exists_not_dir k w : path_exists k w = false -> is_dir k w = false.
Proof. unfold path_exists. intros H. apply orb_false_elim in H. tauto. Qed.

Lemma os_mkdir_case p w : mkdir_case p w (os_mkdir p w).
Proof.
  unfold os_mkdir. destruct (path_exists (str p) w) eqn:Hex.
  - apply mkdir_present. exact Hex.
  - destruct (is_dir (str (parent p)) w).
    + apply mkdir_created. exact Hex.
    + destruct (is_file (str (parent p)) w).
      * apply mkdir_blocked. exact Hex.
      * apply mkdir_orphan.
Qed.

Lemma mkdir_fuel_spec n parents exist_ok p w u w' :
  mkdir_fuel n parents exist_ok p w = (Ok u, w') ->
  str p ∈ dirs w' /\
  grows_by (if parents then lineage n p else [str p]) w w'.
Proof.
  revert parents exist_ok p w u w'.
  induction n as [|n IH]; intros parents exist_ok p w u w' H.
  all: cbn [mkdir_fuel] in H; unfold try_except in H.
  all: destruct (os_mkdir_case p w) as [Hex|m Hex|m Hex|m].
  - injection H as _ <-. cbn.
    split; [apply elem_of_union; left; apply elem_of_singleton; reflexivity|].
    repeat split; cbn; [apply union_subseteq_r|]. intros k Hk.
    apply elem_of_union in Hk. destruct Hk as [Hk|Hk]; [|left; exact Hk].
    apply elem_of_singleton in Hk. subst k. right.
    destruct parents; cbn [lineage]; left.
  - destruct (negb exist_ok || negb (is_dir (str p) w)) eqn:Hd; [discriminate|].
    injection H as _ <-. apply orb_false_elim in Hd. destruct Hd as [_ Hd].
    apply negb_false_iff, bool_decide_eq_true in Hd.
    split; [exact Hd|apply grows_by_refl].
  - rewrite (not_exists_not_dir _ _ Hex), orb_true_r in H. discriminate.
  - discriminate.
  - injection H as _ <-. cbn.
    split; [apply elem_of_union; left; apply elem_of_singleton; reflexivity|].
    repeat split; cbn; [apply union_subseteq_r|]. intros k Hk.
    apply elem_of_union in Hk. destruct Hk as [Hk|Hk]; [|left; exact Hk].
    apply elem_of_singleton in Hk. subst k. right.
    destruct parents; cbn [lineage]; left.
  - destruct (negb exist_ok || negb (is_dir (str p) w)) eqn:Hd; [discriminate|].
    injection H as _ <-. apply orb_false_elim in Hd. destruct Hd as [_ Hd].
    apply negb_false_iff, bool_decide_eq_true in Hd.
    split; [exact Hd|apply grows_by_refl].
  - rewrite (not_exists_not_dir _ _ Hex), orb_true_r in H. discriminate.
  - destruct parents; [|discriminate]. cbn [negb] in H.
    apply bind_Ok in H. destruct H as (u1 & w1 & H1 & H2).
    apply IH in H1. apply IH in H2.
    destruct H1 as [_ G1]. destruct H2 as [Hin G2]. split; [exact Hin|].
    eapply grows_by_weaken; [|exact (grows_by_trans _ _ _ _ _ G1 G2)].
    intros k Hk. cbn [lineage]. apply elem_of_app in Hk.
    destruct Hk as [Hk|Hk]; [right; exact Hk|].
    apply list_elem_of_singleton in Hk. subst k. left.
Qed.

Lemma mkdir_spec parents exist_ok p w u w' :
  mkdir parents exist_ok p w = (Ok u, w') ->
  str p ∈ dirs w' /\
  grows_by (if parents then lineage (length (parts p)) p else [str p]) w w'.
Proof. apply mkdir_fuel_spec. Qed.

End Mkdir.

(** ** Paths *)
Section Paths.

Lemma startswith_slash_elem (s : pystr) : startswith "/" s = true -> slash ∈ s.
Proof.
  destruct s as [|c t]; [discriminate|].
  change (startswith "/" (c :: t)) with (if Ascii.eqb "/" c then true else false).
  destruct (Ascii.eqb_spec "/" c) as [<-|]; [|discriminate]. intros _. left.
Qed.

Lemma Path_single (s : pystr) :
  slash ∉ s -> is_component s = true ->
  Path s = {| root := []; parts := [s] |}.
Proof.
  intros Hs Hc. unfold Path, splitroot.
  destruct (startswith "/" s) eqn:E.
  - exfalso. apply Hs, startswith_slash_elem, E.
  - cbn [negb]. rewrite (split_no_sep _ _ Hs). cbn. rewrite Hc. reflexivity.
Qed.

Lemma endswith_app (p s : pystr) : endswith p (s ++ p) = true.
Proof. unfold endswith. rewrite rev_app_distr. apply startswith_app. Qed.

Lemma endswith_length (p s : pystr) :
  endswith p s = true -> length p <= length s.
Proof.
  unfold endswith. intros H. apply startswith_split in H. destruct H as [r H].
  apply (f_equal length) in H. rewrite length_app, !length_rev in H. lia.
Qed.

Lemma ensure_pptx_endswith fn : endswith ".pptx" (ensure_pptx fn) = true.
Proof.
  unfold ensure_pptx. destruct (endswith ".pptx" fn) eqn:E; [exact E|].
  apply endswith_app.
Qed.

Lemma ensure_pptx_component fn : is_component (ensure_pptx fn) = true.
Proof.
  pose proof (endswith_length _ _ (ensure_pptx_endswith fn)) as H.
  unfold is_component.
  destruct (decide (ensure_pptx fn = [])) as [E|_];
    [rewrite E in H; cbn in H; lia|].
  destruct (decide (ensure_pptx fn = ("." : pystr))) as [E|_];
    [rewrite E in H; cbn in H; lia|].
  reflexivity.
Qed.

Lemma ensure_pptx_no_slash fn : slash ∉ fn -> slash ∉ ensure_pptx fn.
Proof.
  intros H. unfold ensure_pptx. destruct (endswith ".pptx" fn); [exact H|].
  intros Hin. apply elem_of_app in Hin. destruct Hin as [Hin|Hin]; [auto|].
  skip_chars Hin. inversion Hin.
Qed.

(** The destination is the file named like the artifact, with the
    extension ensured, in the [presentations] directory of the project. *)
Lemma output_path_parts pf fn :
  slash ∉ fn ->
  output_path pf fn
  = {| root := root (Path pf);
       parts := parts (Path pf) ++ ["presentations" : pystr; ensure_pptx fn] |}.
Proof.
  intros H. unfold output_path, div.
  rewrite (Path_single (ensure_pptx fn))
    by auto using ensure_pptx_no_slash, ensure_pptx_component.
  cbn. rewrite <- app_assoc. reflexivity.
Qed.

(** *** Paths in normal form *)

Lemma split_cons_sep sep (x rest : pystr) :
  sep ∉ x -> split sep (x ++ sep :: rest) = x :: split sep rest.
Proof.
  induction x as [|c x IH]; intros H.
  - cbn [app split]. rewrite Ascii.eqb_refl. reflexivity.
  - cbn [app split]. destruct (Ascii.eqb_spec c sep) as [->|Hc].
    + exfalso. apply H. left.
    + rewrite IH; [reflexivity|]. intros Hin. apply H. right. exact Hin.
Qed.

Lemma split_no_sep_parts sep (s : pystr) : Forall (fun x => sep ∉ x) (split sep s).
Proof.
  induction s as [|c t IH]; cbn [split].
  - constructor; [intros H; inversion H|constructor].
  - destruct (Ascii.eqb_spec c sep) as [->|Hc].
    + constructor; [intros H; inversion H|exact IH].
    + destruct (split sep t) as [|w ws]; [repeat constructor|].
      * intros H. apply elem_of_cons in H. destruct H as [H|H];
          [congruence|inversion H].
      * inversion IH as [|? ? Hw Hws]; subst. constructor; [|exact Hws].
        intros H. apply elem_of_cons in H. destruct H as [H|H]; [congruence|auto].
Qed.

Lemma split_join_parts (ps : list pystr) :
  ps <> [] -> Forall (fun x => slash ∉ x) ps ->
  split slash (join "/" ps) = ps.
Proof.
  induction ps as [|x [|y r] IH]; intros Hne H; [congruence|..].
  - cbn [join]. apply split_no_sep. inversion H; assumption.
  - inversion H as [|? ? Hx Hr]; subst.
    change (join "/" (x :: y :: r)) with (x ++ slash :: join "/" (y :: r)).
    rewrite split_cons_sep by exact Hx. rewrite IH; [reflexivity|discriminate|exact Hr].
Qed.

Lemma filter_clean (ps : list pystr) :
  Forall clean ps -> List.filter is_component ps = ps.
Proof.
  induction 1 as [|x ps [Hx _] _ IH]; [reflexivity|].
  cbn [List.filter]. rewrite Hx, IH. reflexivity.
Qed.

Lemma clean_no_slash (ps : list pystr) :
  Forall clean ps -> Forall (fun x => slash ∉ x) ps.
Proof.
  intros H. eapply Forall_impl; [exact H|]. intros x [_ Hx]. exact Hx.
Qed.

Lemma clean_head_no_slash x (ps : list pystr) rest :
  Forall clean (x :: ps) ->
  startswith "/" (join "/" (x :: ps) ++ rest) = false.
Proof.
  intros H. inversion H as [|? ? [Hc Hs] _]; subst.
  destruct x as [|c x]; [discriminate Hc|].
  assert (Hne : c <> slash) by (intros ->; apply Hs; left).
  unfold slash in Hne. change ("/" : pystr) with ["/"%char].
  destruct ps; cbn [join app startswith];
    destruct (Ascii.eqb_spec "/" c); congruence.
Qed.

Lemma parse_parts (ps : list pystr) :
  Forall clean ps ->
  List.filter is_component (split slash (join "/" ps)) = ps.
Proof.
  intros H. destruct ps as [|x ps]; [reflexivity|].
  rewrite split_join_parts by (auto using clean_no_slash; discriminate).
  apply filter_clean. exact H.
Qed.

Lemma Path_normal s : normal (Path s).
Proof.
  unfold Path, splitroot, normal.
  destruct (negb (startswith "/" s)); [|destruct (_ || _)]; cbn [root parts].
  all: split; [tauto|].
  all: apply Forall_forall; intros x Hx; apply list_elem_of_In in Hx.
  all: apply filter_In in Hx; destruct Hx as [Hin Hc]; split; [exact Hc|].
  all: apply list_elem_of_In in Hin.
  all: eapply Forall_forall in Hin; [exact Hin|apply split_no_sep_parts].
Qed.

Lemma div_normal p key : normal p -> normal (div p key).
Proof.
  intros [Hr Hp]. unfold div. pose proof (Path_normal key) as [Hr' Hp'].
  destruct (root (Path key)) eqn:E.
  - split; [exact Hr|]. cbn [parts]. apply Forall_app. split; assumption.
  - split; [rewrite E; exact Hr'|exact Hp'].
Qed.

Lemma join_no_lead (ps : list pystr) :
  Forall clean ps -> startswith "/" (join "/" ps) = false.
Proof.
  intros H. destruct ps as [|x ps]; [reflexivity|].
  rewrite <- (app_nil_r (join "/" (x :: ps))).
  apply clean_head_no_slash. exact H.
Qed.

Lemma splitroot_relative s :
  startswith "/" s = false -> splitroot s = ([], s).
Proof. unfold splitroot. intros ->. reflexivity. Qed.

Lemma splitroot_rooted s :
  startswith "/" s = false -> splitroot (slash :: s) = ("/" : pystr, s).
Proof.
  intros H. unfold splitroot.
  assert (E1 : startswith "/" (slash :: s) = true) by reflexivity.
  assert (E2 : startswith "//" (slash :: s) = startswith "/" s) by reflexivity.
  rewrite E1, E2, H. reflexivity.
Qed.

Lemma splitroot_double s :
  startswith "/" s = false ->
  splitroot (slash :: slash :: s) = ("//" : pystr, s).
Proof.
  intros H. unfold splitroot.
  assert (E1 : startswith "/" (slash :: slash :: s) = true) by reflexivity.
  assert (E2 : startswith "//" (slash :: slash :: s) = true) by reflexivity.
  assert (E3 : startswith "///" (slash :: slash :: s) = startswith "/" s)
    by reflexivity.
  rewrite E1, E2, E3, H. reflexivity.
Qed.

(** Parsing the text of a path in normal form gives the path back. *)
Lemma Path_str p : normal p -> Path (str p) = p.
Proof.
  destruct p as [rt ps]. intros [Hr Hp]. cbn [root parts] in *.
  pose proof (join_no_lead ps Hp) as Hs.
  destruct Hr as [-> | [-> | ->]]; unfold str; cbn [root parts].
  - destruct ps as [|x ps]; [reflexivity|].
    unfold Path. cbn [app]. rewrite (splitroot_relative _ Hs).
    rewrite parse_parts by exact Hp. reflexivity.
  - change (Path (slash :: join "/" ps) = {| root := "/"; parts := ps |}).
    unfold Path.
    rewrite (splitroot_rooted _ Hs), parse_parts by exact Hp. reflexivity.
  - change (Path (slash :: slash :: join "/" ps) = {| root := "//"; parts := ps |}).
    unfold Path.
    rewrite (splitroot_double _ Hs), parse_parts by exact Hp. reflexivity.
Qed.

Lemma project_root_normal cwd topic ts uid :
  normal (project_root cwd topic ts uid).
Proof. unfold project_root. auto using div_normal, Path_normal. Qed.

End Paths.

(** ** The workspace *)
Section Workspace.

Lemma fix_save_path_first_call out u a v :
  contains save_open u = false ->
  ")"%char ∉ a ->
  fix_save_path out (u ++ save_open ++ a ++ ")" ++ v)
  = u ++ save_call out ++ re_sub_save (save_call out) v.
Proof.
  intros Hu Ha. unfold fix_save_path. fold save_open.
  rewrite contains_app_r
    by (apply contains_here, startswith_app).
  change (save_open ++ a ++ ")" ++ v)
    with ("."%char :: "save(" ++ a ++ ")" ++ v).
  rewrite (re_sub_save_prefix _ _ _ Hu). f_equal.
  apply re_sub_save_match. unfold match_save.
  change ("."%char :: "save(" ++ a ++ ")" ++ v)
    with (save_open ++ a ++ ")"%char :: v).
  rewrite strip_prefix_app. apply after_rparen_app. exact Ha.
Qed.

Lemma grows_by_dir new w w' k : grows_by new w w' -> k ∈ dirs w -> k ∈ dirs w'.
Proof. intros (_ & Hd & _) Hk. apply Hd. exact Hk. Qed.

Lemma create_project_folder_success cwd uuid4 ts topic w r w' :
  create_project_folder cwd uuid4 ts topic w = (Ok r, w') ->
  folder_status r = "success" ->
  let folder := project_root cwd topic ts (take 8 uuid4) in
  project_folder r = str folder /\
  unique_id r = take 8 uuid4 /\
  Forall (fun k => k ∈ dirs w')
         (str folder :: map (fun d => str (div folder d)) subdirectories) /\
  grows_by (lineage (length (parts folder)) folder
            ++ map (fun d => str (div folder d)) subdirectories) w w'.
Proof.
  intros H Hst folder. unfold create_project_folder in H.
  fold folder in H. unfold try_except in H.
  match type of H with
  | match ?body w with _ => _ end = _ => destruct (body w) as [[r0|e] w0] eqn:E
  end.
  2:{ cbn in H. injection H as <- _. discriminate Hst. }
  injection H as -> ->.
  apply bind_Ok in E. destruct E as (u1 & w1 & E1 & E).
  apply bind_Ok in E. destruct E as (u2 & w2 & E2 & E).
  apply bind_Ok in E. destruct E as (u3 & w3 & E3 & E).
  apply bind_Ok in E. destruct E as (u4 & w4 & E4 & E).
  apply bind_Ok in E. destruct E as (u5 & w5 & E5 & E).
  apply bind_Ok in E. destruct E as (u6 & w6 & E6 & E).
  injection E as <- <-.
  apply mkdir_spec in E1, E3, E4, E5, E6. apply logger_grows in E2.
  destruct E1 as [D1 G1], E3 as [D3 G3], E4 as [D4 G4], E5 as [D5 G5],
    E6 as [D6 G6].
  cbn [project_folder unique_id]. split; [reflexivity|]. split; [reflexivity|].
  split.
  - repeat constructor; cbn [dirs].
    + eauto 10 using grows_by_dir.
    + eauto 10 using grows_by_dir.
    + eauto 10 using grows_by_dir.
    + eauto 10 using grows_by_dir.
    + exact D6.
  - pose proof (grows_by_trans _ _ _ _ _ G1
      (grows_by_trans _ _ _ _ _ E2
        (grows_by_trans _ _ _ _ _ G3
          (grows_by_trans _ _ _ _ _ G4
            (grows_by_trans _ _ _ _ _ G5 G6))))) as G.
    exact G.
Qed.

End Workspace.

(** ** The validator *)
Section ValidatorFacts.
Variable ast_parse : pystr -> option exn.

Lemma validate_ppt_code_run code w :
  validate_ppt_code ast_parse code w
  = (Ok (report_of ast_parse code), logged INFO ("Validating code: " ++ code) w).
Proof.
  unfold validate_ppt_code, report_of, try_except, parse.
  unfold mbind, M_bind, logger, mret, M_ret, raise, logged.
  destruct (ast_parse code) as [[]|]; reflexivity.
Qed.

Lemma code_text_eq code : join [newline] (split newline code) = code.
Proof. apply split_join. Qed.

Lemma check_requirements_errors code :
  errors (check_requirements code)
  = (if contains "from ppt_templates import create_template" code
     then [] else [missing_import_error])
    ++ (if contains "create_template(" code
        then [] else [missing_template_error])
    ++ (if contains "Presentation()" code || contains "pptx.Presentation()" code
           || contains "from pptx import Presentation" code
           || contains "import pptx" code
        then [raw_pptx_error] else []).
Proof. unfold check_requirements. rewrite code_text_eq. reflexivity. Qed.

End ValidatorFacts.

(** ** The executor *)
Section ExecutorFacts.
Variable child : list pystr -> pystr -> nat -> World -> proc_outcome * World.
Variable sys_executable : pystr.

(** What [execute_ppt_code] does once a source importing the templates has
    been rewritten: every path ends in an error result, before the source
    is written or run. *)
Lemma copy_to_code_raises project_path w :
  copy_to_code project_path w
  = (Raise (AttributeError "'str' object has no attribute 'exists'"), w).
Proof. reflexivity. Qed.

Lemma copy2_not_timeout src dst w e w' :
  copy2 src dst w = (Raise e, w') -> e <> TimeoutExpired.
Proof.
  unfold copy2, write_text. intros H.
  repeat match type of H with
         | context [match ?x with _ => _ end] => destruct x
         | context [if ?x then _ else _] => destruct x
         end; try discriminate; injection H as <- _; discriminate.
Qed.

Lemma copy_to_project_staged project_path w :
  staged project_path w (copy_to_project project_path w).
Proof.
  unfold copy_to_project.
  erewrite bind_step by (unfold os_path_exists; reflexivity).
  destruct (path_exists template_source w) eqn:Hex.
  - destruct (copy2 template_source (div project_path "ppt_templates.py") w)
      as [[u|e] w1] eqn:Hcp.
    + erewrite bind_step by exact Hcp. cbn. apply staged_copied. exact Hex.
    + erewrite bind_raise by exact Hcp. apply staged_failed.
      eapply copy2_not_timeout. exact Hcp.
  - cbn. apply staged_missing; [exact Hex|reflexivity|reflexivity].
Qed.

(** What [execute_ppt_code] does once a source importing the templates has
    been rewritten: every path ends in an error result, before the source
    is written or run. *)
Lemma execute_body_import code pf fn w :
  contains template_import (fix_save_path (output_path_str pf fn) code) = true ->
  (exists r w', execute_body child sys_executable code pf fn w = (Ok r, w')
                /\ status r = "error" /\ ppt_path r = [])
  \/ (exists e w', execute_body child sys_executable code pf fn w = (Raise e, w')
                   /\ e <> TimeoutExpired).
Proof.
  intros Himp. unfold execute_body. rewrite Himp.
  pose proof (copy_to_project_staged (Path pf) w) as Hst.
  destruct (copy_to_project (Path pf) w) as [res w'] eqn:E.
  inversion Hst as [w1 Hex|r w1 Hex Hs Hp|e w1 He]; subst.
  - erewrite bind_step by exact E. cbv beta iota.
    erewrite bind_raise by apply copy_to_code_raises.
    right. eexists _, _. split; [reflexivity|discriminate].
  - erewrite bind_step by exact E. left. exists r, w'. auto.
  - erewrite bind_raise by exact E. right. exists e, w'. auto.
Qed.

Lemma execute_import_error code pf fn w :
  contains template_import (fix_save_path (output_path_str pf fn) code) = true ->
  exists r w', execute_ppt_code child sys_executable code pf fn w = (Ok r, w')
               /\ status r = "error" /\ ppt_path r = [].
Proof.
  intros Himp. unfold execute_ppt_code.
  destruct (execute_body_import code pf fn w Himp)
    as [(r & w' & E & Hs & Hp)|(e & w' & E & Hne)].
  - exists r, w'. rewrite (try_except_Ok _ _ _ _ _ E). auto.
  - rewrite (try_except_raise _ _ _ _ _ E).
    destruct e; try congruence; cbn; eexists _, _; repeat split.
Qed.

Lemma write_text_ok p content w :
  is_dir (str p) w = false ->
  is_dir (str (parent p)) w = true ->
  write_text p content w
  = (Ok (), {| dirs := dirs w; files := <[str p := content]> (files w);
               log := log w |}).
Proof. unfold write_text. intros -> ->. reflexivity. Qed.

Lemma run_and_classify_Completed project_path code_file out_path w rc so se w2 :
  child [sys_executable; str code_file] (str project_path) 120 w
  = (Completed rc so se, w2) ->
  exists w3,
    run_and_classify child sys_executable project_path code_file out_path w
    = (Ok (classified out_path (Completed rc so se)
                      (path_exists (str out_path) w2)), w3)
    /\ dirs w3 = dirs w2 /\ files w3 = files w2.
Proof.
  intros Hc. unfold run_and_classify.
  erewrite bind_step by (unfold subprocess_run; rewrite Hc; reflexivity).
  cbv beta iota. unfold classified.
  destruct (rc =? 0)%Z.
  - erewrite bind_step by (unfold os_path_exists; reflexivity).
    destruct (path_exists (str out_path) w2); cbn; eexists; repeat split.
  - cbn. eexists; repeat split.
Qed.

Lemma run_and_classify_Expired project_path code_file out_path w w2 :
  child [sys_executable; str code_file] (str project_path) 120 w = (Expired, w2) ->
  run_and_classify child sys_executable project_path code_file out_path w
  = (Raise TimeoutExpired, w2).
Proof.
  intros Hc. unfold run_and_classify.
  erewrite bind_raise by (unfold subprocess_run; rewrite Hc; reflexivity).
  reflexivity.
Qed.

(** A source that does not import the templates is written to the code
    file and run; the result is read off the way the child ended. *)
Lemma execute_runs_child code pf fn w :
  contains template_import (fix_save_path (output_path_str pf fn) code) = false ->
  is_dir (str (code_file_of pf)) w = false ->
  is_dir (str (parent (code_file_of pf))) w = true ->
  forall o w2,
    child [sys_executable; str (code_file_of pf)] (str (Path pf)) 120
          (launched code pf fn w) = (o, w2) ->
    exists w3,
      execute_ppt_code child sys_executable code pf fn w
      = (Ok (classified (output_path pf fn) o
                        (path_exists (str (output_path pf fn)) w2)), w3)
      /\ dirs w3 = dirs w2 /\ files w3 = files w2.
Proof.
  intros Hno Hd Hp o w2 Hc. unfold execute_ppt_code, execute_body.
  rewrite Hno. fold (code_file_of pf).
  set (body := _ ≫= _).
  assert (Hb : body w = run_and_classify child sys_executable (Path pf)
                 (code_file_of pf) (output_path pf fn) (launched code pf fn w)).
  { subst body.
    erewrite bind_step by reflexivity. cbv beta iota.
    erewrite bind_step by reflexivity.
    erewrite bind_step by (apply write_text_ok; assumption).
    erewrite bind_step by reflexivity. reflexivity. }
  destruct o as [rc so se|].
  - destruct (run_and_classify_Completed (Path pf) (code_file_of pf)
                (output_path pf fn) _ _ _ _ _ Hc) as (w3 & E & Hw).
    exists w3. split; [|exact Hw].
    apply try_except_Ok. rewrite Hb. exact E.
  - eexists. split.
    + erewrite try_except_raise
        by (rewrite Hb; apply run_and_classify_Expired; exact Hc).
      reflexivity.
    + split; reflexivity.
Qed.

End ExecutorFacts.

Lemma execute_import_any_child child1 child2 exe code pf fn w :
  contains template_import (fix_save_path (output_path_str pf fn) code) = true ->
  execute_ppt_code child1 exe code pf fn w
  = execute_ppt_code child2 exe code pf fn w.
Proof.
  intros Himp. unfold execute_ppt_code, try_except, execute_body.
  rewrite Himp.
  destruct (copy_to_project (Path pf) w) as [[[r|]|e] w1] eqn:E.
  - erewrite !bind_step by exact E. reflexivity.
  - erewrite !bind_step by exact E. cbv beta iota.
    erewrite !bind_raise by apply copy_to_code_raises. reflexivity.
  - erewrite !bind_raise by exact E. reflexivity.
Qed.

(** ** The run analysis *)
Import Agent.

Section RunFacts.
Variable now : nat -> pystr.

Lemma record_item_run st item w :
  exists w', record_item now st item w = (Ok (keep now st item), w').
Proof.
  destruct item as [a v]. unfold record_item, keep. cbn [fst snd].
  destruct (messages v) as [[|m ms]|]; eexists; reflexivity.
Qed.

Lemma record_event_run ev : forall st w,
  exists w', record_event now st ev w = (Ok (fold_left (keep now) ev st), w').
Proof.
  induction ev as [|item rest IH]; intros st w.
  - eexists. reflexivity.
  - destruct (record_item_run st item w) as [w1 E1].
    destruct (IH (keep now st item) w1) as [w2 E2].
    exists w2. cbn [record_event fold_left].
    erewrite bind_step by exact E1. exact E2.
Qed.

Lemma record_events_run evs : forall st w,
  exists w', record_events now st evs w = (Ok (tracked now st evs), w').
Proof.
  induction evs as [|ev rest IH]; intros st w.
  - eexists. reflexivity.
  - destruct (record_event_run ev st w) as [w1 E1].
    destruct (IH (fold_left (keep now) ev st) w1) as [w2 E2].
    exists w2. cbn [record_events]. unfold tracked. cbn [fold_left].
    erewrite bind_step by exact E1. exact E2.
Qed.







Lemma tracked_concat evs : forall st,
  tracked now st evs = fold_left (keep now) (concat evs) st.
Proof.
  unfold tracked. induction evs as [|ev rest IH]; intros st; [reflexivity|].
  cbn [fold_left concat]. rewrite fold_left_app. apply IH.
Qed.

Lemma outputs_fold a items : forall st,
  (fold_left (keep now) items st).2 !! a
  = match last (omap (said a) items) with
    | Some c => Some c
    | None => st.2 !! a
    end.
Proof.
  induction items as [|i rest IH]; intros st; [reflexivity|].
  cbn [fold_left]. rewrite IH.
  change (omap (said a) (i :: rest))
    with (match said a i with
          | Some y => y :: omap (said a) rest
          | None => omap (said a) rest
          end).
  assert (Hs : said a i
               = if bool_decide (i.1 = a) then
                   match messages i.2 with
                   | Some (m :: ms) => Some (content (List.last ms m))
                   | _ => None
                   end
                 else None) by reflexivity.
  rewrite Hs. clear Hs. unfold keep.
  destruct (decide (i.1 = a)) as [E|E].
  - rewrite (bool_decide_eq_true_2 _ E).
    destruct (messages i.2) as [[|m ms]|]; try reflexivity.
    rewrite last_cons. cbn [snd]. rewrite E, lookup_insert_eq.
    destruct (last (omap (said a) rest)); reflexivity.
  - rewrite (bool_decide_eq_false_2 _ E).
    destruct (messages i.2) as [[|m ms]|]; try reflexivity.
    cbn [snd]. rewrite lookup_insert_ne by exact E. reflexivity.
Qed.

Lemma outputs_last_said a evs :
  (tracked now ([], ∅) evs).2 !! a = last_said a evs.
Proof.
  rewrite tracked_concat, outputs_fold. unfold last_said.
  destruct (last _); [reflexivity|apply lookup_empty].
Qed.



(** The dict [generate_powerpoint_presentation] returns, read off the
    stream of the run. *)
Lemma generate_run sup uuid4 topic_ tid rcpt w :
  let run := sup (request_text topic_ rcpt) (thread_of uuid4 tid) in
  let st := tracked now ([], ∅) (events run) in
  exists r w',
    generate_powerpoint_presentation sup now uuid4 topic_ tid rcpt w = (Ok r, w')
    /\ workflow_log r = st.1
    /\ success r
       = match failure run with
         | Some _ => false
         | None => is_successful (default [] (st.2 !! ("ppt_executor_agent" : pystr)))
         end
    /\ email_sent r
       = match failure run with
         | Some _ => None
         | None => Some (email_delivered
                           (default [] (st.2 !! ("email_sender_agent" : pystr))))
         end.
Proof.
  intros run st. unfold generate_powerpoint_presentation.
  erewrite bind_step by reflexivity.
  erewrite bind_step by reflexivity.
  fold run.
  match goal with
  | |- context [(record_events now ?s ?e ≫= _) ?w0] =>
      destruct (record_events_run e s w0) as [w1 E]
  end.
  erewrite bind_step by exact E. fold st.
  destruct (failure run) as [e|]; cbn; eexists _, _; repeat split.
Qed.

End RunFacts.

Section Delivery.

(** What an agent says is not touched by leaving out the items of another
    agent. *)
Lemma said_filter a d (items : list (pystr * value)) :
  a <> d ->
  omap (said a)
       (List.filter (fun i : pystr * value => negb (bool_decide (i.1 = d))) items)
  = omap (said a) items.
Proof.
  intros Had. induction items as [|i rest IH]; [reflexivity|].
  change (omap (said a) (i :: rest))
    with (match said a i with
          | Some y => y :: omap (said a) rest
          | None => omap (said a) rest
          end).
  cbn [List.filter]. destruct (decide (i.1 = d)) as [E|E].
  - rewrite (bool_decide_eq_true_2 _ E). cbn [negb]. rewrite IH.
    assert (Hn : said a i = None).
    { unfold said. rewrite bool_decide_eq_false_2 by congruence. reflexivity. }
    rewrite Hn. reflexivity.
  - rewrite (bool_decide_eq_false_2 _ E). cbn [negb].
    change (omap (said a) (i :: List.filter
                                  (fun i : pystr * value =>
                                     negb (bool_decide (i.1 = d))) rest))
      with (match said a i with
            | Some y => y :: omap (said a)
                               (List.filter
                                  (fun i : pystr * value =>
                                     negb (bool_decide (i.1 = d))) rest)
            | None => omap (said a)
                        (List.filter
                           (fun i : pystr * value =>
                              negb (bool_decide (i.1 = d))) rest)
            end).
    rewrite IH. reflexivity.
Qed.

Lemma last_said_filter a d evs1 evs2 :
  a <> d ->
  List.filter (fun i : pystr * value => negb (bool_decide (i.1 = d)))
              (concat evs1)
  = List.filter (fun i : pystr * value => negb (bool_decide (i.1 = d)))
                (concat evs2) ->
  last_said a evs1 = last_said a evs2.
Proof.
  intros Had H. unfold last_said.
  rewrite <- (said_filter a d (concat evs1) Had),
          <- (said_filter a d (concat evs2) Had), H.
  reflexivity.
Qed.

End Delivery.

(** ** The template factory *)
Import Templates.

Section TemplateFacts.

Lemma templates_lookup_other (t : pystr) :
  t <> ("business" : pystr) -> t <> ("tech" : pystr) ->
  t <> ("creative" : pystr) -> t <> ("corporate" : pystr) ->
  templates !! t = None.
Proof.
  intros H1 H2 H3 H4. unfold templates.
  rewrite !lookup_insert_ne by congruence. apply lookup_empty.
Qed.

End TemplateFacts.

(** ** The destination of the artifact *)
Section Destination.

Lemma replace_char_id a b (s : pystr) : a ∉ s -> replace_char a b s = s.
Proof.
  induction s as [|c s IH]; intros H; [reflexivity|].
  cbn [replace_char map]. fold (replace_char a b s).
  rewrite IH by (intros Hin; apply H; apply elem_of_cons; right; exact Hin).
  destruct (Ascii.eqb_spec c a) as [->|_]; [|reflexivity].
  exfalso. apply H. apply elem_of_cons. left. reflexivity.
Qed.

Lemma join_snoc sep (ps : list pystr) x :
  ps <> [] -> join sep (ps ++ [x]) = join sep ps ++ sep ++ x.
Proof.
  induction ps as [|y ps IH]; intros H; [congruence|].
  destruct ps as [|z ps]; [reflexivity|].
  change (join sep ((y :: z :: ps) ++ [x]))
    with (y ++ sep ++ join sep ((z :: ps) ++ [x])).
  rewrite IH by discriminate.
  change (join sep (y :: z :: ps)) with (y ++ sep ++ join sep (z :: ps)).
  rewrite <- !app_assoc. reflexivity.
Qed.

(** The text of a path with one more component. *)
Lemma str_snoc rt (ps : list pystr) x :
  ps <> [] ->
  str {| root := rt; parts := ps ++ [x] |}
  = str {| root := rt; parts := ps |} ++ "/" ++ x.
Proof.
  intros H. pose proof (join_snoc "/" ps x H) as J.
  destruct ps as [|y ps]; [congruence|].
  unfold str. cbn [root parts].
  change ((y :: ps) ++ [x]) with (y :: (ps ++ [x])) in *.
  destruct rt as [|c rt].
  - cbn [app]. exact J.
  - rewrite J, <- app_assoc. reflexivity.
Qed.

Lemma str_child p (x : pystr) :
  parts p <> [] -> slash ∉ x -> is_component x = true ->
  str (div p x) = str p ++ "/" ++ x.
Proof.
  intros Hp Hs Hc. unfold div. rewrite (Path_single x Hs Hc). cbn [root parts].
  rewrite (str_snoc _ _ _ Hp). destruct p. reflexivity.
Qed.

Lemma project_root_parts cwd topic ts uid :
  parts (project_root cwd topic ts uid) <> [].
Proof.
  unfold project_root.
  assert (H : parts (div (Path cwd) "generated_presentations") <> []).
  { unfold div. rewrite Path_single; [|intros H; skip_chars H; inversion H
                                      |reflexivity].
    cbn [root parts]. destruct (parts (Path cwd)); discriminate. }
  assert (Hr : root (Path (folder_name topic ts uid)) = []).
  { unfold Path. rewrite splitroot_relative by reflexivity. reflexivity. }
  unfold div at 1. rewrite Hr. cbn [parts].
  intros E. apply app_eq_nil in E. destruct E as [E _]. auto.
Qed.

End Destination.

(** * The specification, claim by claim *)



(** ** C1: the disk layout *)

(** C1, as stated, fails.  For the artifact name [deck] the save call is
    sent to [ws/presentations/deck.pptx]: the extension is appended and the
    directory is [presentations]; no directory [output] is created; and a
    source whose save call is never closed is left as it is.  An artifact
    name with a path separator leaves the directory, and the workspace when
    it is absolute.  The text written into the save call is not always the
    path that is checked afterwards: for a name with a backslash the
    checked path is a file of that name in [presentations], and the save
    call is sent to a file in a directory below it. *)
Lemma layout_counterexample :
  output_path_str "ws" "deck" = ("ws/presentations/deck.pptx" : pystr)
  /\ output_path_str "ws" "deck" <> ("ws/output/deck" : pystr)
  /\ fix_save_path (output_path_str "ws" "deck") "ppt.save('old.pptx')"
     = "ppt" ++ save_call "ws/presentations/deck.pptx"
  /\ fix_save_path (output_path_str "ws" "deck") "ppt.save('old.pptx'"
     = ("ppt.save('old.pptx'" : pystr)
  /\ (let root := project_root "/srv" "Solar" sample_time (take 8 sample_uuid) in
      let w := (create_project_folder "/srv" sample_uuid sample_time "Solar" host).2 in
      is_dir (str (div root "presentations")) w = true
      /\ is_dir (str (div root "output")) w = false)
  /\ output_path_str "ws" "/tmp/deck.pptx" = ("/tmp/deck.pptx" : pystr)
  /\ str (output_path "ws" "a\b") = ("ws/presentations/a\b.pptx" : pystr)
  /\ output_path_str "ws" "a\b" = ("ws/presentations/a/b.pptx" : pystr).
Proof.
  split; [vm_compute; reflexivity|].
  split; [vm_compute; discriminate|].
  split; [vm_compute; reflexivity|].
  split; [vm_compute; reflexivity|].
  split; [split; vm_compute; reflexivity|].
  split; [vm_compute; reflexivity|].
  split; vm_compute; reflexivity.
Qed.

(** C1, amended.  A successful [create_project_folder] returns the text of
    the project root; the root and its four subdirectories [code],
    [presentations], [assets] and [logs] are directories afterwards, no file
    changes, and the only other new directories are missing ancestors of the
    root.  For an artifact name without a slash, the path whose existence
    [execute_ppt_code] checks is the root, [/presentations/] and the name,
    with [.pptx] appended unless the name already ends in it.  The
    destination written into the save call is that text with every
    backslash turned into a slash: it is that very path when neither the
    root nor the name holds a backslash.  A save call of the source whose
    argument holds no closing parenthesis is given that destination
    whatever its argument was, and a source without a save call gets one
    appended. *)
Theorem workspace_layout cwd uuid4 ts topic_ w r w' fn u a v :
  create_project_folder cwd uuid4 ts topic_ w = (Ok r, w') ->
  folder_status r = "success" ->
  slash ∉ fn ->
  contains ".save(" u = false ->
  ")"%char ∉ a ->
  let root_path := project_root cwd topic_ ts (take 8 uuid4) in
  let folder := ToolsPPT.project_folder r in
  let name : pystr := if endswith ".pptx" fn then fn else fn ++ ".pptx" in
  let path : pystr := folder ++ "/presentations/" ++ name in
  let dest := replace_char backslash slash path in
  let call : pystr := ".save(r" ++ [dquote] ++ dest ++ [dquote] ++ ")" in
  folder = str root_path
  /\ Forall (fun k => k ∈ dirs w')
            [folder; folder ++ "/code"; folder ++ "/presentations";
             folder ++ "/assets"; folder ++ "/logs"]
  /\ grows_by (lineage (length (parts root_path)) root_path
               ++ [folder ++ "/code"; folder ++ "/presentations";
                   folder ++ "/assets"; folder ++ "/logs"]) w w'
  /\ str (output_path folder fn) = path
  /\ output_path_str folder fn = dest
  /\ (backslash ∉ folder -> backslash ∉ fn -> dest = path)
  /\ fix_save_path (output_path_str folder fn) (u ++ ".save(" ++ a ++ ")" ++ v)
     = u ++ call ++ re_sub_save call v
  /\ fix_save_path (output_path_str folder fn) u
     = u ++ [newline; newline] ++ "# Save the presentation" ++ [newline]
       ++ "prs" ++ call.
Proof.
  intros Hrun Hst Hfn Hu Ha. cbv zeta.
  destruct (create_project_folder_success _ _ _ _ _ _ _ Hrun Hst)
    as (Hpf & _ & Hdirs & Hgrow).
  set (R := project_root cwd topic_ ts (take 8 uuid4)) in *.
  rewrite Hpf. set (F := str R) in *.
  set (name := if endswith ".pptx" fn then fn else fn ++ ".pptx").
  pose proof (project_root_parts cwd topic_ ts (take 8 uuid4)) as Hparts.
  fold R in Hparts.
  assert (Hsub : map (fun d => str (div R d)) subdirectories
                 = [F ++ "/code"; F ++ "/presentations";
                    F ++ "/assets"; F ++ "/logs"]).
  { unfold subdirectories. cbn [map].
    rewrite !(str_child R) by
      first [ exact Hparts | reflexivity
            | intros H; skip_chars H; inversion H ].
    reflexivity. }
  rewrite Hsub in Hdirs, Hgrow.
  assert (Hpath : str (output_path F fn) = F ++ "/presentations/" ++ name).
  { rewrite (output_path_parts _ _ Hfn). unfold F.
    rewrite (Path_str R) by apply project_root_normal.
    change (parts R ++ ["presentations" : pystr; ensure_pptx fn])
      with (parts R ++ ["presentations" : pystr] ++ [ensure_pptx fn]).
    rewrite app_assoc.
    rewrite str_snoc
      by (intros E; apply app_eq_nil in E; destruct E as [_ E]; discriminate E).
    rewrite str_snoc by exact Hparts.
    destruct R as [rt ps]. cbn [root parts]. rewrite <- !app_assoc.
    reflexivity. }
  assert (Hdest : output_path_str F fn
                  = replace_char backslash slash
                      (F ++ "/presentations/" ++ name)).
  { unfold output_path_str. rewrite Hpath. reflexivity. }
  split; [reflexivity|]. split; [exact Hdirs|]. split; [exact Hgrow|].
  split; [exact Hpath|]. split; [exact Hdest|].
  split.
  { intros Hb1 Hb2. apply replace_char_id. intros Hin.
    apply elem_of_app in Hin. destruct Hin as [Hin|Hin]; [auto|].
    apply elem_of_app in Hin. destruct Hin as [Hin|Hin].
    - skip_chars Hin. inversion Hin.
    - unfold name in Hin. destruct (endswith ".pptx" fn); [auto|].
      apply elem_of_app in Hin. destruct Hin as [Hin|Hin]; [auto|].
      skip_chars Hin. inversion Hin. }
  rewrite Hdest. split.
  - apply (fix_save_path_first_call _ u a v); assumption.
  - unfold fix_save_path. rewrite Hu. reflexivity.
Qed.

Lemma workspace_layout_witness :
  let run := create_project_folder "/srv" sample_uuid sample_time "Solar" host in
  let folder : pystr :=
    "/srv/generated_presentations/ppt_presentation_Solar_20250101_120000_1b4e28ba" in
  let dest : pystr := folder ++ "/presentations/deck.pptx" in
  (slash ∉ ("deck" : pystr))
  /\ contains ".save(" "ppt" = false
  /\ (")"%char ∉ ("'old.pptx'" : pystr))
  /\ (exists r, run = (Ok r, run.2) /\ folder_status r = "success"
                /\ ToolsPPT.project_folder r = folder)
  /\ output_path_str folder "deck" = dest
  /\ str (output_path folder "deck") = dest
  /\ fix_save_path dest ("ppt" ++ ".save(" ++ "'old.pptx'" ++ ")" ++ [])
     = "ppt" ++ ".save(r" ++ [dquote] ++ dest ++ [dquote] ++ ")".
Proof.
  intros run folder dest.
  assert (H1 : slash ∉ ("deck" : pystr)).
  { intros H. skip_chars H. inversion H. }
  assert (H2 : ")"%char ∉ ("'old.pptx'" : pystr)).
  { intros H. skip_chars H. inversion H. }
  assert (H3 : contains ".save(" "ppt" = false) by reflexivity.
  pose (r := {| unique_id := "1b4e28ba";
                ToolsPPT.project_folder := folder;
                folder_status := "success";
                folder_error := None |}).
  assert (Hfst : run.1 = Ok r) by (vm_compute; reflexivity).
  assert (Hrun : run = (Ok r, run.2))
    by (rewrite <- Hfst; apply surjective_pairing).
  assert (Hst : folder_status r = "success") by reflexivity.
  split; [exact H1|]. split; [exact H3|]. split; [exact H2|].
  split; [exists r; split; [exact Hrun|split; [exact Hst|reflexivity]]|].
  pose proof (workspace_layout "/srv" sample_uuid sample_time "Solar" host r run.2
                "deck" "ppt" "'old.pptx'" [] Hrun Hst H1 H3 H2) as H.
  cbv zeta in H. destruct H as (_ & _ & _ & Hp & Hd & _ & H & _).
  change (ToolsPPT.project_folder r) with folder in Hp, Hd, H.
  assert (Hdest : replace_char backslash slash
                    (folder ++ "/presentations/"
                     ++ (if endswith ".pptx" "deck" then "deck"
                         else "deck" ++ ".pptx")) = dest)
    by (vm_compute; reflexivity).
  rewrite Hdest in Hd, H.
  split; [exact Hd|]. split; [rewrite Hp; vm_compute; reflexivity|].
  rewrite <- Hd. rewrite H, Hd. rewrite re_sub_save_equation_1, app_nil_r.
  reflexivity.
Defined.

(** ** C8: the rewrite applied twice *)




(** ** C2: staging the design-system module *)

(** C2 states that staging the module never makes the run fail when the
    module is found.  In the code every source that imports the module ends
    in an error result, whatever the child process would do: either the
    module is not found, or the first copy fails, or the second staging step
    asks a [str] for its [exists] method.  The source is never run. *)
Theorem template_staging_aborts child exe code pf fn w :
  contains template_import (fix_save_path (output_path_str pf fn) code) = true ->
  exists r w',
    execute_ppt_code child exe code pf fn w = (Ok r, w')
    /\ status r = "error"
    /\ ToolsPPT.ppt_path r = []
    /\ forall child', execute_ppt_code child' exe code pf fn w = (Ok r, w').
Proof.
  intros Himp.
  destruct (execute_import_error child exe code pf fn w Himp)
    as (r & w' & E & Hs & Hp).
  exists r, w'. repeat split; try assumption.
  intros child'. rewrite <- E. apply execute_import_any_child. exact Himp.
Qed.

Lemma template_staging_aborts_witness :
  contains template_import
    (fix_save_path (output_path_str "ws" "deck.pptx") contract_source) = true
  /\ exists r w',
       execute_ppt_code (fun _ _ _ w => (Completed 0 [] [], w)) "python"
         contract_source "ws" "deck.pptx" workspace_with_templates = (Ok r, w')
       /\ status r = "error".
Proof.
  assert (H : contains template_import
                (fix_save_path (output_path_str "ws" "deck.pptx") contract_source)
              = true) by (vm_compute; reflexivity).
  split; [exact H|].
  destruct (template_staging_aborts (fun _ _ _ w => (Completed 0 [] [], w))
              "python" contract_source "ws" "deck.pptx"
              workspace_with_templates H) as (r & w' & E & Hs & _).
  exists r, w'. split; [exact E|exact Hs].
Defined.

(** The failing run: the module is found and copied next to the project,
    and the result is the error of the second staging step. *)
Example staging_attribute_error child exe :
  (execute_ppt_code child exe contract_source "ws" "deck.pptx"
     workspace_with_templates).1
  = Ok (error_result
          "Error executing PowerPoint code: 'str' object has no attribute 'exists'").
Proof. vm_compute. reflexivity. Qed.

(** ** C5: the classification of a run *)




(** ** C4: a text that does not parse *)

(** C4.  When the parser raises a syntax error on the text, the report holds
    exactly one finding, the blocking syntax finding with the line and the
    message of the error; no warning is issued and none of the later checks
    leaves a result. *)
Theorem syntax_error_single_finding ast_parse code lineno msg w :
  ast_parse code = Some (SyntaxError lineno msg) ->
  exists r w',
    validate_ppt_code ast_parse code w = (Ok r, w')
    /\ findings r
       = [(Blocking,
           "Syntax error at line " ++ str_lineno lineno ++ ": " ++ msg)]
    /\ syntax_valid r = false
    /\ overall_pass r = false
    /\ imports_template r = None
    /\ uses_template_system r = None
    /\ template_theme_selected r = None
    /\ uses_raw_pptx r = None
    /\ saves_presentation r = false
    /\ has_slides r = false.
Proof.
  intros H. eexists _, _. split; [apply validate_ppt_code_run|].
  unfold report_of. rewrite H. repeat split.
Qed.

Lemma syntax_error_single_finding_witness :
  sample_parser "ppt = create_template(" = Some (SyntaxError (Some 1) "'(' was never closed")
  /\ exists r w',
       validate_ppt_code sample_parser "ppt = create_template(" host = (Ok r, w')
       /\ findings r = [(Blocking, "Syntax error at line 1: '(' was never closed" : pystr)].
Proof.
  assert (H : sample_parser "ppt = create_template("
              = Some (SyntaxError (Some 1) "'(' was never closed"))
    by reflexivity.
  split; [exact H|].
  destruct (syntax_error_single_finding sample_parser "ppt = create_template("
              (Some 1) "'(' was never closed" host H) as (r & w' & E & Hf & _).
  exists r, w'. split; [exact E|exact Hf].
Defined.

(** ** C9: the required import *)




(** ** C7: the validator as a function *)

(** C7, as stated, fails in one point: the validator has an effect.  Each
    call hands the whole source text to the logger. *)
Lemma validator_effect_counterexample :
  let after := (validate_ppt_code sample_parser "print(1)" host).2 in
  after <> host
  /\ log after = [(INFO, "Validating code: print(1)" : pystr)].
Proof.
  split; [|reflexivity].
  intros H. apply (f_equal log) in H. discriminate H.
Qed.

(** C7, amended.  The report is a function of the source text and of the
    parser's verdict on it: a call returns the same report in every world,
    and a second call after the first returns it again.  A call never
    raises, leaves the directories and the files as they are and runs
    nothing; its only effect is one log record that carries the source
    text. *)
Theorem validator_deterministic ast_parse code w1 w2 :
  let first := validate_ppt_code ast_parse code w1 in
  let other := validate_ppt_code ast_parse code w2 in
  let again := validate_ppt_code ast_parse code first.2 in
  first.1 = Ok (report_of ast_parse code)
  /\ other.1 = first.1
  /\ again.1 = first.1
  /\ dirs first.2 = dirs w1
  /\ files first.2 = files w1
  /\ log first.2 = log w1 ++ [(INFO, "Validating code: " ++ code)].
Proof.
  cbv zeta. rewrite !validate_ppt_code_run. repeat split.
Qed.



(** ** C3: the bound on iterations *)




(** ** C6: success and delivery *)

(** C6, as stated, fails.  A delivery that fails by raising ends the stream
    with an exception, and the run is then reported as failed whatever the
    executor had announced: of two runs with the same planning, generation,
    validation and execution, the one whose delivery reports and the one
    whose delivery raises differ in [success]. *)
Lemma delivery_raise_counterexample :
  let sent := (generate_powerpoint_presentation
                 (fun _ _ => produced "Email sent successfully")
                 clock sample_uuid "Solar Energy" None (Some ("a@b.com" : pystr))
                 host).1 in
  let raised := (generate_powerpoint_presentation
                   (fun _ _ => delivery_raised)
                   clock sample_uuid "Solar Energy" None (Some ("a@b.com" : pystr))
                   host).1 in
  take 4 (events (produced "Email sent successfully")) = events delivery_raised
  /\ match sent, raised with
     | Ok r1, Ok r2 =>
         success r1 = true
         /\ success r2 = false
         /\ email_sent r2 = None
         /\ Agent.error r2
            = Some ("SMTPServerDisconnected: Connection unexpectedly closed"
                    : pystr)
     | _, _ => False
     end.
Proof. split; [reflexivity|]. vm_compute. repeat split. Qed.

(** C6, amended.  Of two runs whose streams end normally and are the same
    once the items of the delivery agent are left out, both return the same
    [success], which is what the last message of the executor decides.  The
    outcome of the delivery is kept in the field [email_sent] of its own:
    it is true exactly when the last message of the delivery agent is not
    empty and holds [Email sent successfully] or the check mark. *)
Theorem success_ignores_delivery sup1 sup2 now1 now2 uuid4 topic_ tid rcpt w1 w2 :
  let s1 := sup1 (request_text topic_ rcpt) (thread_of uuid4 tid) in
  let s2 := sup2 (request_text topic_ rcpt) (thread_of uuid4 tid) in
  let others (evs : list event) : list (pystr * value) :=
    List.filter (fun i : pystr * value =>
                   negb (bool_decide (i.1 = ("email_sender_agent" : pystr))))
                (concat evs) in
  let delivered (said : option pystr) : bool :=
    match said with
    | Some (c :: t) =>
        contains "Email sent successfully" (c :: t)
        || contains ["226"%char; "156"%char; "133"%char] (c :: t)
    | _ => false
    end in
  failure s1 = None ->
  failure s2 = None ->
  others (events s1) = others (events s2) ->
  exists r1 w1' r2 w2',
    generate_powerpoint_presentation sup1 now1 uuid4 topic_ tid rcpt w1
    = (Ok r1, w1')
    /\ generate_powerpoint_presentation sup2 now2 uuid4 topic_ tid rcpt w2
       = (Ok r2, w2')
    /\ success r1 = success r2
    /\ success r1
       = match last_said "ppt_executor_agent" (events s1) with
         | Some text => is_successful text
         | None => false
         end
    /\ email_sent r1
       = Some (delivered (last_said "email_sender_agent" (events s1)))
    /\ email_sent r2
       = Some (delivered (last_said "email_sender_agent" (events s2))).
Proof.
  intros s1 s2 others delivered Hf1 Hf2 Hev.
  destruct (generate_run now1 sup1 uuid4 topic_ tid rcpt w1)
    as (r1 & w1' & E1 & _ & Hs1 & Hm1).
  destruct (generate_run now2 sup2 uuid4 topic_ tid rcpt w2)
    as (r2 & w2' & E2 & _ & Hs2 & Hm2).
  fold s1 in Hs1, Hm1. fold s2 in Hs2, Hm2.
  rewrite Hf1 in Hs1, Hm1. rewrite Hf2 in Hs2, Hm2.
  exists r1, w1', r2, w2'. split; [exact E1|]. split; [exact E2|].
  assert (Hd : forall o, email_delivered (default [] o) = delivered o).
  { intros [[|c t]|]; reflexivity. }
  split; [|split; [|split]].
  - rewrite Hs1, Hs2, !outputs_last_said.
    rewrite (last_said_filter "ppt_executor_agent" "email_sender_agent"
               (events s1) (events s2) ltac:(discriminate) Hev).
    reflexivity.
  - rewrite Hs1, outputs_last_said.
    destruct (last_said _ _); reflexivity.
  - rewrite Hm1, outputs_last_said, Hd. reflexivity.
  - rewrite Hm2, outputs_last_said, Hd. reflexivity.
Qed.

Lemma success_ignores_delivery_witness :
  let retried : stream :=
    {| events := events (produced "Failed to send email: connection refused")
                 ++ [says "email_sender_agent"
                          "Failed to send email: connection refused"];
       failure := None |} in
  exists r1 w1' r2 w2',
    generate_powerpoint_presentation
      (fun _ _ => produced "Email sent successfully")
      clock sample_uuid "Solar Energy" None (Some ("a@b.com" : pystr)) host
    = (Ok r1, w1')
    /\ generate_powerpoint_presentation
         (fun _ _ => retried)
         clock sample_uuid "Solar Energy" None (Some ("a@b.com" : pystr)) host
       = (Ok r2, w2')
    /\ success r1 = true /\ success r2 = true
    /\ email_sent r1 = Some true /\ email_sent r2 = Some false.
Proof.
  intros retried.
  destruct (success_ignores_delivery
              (fun _ _ => produced "Email sent successfully")
              (fun _ _ => retried)
              clock clock sample_uuid "Solar Energy" None
              (Some ("a@b.com" : pystr)) host host eq_refl eq_refl eq_refl)
    as (r1 & w1' & r2 & w2' & E1 & E2 & Heq & Hs & Hm1 & Hm2).
  exists r1, w1', r2, w2'. split; [exact E1|]. split; [exact E2|].
  assert (H1 : success r1 = true) by (rewrite Hs; vm_compute; reflexivity).
  split; [exact H1|]. split; [rewrite <- Heq; exact H1|].
  split; [rewrite Hm1|rewrite Hm2]; vm_compute; reflexivity.
Defined.

(** The two sample runs: the artifact is produced in both, the delivery
    succeeds in one only. *)
Example delivery_recorded_apart :
  let sent := (generate_powerpoint_presentation
                 (fun _ _ => produced "Email sent successfully")
                 clock sample_uuid "Solar Energy" None (Some ("a@b.com" : pystr))
                 host).1 in
  let lost := (generate_powerpoint_presentation
                 (fun _ _ => produced "Failed to send email: connection refused")
                 clock sample_uuid "Solar Energy" None (Some ("a@b.com" : pystr))
                 host).1 in
  match sent, lost with
  | Ok r1, Ok r2 =>
      success r1 = true /\ email_sent r1 = Some true
      /\ success r2 = true /\ email_sent r2 = Some false
  | _, _ => False
  end.
Proof. vm_compute. repeat split. Qed.

(** ** C10: an unknown theme *)

(** C10.  [create_template] returns an instance for every string; for a
    string that is none of the four theme names the instance is the one of
    the business template, the same as for ["business"], and nothing
    reports the unknown name. *)
Theorem unknown_theme_is_business (t : pystr) :
  t ∉ ["business" : pystr; "tech" : pystr; "creative" : pystr; "corporate" : pystr] ->
  create_template t = instantiate BusinessTemplate
  /\ create_template t = create_template "business"
  /\ class_of (create_template t) = BusinessTemplate
  /\ COLORS !! ("business_blue" : pystr) = Some (color_scheme (create_template t)).
Proof.
  intros H.
  apply not_elem_of_cons in H as [H1 H]. apply not_elem_of_cons in H as [H2 H].
  apply not_elem_of_cons in H as [H3 H]. apply not_elem_of_cons in H as [H4 _].
  assert (E : create_template t = instantiate BusinessTemplate).
  { unfold create_template. rewrite templates_lookup_other by assumption.
    reflexivity. }
  rewrite E. repeat split; vm_compute; reflexivity.
Qed.

Lemma unknown_theme_is_business_witness :
  (("bussiness" : pystr)
     ∉ ["business" : pystr; "tech" : pystr; "creative" : pystr; "corporate" : pystr])
  /\ class_of (create_template "bussiness") = BusinessTemplate.
Proof.
  assert (H : ("bussiness" : pystr)
                ∉ ["business" : pystr; "tech" : pystr; "creative" : pystr;
                   "corporate" : pystr]).
  { intros H. repeat (apply elem_of_cons in H; destruct H as [H|H];
                      [discriminate H|]). inversion H. }
  split; [exact H|].
  destruct (unknown_theme_is_business "bussiness" H) as (_ & _ & Hc & _).
  exact Hc.
Defined.

(** * Further properties of the tools *)

(** ** Writing files *)
Section Writing.

Lemma write_text_raise p content w e w' :
  write_text p content w = (Raise e, w') -> w' = w /\ e <> TimeoutExpired.
Proof.
  unfold write_text. intros H.
  destruct (is_dir (str p) w); [injection H as <- <-; split; [reflexivity|discriminate]|].
  destruct (is_dir (str (parent p)) w); [discriminate|].
  injection H as <- <-. split; [reflexivity|discriminate].
Qed.

Lemma write_text_Ok p content w u w' :
  write_text p content w = (Ok u, w') ->
  is_dir (str p) w = false /\ is_dir (str (parent p)) w = true.
Proof.
  unfold write_text. intros H.
  destruct (is_dir (str p) w); [discriminate|].
  destruct (is_dir (str (parent p)) w); [split; reflexivity|discriminate].
Qed.

Lemma path_exists_ext k w w' :
  dirs w' = dirs w -> files w' = files w -> path_exists k w' = path_exists k w.
Proof.
  intros Hd Hf. unfold path_exists, is_dir, is_file. rewrite Hd, Hf. reflexivity.
Qed.

End Writing.

(** ** [save_code_to_file] *)

Lemma save_code_to_file_run code pf fn w :
  let cf := code_file_of pf in
  let ready := negb (is_dir (str cf) w) && is_dir (str (parent cf)) w in
  exists r w',
    save_code_to_file code pf fn w = (Ok r, w')
    /\ save_status r = (if ready then "success" else "error" : pystr)
    /\ w' = (if ready
             then {| dirs := dirs w; files := <[str cf := code]> (files w);
                     log := log w |}
             else w)
    /\ (if ready then files w' !! str cf = Some code else True).
Proof.
  intros cf ready. unfold save_code_to_file. fold (code_file_of pf). fold cf.
  subst ready.
  destruct (write_text cf code w) as [[u|e] w1] eqn:E.
  - destruct (write_text_Ok _ _ _ _ _ E) as [Hd Hp]. rewrite Hd, Hp.
    rewrite (write_text_ok _ _ _ Hd Hp) in E. injection E as _ <-.
    eexists _, _. split.
    + apply try_except_Ok. erewrite bind_step by (apply write_text_ok; assumption).
      reflexivity.
    + cbn. split; [reflexivity|]. split; [reflexivity|]. apply lookup_insert_eq.
  - destruct (write_text_raise _ _ _ _ _ E) as [-> _].
    assert (Hr : negb (is_dir (str cf) w) && is_dir (str (parent cf)) w = false).
    { unfold write_text in E.
      destruct (is_dir (str cf) w); [reflexivity|].
      destruct (is_dir (str (parent cf)) w); [discriminate|reflexivity]. }
    rewrite Hr. eexists _, _. split.
    + erewrite try_except_raise by (erewrite bind_raise by exact E; reflexivity).
      reflexivity.
    + cbn. auto.
Qed.

(** X1.  [save_code_to_file] never raises.  It succeeds exactly when the
    [code] directory of the project exists and the code file is not itself
    a directory; the code file then holds the code as given, and no other
    file, no directory and no log record changes.  Otherwise it returns
    [error] and leaves the world as it was.  The [filename] argument has no
    influence. *)
Theorem save_code_round_trip code pf w :
  let cf := code_file_of pf in
  let ready := negb (is_dir (str cf) w) && is_dir (str (parent cf)) w in
  exists r w',
    (forall fn', save_code_to_file code pf fn' w = (Ok r, w'))
    /\ save_status r = (if ready then "success" else "error" : pystr)
    /\ w' = (if ready
             then {| dirs := dirs w; files := <[str cf := code]> (files w);
                     log := log w |}
             else w)
    /\ (if ready then files w' !! str cf = Some code else True).
Proof.
  intros cf ready.
  destruct (save_code_to_file_run code pf [] w) as (r & w' & E & H).
  exists r, w'. split; [|exact H]. intros fn'. exact E.
Qed.

(** ** A created workspace *)
Section CreatedWorkspace.

Lemma str_inj p q : normal p -> normal q -> str p = str q -> p = q.
Proof.
  intros Hp Hq H. rewrite <- (Path_str p Hp), <- (Path_str q Hq), H. reflexivity.
Qed.

Lemma div_single p (x : pystr) :
  slash ∉ x -> is_component x = true ->
  div p x = {| root := root p; parts := parts p ++ [x] |}.
Proof.
  intros Hs Hc. unfold div. rewrite (Path_single x Hs Hc). reflexivity.
Qed.

Lemma parent_normal p : normal p -> normal (parent p).
Proof.
  intros [Hr Hp]. split; [exact Hr|]. cbn [parent parts].
  apply Forall_forall. intros x Hx.
  assert (Hin : x ∈ parts p).
  { destruct (parts p) as [|y l] eqn:E using rev_ind; [inversion Hx|].
    rewrite removelast_last in Hx. apply elem_of_app. left. exact Hx. }
  eapply Forall_forall in Hp; eassumption.
Qed.

Lemma parent_parts_le p : length (parts (parent p)) <= length (parts p).
Proof.
  cbn [parent parts]. destruct (parts p) as [|y l] using rev_ind; [reflexivity|].
  rewrite removelast_last, length_app. lia.
Qed.

Lemma lineage_normal n : forall p k,
  normal p -> k ∈ lineage n p ->
  exists q, normal q /\ k = str q /\ length (parts q) <= length (parts p).
Proof.
  induction n as [|n IH]; intros p k Hp Hk; cbn [lineage] in Hk.
  - apply list_elem_of_singleton in Hk. exists p. auto.
  - apply elem_of_cons in Hk. destruct Hk as [->|Hk]; [exists p; auto|].
    destruct (IH _ _ (parent_normal _ Hp) Hk) as (q & Hq & -> & Hl).
    exists q. split; [exact Hq|]. split; [reflexivity|].
    pose proof (parent_parts_le p). lia.
Qed.

Lemma name_clean (x : pystr) : slash ∉ x -> is_component x = true -> clean x.
Proof. intros Hs Hc. split; assumption. Qed.

(** In the world a successful [create_project_folder] leaves, the [code]
    directory of the project is there and the code file is no directory,
    unless it was one before. *)
Lemma created_code_dir_ready cwd uuid4 ts topic_ w r w' :
  create_project_folder cwd uuid4 ts topic_ w = (Ok r, w') ->
  folder_status r = "success" ->
  str (code_file_of (ToolsPPT.project_folder r)) ∉ dirs w ->
  is_dir (str (code_file_of (ToolsPPT.project_folder r))) w' = false
  /\ is_dir (str (parent (code_file_of (ToolsPPT.project_folder r)))) w' = true.
Proof.
  intros Hrun Hst Hfree.
  destruct (create_project_folder_success _ _ _ _ _ _ _ Hrun Hst)
    as (Hpf & _ & Hdirs & Hgrow).
  set (folder := project_root cwd topic_ ts (take 8 uuid4)) in *.
  assert (Hn : normal folder) by apply project_root_normal.
  assert (Hcode : div folder "code"
                  = {| root := root folder; parts := parts folder ++ ["code" : pystr] |}).
  { apply div_single; [|reflexivity]. intros H. skip_chars H. inversion H. }
  assert (Hcf : code_file_of (ToolsPPT.project_folder r)
                = {| root := root folder;
                     parts := parts folder ++ ["code" : pystr; "generate_ppt.py" : pystr] |}).
  { unfold code_file_of. rewrite Hpf, (Path_str folder Hn), Hcode.
    rewrite div_single; [|intros H; skip_chars H; inversion H|reflexivity].
    cbn [root parts]. rewrite <- app_assoc. reflexivity. }
  assert (Hcfn : normal (code_file_of (ToolsPPT.project_folder r))).
  { unfold code_file_of. auto using div_normal, Path_normal. }
  split.
  - apply bool_decide_eq_false. intros Hin.
    destruct Hgrow as (_ & _ & Hnew). destruct (Hnew _ Hin) as [H|H]; [auto|].
    apply elem_of_app in H. destruct H as [H|H].
    + destruct (lineage_normal _ _ _ Hn H) as (q & Hq & Hs & Hl).
      apply (str_inj _ _ Hcfn Hq) in Hs. rewrite <- Hs, Hcf in Hl.
      cbn [parts] in Hl. rewrite length_app in Hl. cbn in Hl. lia.
    + apply list_elem_of_fmap in H. destruct H as (d & Hs & Hd).
      apply (str_inj _ _ Hcfn) in Hs; [|auto using div_normal].
      assert (Hdn : length (parts (div folder d)) <= length (parts folder) + 1).
      { unfold subdirectories in Hd.
        repeat (apply elem_of_cons in Hd; destruct Hd as [->|Hd];
                [rewrite div_single;
                 [cbn [parts]; rewrite length_app; cbn; lia
                 |intros H; skip_chars H; inversion H|reflexivity]|]).
        inversion Hd. }
      rewrite <- Hs, Hcf in Hdn. cbn [parts] in Hdn.
      rewrite length_app in Hdn. cbn in Hdn. lia.
  - apply bool_decide_eq_true.
    assert (Hp : parent (code_file_of (ToolsPPT.project_folder r)) = div folder "code").
    { rewrite Hcf, Hcode. unfold parent. cbn [root parts].
      change ["code" : pystr; "generate_ppt.py" : pystr]
        with (["code" : pystr] ++ ["generate_ppt.py" : pystr]).
      rewrite app_assoc, removelast_last. reflexivity. }
    rewrite Hp. inversion Hdirs as [|? ? _ Hsub]; subst.
    inversion Hsub; subst. assumption.
Qed.

End CreatedWorkspace.

(** X2.  A workspace that [create_project_folder] has just created accepts
    the code: unless the path of the code file was a directory before,
    [save_code_to_file] on the returned project folder succeeds and the code
    file holds the code. *)
Theorem created_workspace_accepts_code cwd uuid4 ts topic_ w r w' code fn :
  create_project_folder cwd uuid4 ts topic_ w = (Ok r, w') ->
  folder_status r = "success" ->
  str (code_file_of (ToolsPPT.project_folder r)) ∉ dirs w ->
  exists s w'',
    save_code_to_file code (ToolsPPT.project_folder r) fn w' = (Ok s, w'')
    /\ save_status s = "success"
    /\ files w'' !! str (code_file_of (ToolsPPT.project_folder r)) = Some code
    /\ dirs w'' = dirs w'.
Proof.
  intros Hrun Hst Hfree.
  destruct (created_code_dir_ready _ _ _ _ _ _ _ Hrun Hst Hfree) as [Hd Hp].
  destruct (save_code_to_file_run code (ToolsPPT.project_folder r) fn w')
    as (s & w'' & E & Hs & Hw & Hf).
  cbv zeta in Hs, Hw, Hf. rewrite Hd, Hp in Hs, Hw, Hf. cbn [negb andb] in *.
  exists s, w''. split; [exact E|]. split; [exact Hs|]. split; [exact Hf|].
  rewrite Hw. reflexivity.
Qed.

Lemma created_workspace_accepts_code_witness :
  let run := create_project_folder "/srv" sample_uuid sample_time "Solar" host in
  let pf : pystr :=
    "/srv/generated_presentations/ppt_presentation_Solar_20250101_120000_1b4e28ba" in
  (str (code_file_of pf) ∉ dirs host)
  /\ exists s w'',
       save_code_to_file "print(1)" pf "deck.pptx" run.2 = (Ok s, w'')
       /\ save_status s = "success".
Proof.
  intros run pf.
  pose (r := {| unique_id := "1b4e28ba";
                ToolsPPT.project_folder := pf;
                folder_status := "success";
                folder_error := None |}).
  assert (Hfst : run.1 = Ok r) by (vm_compute; reflexivity).
  assert (Hrun : run = (Ok r, run.2))
    by (rewrite <- Hfst; apply surjective_pairing).
  assert (Hfree : str (code_file_of (ToolsPPT.project_folder r)) ∉ dirs host).
  { intros H. unfold host in H. cbn [dirs] in H.
    apply elem_of_singleton in H. vm_compute in H. discriminate H. }
  split; [exact Hfree|].
  destruct (created_workspace_accepts_code "/srv" sample_uuid sample_time "Solar"
              host r run.2 "print(1)" "deck.pptx" Hrun eq_refl Hfree)
    as (s & w'' & E & Hs & _).
  exists s, w''. split; [exact E|exact Hs].
Defined.

(** ** [execute_ppt_code]: what it returns *)
Section ExecutorOutcome.
Variable child : list pystr -> pystr -> nat -> World -> proc_outcome * World.
Variable exe : pystr.

Lemma execute_write_fails code pf fn w e w1 :
  contains template_import (fix_save_path (output_path_str pf fn) code) = false ->
  write_text (code_file_of pf) (fix_save_path (output_path_str pf fn) code) w
  = (Raise e, w1) ->
  exists r w',
    execute_ppt_code child exe code pf fn w = (Ok r, w') /\ status r = "error".
Proof.
  intros Hno Hw. destruct (write_text_raise _ _ _ _ _ Hw) as [-> Hne].
  unfold execute_ppt_code, execute_body. rewrite Hno. fold (code_file_of pf).
  erewrite try_except_raise.
  2:{ erewrite bind_step by reflexivity. cbv beta iota.
      erewrite bind_step by reflexivity.
      erewrite bind_raise by exact Hw. reflexivity. }
  destruct e; try congruence; cbn; eexists _, _; split; reflexivity.
Qed.

Lemma execute_outcome code pf fn w :
  exists r w',
    execute_ppt_code child exe code pf fn w = (Ok r, w')
    /\ (status r = "success" ->
        path_exists (str (output_path pf fn)) w' = true
        /\ ToolsPPT.ppt_path r = str (output_path pf fn)
        /\ contains template_import
             (fix_save_path (output_path_str pf fn) code) = false
        /\ ToolsPPT.message r
           = "PowerPoint presentation generated successfully").
Proof.
  destruct (contains template_import
              (fix_save_path (output_path_str pf fn) code)) eqn:Himp.
  - destruct (execute_import_error child exe code pf fn w Himp)
      as (r & w' & E & Hs & _).
    exists r, w'. split; [exact E|]. rewrite Hs. discriminate.
  - destruct (write_text (code_file_of pf)
                (fix_save_path (output_path_str pf fn) code) w)
      as [[u|e] w1] eqn:Hw.
    + destruct (write_text_Ok _ _ _ _ _ Hw) as [Hd Hp].
      destruct (child [exe; str (code_file_of pf)] (str (Path pf)) 120
                  (launched code pf fn w)) as [o w2] eqn:Hc.
      destruct (execute_runs_child child exe code pf fn w Himp Hd Hp o w2 Hc)
        as (w3 & E & Hdirs & Hfiles).
      eexists _, w3. split; [exact E|]. intros Hs.
      rewrite (path_exists_ext _ _ _ Hdirs Hfiles).
      destruct o as [rc so se|]; cbn [classified] in Hs |- *.
      * destruct (rc =? 0)%Z; [|discriminate Hs].
        destruct (path_exists (str (output_path pf fn)) w2); [|discriminate Hs].
        repeat split.
      * discriminate Hs.
    + destruct (execute_write_fails code pf fn w e w1 Himp Hw)
        as (r & w' & E & Hs).
      exists r, w'. split; [exact E|]. rewrite Hs. discriminate.
Qed.

End ExecutorOutcome.





(** ** The validator and the executor together *)
Section Pipeline.

Lemma contains_intro (p u v : pystr) : contains p (u ++ p ++ v) = true.
Proof. apply contains_app_r, contains_here, startswith_app. Qed.

Lemma contains_elim (p s : pystr) :
  contains p s = true -> exists u v, s = u ++ p ++ v.
Proof.
  induction s as [|c t IH]; cbn [contains]; intros H.
  - rewrite orb_false_r in H. apply startswith_split in H.
    destruct H as [r ->]. exists [], r. reflexivity.
  - apply orb_true_iff in H. destruct H as [H|H].
    + apply startswith_split in H. destruct H as [r ->]. exists [], r. reflexivity.
    + destruct (IH H) as (u & v & ->). exists (c :: u), v. reflexivity.
Qed.

Lemma overall_pass_eq r :
  overall_pass r = match errors r with [] => true | _ :: _ => false end.
Proof.
  unfold overall_pass, findings. destruct (errors r) as [|e l]; cbn.
  - induction (warnings r) as [|x l IH]; [reflexivity|exact IH].
  - reflexivity.
Qed.

Lemma startswith_longer (p x rest : pystr) :
  length p <= length x ->
  startswith p (x ++ rest) = startswith p x.
Proof.
  revert x. induction p as [|a p IH]; intros x Hl; [reflexivity|].
  destruct x as [|b x]; [cbn in Hl; lia|].
  cbn [app startswith]. destruct (Ascii.eqb a b); [|reflexivity].
  apply IH. cbn in Hl. lia.
Qed.

(** The substitution leaves alone an import line that comes before every
    save call. *)
Lemma re_sub_save_keeps_import repl u rest :
  contains save_open (u ++ template_import) = false ->
  re_sub_save repl (u ++ template_import ++ rest)
  = u ++ template_import ++ re_sub_save repl rest.
Proof.
  induction u as [|c u IH]; intros H.
  - cbn [app]. unfold template_import.
    change (list_ascii_of_string "from ppt_templates import" ++ rest)
      with ("f"%char :: "r"%char :: "o"%char :: "m"%char :: " "%char :: "p"%char
            :: "p"%char :: "t"%char :: "_"%char :: "t"%char :: "e"%char
            :: "m"%char :: "p"%char :: "l"%char :: "a"%char :: "t"%char
            :: "e"%char :: "s"%char :: " "%char :: "i"%char :: "m"%char
            :: "p"%char :: "o"%char :: "r"%char :: "t"%char :: rest).
    do 25 (rewrite re_sub_save_skip
             by (apply match_save_startswith; reflexivity)).
    reflexivity.
  - change ((c :: u) ++ template_import) with (c :: (u ++ template_import)) in H.
    apply contains_false_cons in H. destruct H as [Hs Hu].
    change ((c :: u) ++ template_import ++ rest)
      with (c :: (u ++ template_import ++ rest)).
    rewrite re_sub_save_skip.
    + rewrite (IH Hu). reflexivity.
    + apply match_save_startswith.
      change (c :: u ++ template_import ++ rest)
        with ((c :: u) ++ template_import ++ rest).
      rewrite app_assoc, startswith_longer; [exact Hs|].
      cbn. rewrite length_app. cbn. lia.
Qed.

Lemma fix_save_path_keeps_import out u v :
  contains save_open (u ++ template_import) = false ->
  contains template_import
    (fix_save_path out (u ++ template_import ++ v)) = true.
Proof.
  intros H. unfold fix_save_path.
  destruct (contains ".save(" (u ++ template_import ++ v)).
  - rewrite (re_sub_save_keeps_import _ _ _ H). apply contains_intro.
  - rewrite <- !app_assoc. apply contains_intro.
Qed.

End Pipeline.

(** X5.  The report comes back without errors exactly when the text parses,
    holds the import line and a call of the factory, and shows no raw use
    of the presentation library; the warnings play no part in it. *)
Theorem validation_passes_iff ast_parse code w :
  exists r w',
    validate_ppt_code ast_parse code w = (Ok r, w')
    /\ (errors r = []
        <-> ast_parse code = None
            /\ contains "from ppt_templates import create_template" code = true
            /\ contains "create_template(" code = true
            /\ contains "Presentation()" code
               || contains "pptx.Presentation()" code
               || contains "from pptx import Presentation" code
               || contains "import pptx" code = false).
Proof.
  eexists _, _. split; [apply validate_ppt_code_run|].
  unfold report_of.
  destruct (ast_parse code) as [e|].
  - split.
    + destruct e; discriminate.
    + intros (H & _). discriminate.
  - rewrite check_requirements_errors.
    destruct (contains "from ppt_templates import create_template" code).
    2:{ split; [discriminate|]. intros (_ & H & _). discriminate. }
    destruct (contains "create_template(" code).
    2:{ split; [discriminate|]. intros (_ & _ & H & _). discriminate. }
    destruct (_ || _).
    + split; [discriminate|]. intros (_ & _ & _ & H). discriminate.
    + split; [|reflexivity]. intros _. repeat split; reflexivity.
Qed.

(** X6.  A source whose import of the factory comes before its first save
    call, as in every source that starts with the import line, is credited
    with the import by the validator and is never run by the executor:
    [execute_ppt_code] returns [error] for it in every workspace, whatever
    the child would do. *)
Theorem validated_source_never_runs child exe u v pf fn w :
  contains ".save(" (u ++ "from ppt_templates import") = false ->
  let code := u ++ "from ppt_templates import create_template" ++ v in
  imports_template (check_requirements code) = Some true
  /\ exists r w',
       execute_ppt_code child exe code pf fn w = (Ok r, w')
       /\ status r = "error"
       /\ forall child', execute_ppt_code child' exe code pf fn w = (Ok r, w').
Proof.
  intros Hsave code. split.
  - unfold check_requirements. rewrite code_text_eq. cbn [imports_template].
    subst code. rewrite contains_intro. reflexivity.
  - assert (Himp : contains template_import
                     (fix_save_path (output_path_str pf fn) code) = true).
    { subst code.
      change (list_ascii_of_string "from ppt_templates import create_template")
        with (template_import ++ " create_template").
      rewrite <- (app_assoc template_import).
      apply fix_save_path_keeps_import. exact Hsave. }
    destruct (execute_import_error child exe code pf fn w Himp)
      as (r & w' & E & Hs & _).
    exists r, w'. split; [exact E|]. split; [exact Hs|].
    intros child'. rewrite <- E. apply execute_import_any_child. exact Himp.
Qed.

Lemma validated_source_never_runs_witness :
  contains ".save(" ([] ++ "from ppt_templates import") = false
  /\ overall_pass (report_of sample_parser contract_source) = true
  /\ exists r w',
       execute_ppt_code (fun _ _ _ w => (Completed 0 [] [], w)) "python"
         contract_source "ws" "deck.pptx" workspace_with_templates = (Ok r, w')
       /\ status r = "error".
Proof.
  assert (H : contains ".save(" ([] ++ "from ppt_templates import") = false)
    by reflexivity.
  split; [exact H|]. split; [vm_compute; reflexivity|].
  destruct (validated_source_never_runs (fun _ _ _ w => (Completed 0 [] [], w))
              "python" []
              ([newline] ++ "ppt = create_template('business')" ++ [newline]
               ++ "ppt.create_title_slide('Solar Energy')" ++ [newline]
               ++ "ppt.save('deck.pptx')")
              "ws" "deck.pptx" workspace_with_templates H)
    as (_ & r & w' & E & Hs & _).
  exists r, w'. split; [exact E|exact Hs].
Defined.

(** ** The installer *)
Section InstallerFacts.
Variable run : list pystr -> nat -> World -> proc_outcome * World.
Variable exe : pystr.

(** The whole of [check_pptx_installation] as a case analysis on what the
    child runs do. *)
Lemma check_pptx_installation_eq w :
  check_pptx_installation run exe w
  = match run (exe :: import_check) 30 w with
    | (Expired, w1) =>
        (Ok {| install_status := "error"; version := None;
               install_message := "python-pptx installation/check timed out" |},
         logged ERROR "python-pptx installation/check timed out" w1)
    | (Completed rc out _, w1) =>
        if (rc =? 0)%Z then
          (Ok {| install_status := "already_installed";
                 version := Some (strip out);
                 install_message :=
                   "python-pptx version " ++ strip out ++ " is ready to use" |},
           logged INFO ("python-pptx is already installed, version: "
                        ++ strip out) w1)
        else
          match run (exe :: pip_install) 120
                    (logged INFO "Installing python-pptx..." w1) with
          | (Expired, w2) =>
              (Ok {| install_status := "error"; version := None;
                     install_message :=
                       "python-pptx installation/check timed out" |},
               logged ERROR "python-pptx installation/check timed out" w2)
          | (Completed rc2 _ err2, w2) =>
              if (rc2 =? 0)%Z then
                match run (exe :: import_check) 30 w2 with
                | (Expired, w3) =>
                    (Ok {| install_status := "error"; version := None;
                           install_message :=
                             "python-pptx installation/check timed out" |},
                     logged ERROR "python-pptx installation/check timed out" w3)
                | (Completed rc3 out3 _, w3) =>
                    if (rc3 =? 0)%Z then
                      (Ok {| install_status := "newly_installed";
                             version := Some (strip out3);
                             install_message :=
                               "python-pptx version " ++ strip out3
                               ++ " has been installed successfully" |},
                       logged INFO
                         ("python-pptx successfully installed, version: "
                          ++ strip out3) w3)
                    else
                      (Ok {| install_status := "error"; version := None;
                             install_message :=
                               "python-pptx installation verification failed" |},
                       logged ERROR
                         "python-pptx installation verification failed" w3)
                end
              else
                (Ok {| install_status := "error"; version := None;
                       install_message :=
                         "python-pptx installation failed: "
                         ++ or_else err2 "Unknown installation error" |},
                 logged ERROR
                   ("python-pptx installation failed: "
                    ++ or_else err2 "Unknown installation error") w2)
          end
    end.
Proof.
  unfold check_pptx_installation, try_except, run_python.
  unfold mbind, M_bind, mret, M_ret, logger, logged.
  destruct (run (exe :: import_check) 30 w) as [[rc out err|] w1];
    [|reflexivity].
  destruct (rc =? 0)%Z; [reflexivity|]. cbn [dirs files log].
  destruct (run (exe :: pip_install) 120 _) as [[rc2 out2 err2|] w2];
    [|reflexivity].
  destruct (rc2 =? 0)%Z; [|reflexivity].
  destruct (run (exe :: import_check) 30 w2) as [[rc3 out3 err3|] w3];
    [|reflexivity].
  destruct (rc3 =? 0)%Z; reflexivity.
Qed.

End InstallerFacts.

(** X7.  When the import check exits with code 0 the library is reported as
    already installed under the trimmed text the check printed, and no other
    child is started: two hosts that agree on that one run get the same
    result and the same world. *)
Theorem installer_skips_pip_when_present run run' exe w out err w1 :
  run (exe :: import_check) 30 w = (Completed 0 out err, w1) ->
  run' (exe :: import_check) 30 w = (Completed 0 out err, w1) ->
  check_pptx_installation run' exe w = check_pptx_installation run exe w
  /\ exists r,
       check_pptx_installation run exe w
       = (Ok r, logged INFO ("python-pptx is already installed, version: "
                             ++ strip out) w1)
       /\ install_status r = "already_installed"
       /\ version r = Some (strip out).
Proof.
  intros H H'. rewrite !check_pptx_installation_eq, H, H'. cbn [Z.eqb].
  split; [reflexivity|]. eexists. split; [reflexivity|]. split; reflexivity.
Qed.

Lemma installer_skips_pip_when_present_witness :
  let run : list pystr -> nat -> World -> proc_outcome * World :=
    fun argv _ w =>
      if bool_decide (argv = ("python" : pystr) :: import_check)
      then (Completed 0 (" 1.0.2" ++ [newline]) [], w)
      else (Completed 1 [] "pip: no network", w) in
  let run' : list pystr -> nat -> World -> proc_outcome * World :=
    fun _ _ w => (Completed 0 (" 1.0.2" ++ [newline]) [], w) in
  check_pptx_installation run' "python" workspace
  = check_pptx_installation run "python" workspace
  /\ exists r,
       (check_pptx_installation run "python" workspace).1 = Ok r
       /\ version r = Some ("1.0.2" : pystr).
Proof.
  intros run run'.
  destruct (installer_skips_pip_when_present run run' "python" workspace
              (" 1.0.2" ++ [newline]) [] workspace)
    as (Heq & r & E & _ & Hv); [reflexivity|reflexivity|].
  split; [exact Heq|]. exists r. rewrite E. split; [reflexivity|exact Hv].
Defined.

(** X8.  A result [newly_installed] is given only after three child runs:
    an import check that failed, [pip install python-pptx] that exited with
    code 0 in the world the check left, and a second import check that
    exited with code 0 in the world pip left; the version reported is what
    the second check printed, trimmed. *)
Theorem newly_installed_after_pip run exe w r :
  (check_pptx_installation run exe w).1 = Ok r ->
  install_status r = "newly_installed" ->
  exists rc out err w1 out2 err2 w2 out3 err3 w3,
    run (exe :: import_check) 30 w = (Completed rc out err, w1)
    /\ rc <> 0%Z
    /\ run (exe :: pip_install) 120 (logged INFO "Installing python-pptx..." w1)
       = (Completed 0 out2 err2, w2)
    /\ run (exe :: import_check) 30 w2 = (Completed 0 out3 err3, w3)
    /\ version r = Some (strip out3)
    /\ (check_pptx_installation run exe w).2
       = logged INFO ("python-pptx successfully installed, version: "
                      ++ strip out3) w3.
Proof.
  rewrite check_pptx_installation_eq.
  destruct (run (exe :: import_check) 30 w) as [[rc out err|] w1] eqn:E1;
    [|intros [= <-]; discriminate].
  destruct (Z.eqb_spec rc 0) as [->|Hrc]; [intros [= <-]; discriminate|].
  destruct (run (exe :: pip_install) 120 _) as [[rc2 out2 err2|] w2] eqn:E2;
    [|intros [= <-]; discriminate].
  destruct (Z.eqb_spec rc2 0) as [->|Hrc2]; [|intros [= <-]; discriminate].
  destruct (run (exe :: import_check) 30 w2) as [[rc3 out3 err3|] w3] eqn:E3;
    [|intros [= <-]; discriminate].
  destruct (Z.eqb_spec rc3 0) as [->|Hrc3]; [|intros [= <-]; discriminate].
  intros [= <-] _.
  exists rc, out, err, w1, out2, err2, w2, out3, err3, w3.
  repeat split; assumption || reflexivity.
Qed.

Lemma newly_installed_after_pip_witness :
  let site : pystr := "site-packages/pptx/__init__.py" in
  let run : list pystr -> nat -> World -> proc_outcome * World :=
    fun argv _ w =>
      if bool_decide (argv = ("python" : pystr) :: pip_install)
      then (Completed 0 "Successfully installed python-pptx-1.0.2" [],
            {| dirs := dirs w; files := <[site := []]> (files w);
               log := log w |})
      else if is_file site w
           then (Completed 0 ("1.0.2" ++ [newline]) [], w)
           else (Completed 1 []
                   "ModuleNotFoundError: No module named 'pptx'", w) in
  exists r w3,
    (check_pptx_installation run "python" workspace).1 = Ok r
    /\ version r = Some ("1.0.2" : pystr)
    /\ is_file site w3 = true
    /\ (check_pptx_installation run "python" workspace).2
       = logged INFO "python-pptx successfully installed, version: 1.0.2" w3.
Proof.
  intros site run.
  assert (E : (check_pptx_installation run "python" workspace).1
              = Ok {| install_status := "newly_installed";
                      version := Some ("1.0.2" : pystr);
                      install_message :=
                        "python-pptx version 1.0.2 has been installed successfully" |})
    by (vm_compute; reflexivity).
  destruct (newly_installed_after_pip run "python" workspace _ E eq_refl)
    as (rc & out & err & w1 & out2 & err2 & w2 & out3 & err3 & w3
        & E1 & Hrc & E2 & E3 & Hv & Hw).
  eexists _, w3. split; [exact E|]. split; [reflexivity|].
  split; [|rewrite Hw; f_equal].
  - subst run. cbv beta in E2, E3.
    rewrite bool_decide_eq_true_2 in E2 by reflexivity.
    injection E2 as _ _ <-.
    rewrite bool_decide_eq_false_2 in E3 by discriminate.
    destruct (is_file site _) eqn:Hf in E3.
    + injection E3 as _ _ <-. exact Hf.
    + discriminate.
  - cbn [version] in Hv. injection Hv as <-. reflexivity.
Defined.

(** X9.  The installer always returns a result, never an exception, with one
    of three statuses; a version is reported exactly when the status is not
    [error], and the last record it logs is at level [ERROR] exactly when
    the status is [error]. *)
Theorem installer_always_answers run exe w :
  exists r w',
    check_pptx_installation run exe w = (Ok r, w')
    /\ (install_status r = "already_installed"
        \/ install_status r = "newly_installed"
        \/ install_status r = "error")
    /\ (version r = None <-> install_status r = "error")
    /\ exists l msg,
         last (log w') = Some (l, msg)
         /\ (l = ERROR <-> install_status r = "error").
Proof.
  rewrite check_pptx_installation_eq.
  destruct (run (exe :: import_check) 30 w) as [[rc out err|] w1].
  2:{ eexists _, _. split; [reflexivity|]. cbn. split; [auto|].
      split; [tauto|]. eexists _, _. rewrite last_snoc. split; [reflexivity|].
      tauto. }
  destruct (rc =? 0)%Z.
  { eexists _, _. split; [reflexivity|]. cbn. split; [auto|].
    split; [split; discriminate|]. eexists _, _. rewrite last_snoc.
    split; [reflexivity|]. split; discriminate. }
  destruct (run (exe :: pip_install) 120 _) as [[rc2 out2 err2|] w2].
  2:{ eexists _, _. split; [reflexivity|]. cbn. split; [auto|].
      split; [tauto|]. eexists _, _. rewrite last_snoc. split; [reflexivity|].
      tauto. }
  destruct (rc2 =? 0)%Z.
  2:{ eexists _, _. split; [reflexivity|]. cbn. split; [auto|].
      split; [tauto|]. eexists _, _. rewrite last_snoc. split; [reflexivity|].
      tauto. }
  destruct (run (exe :: import_check) 30 w2) as [[rc3 out3 err3|] w3].
  2:{ eexists _, _. split; [reflexivity|]. cbn. split; [auto|].
      split; [tauto|]. eexists _, _. rewrite last_snoc. split; [reflexivity|].
      tauto. }
  destruct (rc3 =? 0)%Z.
  - eexists _, _. split; [reflexivity|]. cbn. split; [auto|].
    split; [split; discriminate|]. eexists _, _. rewrite last_snoc.
    split; [reflexivity|]. split; discriminate.
  - eexists _, _. split; [reflexivity|]. cbn. split; [auto|].
    split; [tauto|]. eexists _, _. rewrite last_snoc. split; [reflexivity|].
    tauto.
Qed.

(** ** Project folders of different requests *)
Section DistinctFolders.

Lemma split_app_last sep (a : pystr) :
  exists ps x,
    split sep a = ps ++ [x]
    /\ forall b, sep ∉ b -> split sep (a ++ b) = ps ++ [x ++ b].
Proof.
  induction a as [|c t (ps & x & E & IH)].
  - exists [], []. split; [reflexivity|]. intros b Hb.
    cbn [app]. apply split_no_sep. exact Hb.
  - cbn [split app]. destruct (Ascii.eqb c sep).
    + exists ([] :: ps), x. rewrite E. split; [reflexivity|].
      intros b Hb. rewrite (IH b Hb). reflexivity.
    + destruct ps as [|p ps].
      * exists [], (c :: x). rewrite E. split; [reflexivity|].
        intros b Hb. rewrite (IH b Hb). reflexivity.
      * exists ((c :: p) :: ps), x. rewrite E. split; [reflexivity|].
        intros b Hb. rewrite (IH b Hb). reflexivity.
Qed.

Lemma is_component_tagged (x uid : pystr) :
  is_component (x ++ "_" ++ uid) = true.
Proof.
  unfold is_component.
  destruct (decide (x ++ "_" ++ uid = [])) as [E|_].
  { destruct x; discriminate E. }
  destruct (decide (x ++ "_" ++ uid = ("." : pystr))) as [E|_]; [|reflexivity].
  destruct x as [|c [|d x]]; discriminate E.
Qed.

(** The components of a folder name: all but the last are fixed by the
    topic and the time stamp, and the last one ends with the id. *)
Lemma folder_name_parts topic ts :
  exists ps x, forall uid,
    slash ∉ uid ->
    Path (folder_name topic ts uid)
    = {| root := []; parts := ps ++ [x ++ "_" ++ uid] |}.
Proof.
  destruct (split_app_last slash ("ppt_presentation_" ++ topic ++ "_" ++ ts))
    as (ps & x & _ & H).
  exists (List.filter is_component ps), x. intros uid Hu.
  unfold Path. rewrite splitroot_relative by reflexivity.
  f_equal. unfold folder_name.
  replace ("ppt_presentation_" ++ topic ++ "_" ++ ts ++ "_" ++ uid)
    with (("ppt_presentation_" ++ topic ++ "_" ++ ts) ++ "_" ++ uid)
    by (rewrite <- !app_assoc; reflexivity).
  rewrite H.
  - rewrite List.filter_app. cbn [List.filter].
    rewrite is_component_tagged. reflexivity.
  - intros Hin. apply elem_of_cons in Hin. destruct Hin as [Hin|Hin].
    + discriminate Hin.
    + exact (Hu Hin).
Qed.

Lemma project_root_inj cwd topic ts uid1 uid2 :
  slash ∉ uid1 -> slash ∉ uid2 ->
  str (project_root cwd topic ts uid1) = str (project_root cwd topic ts uid2) ->
  uid1 = uid2.
Proof.
  intros H1 H2 E.
  apply str_inj in E; try apply project_root_normal.
  destruct (folder_name_parts topic ts) as (ps & x & Hp).
  unfold project_root, div in E. rewrite (Hp _ H1), (Hp _ H2) in E.
  cbn [root parts] in E. injection E as E.
  apply app_inv_head in E. apply app_inj_tail in E. destruct E as [_ E].
  apply app_inv_head in E. injection E as E. exact E.
Qed.

End DistinctFolders.

(** X10.  Two successful calls of [create_project_folder] for the same
    topic at the same second, from the same working directory, return the
    same folder only when they drew the same id: with ids that hold no
    slash, as the first eight characters of a UUID do, different ids give
    different folders. *)
Theorem project_folders_differ cwd topic_ ts u1 u2 w1 w2 r1 r2 w1' w2' :
  create_project_folder cwd u1 ts topic_ w1 = (Ok r1, w1') ->
  create_project_folder cwd u2 ts topic_ w2 = (Ok r2, w2') ->
  folder_status r1 = "success" ->
  folder_status r2 = "success" ->
  slash ∉ unique_id r1 ->
  slash ∉ unique_id r2 ->
  unique_id r1 <> unique_id r2 ->
  ToolsPPT.project_folder r1 <> ToolsPPT.project_folder r2.
Proof.
  intros E1 E2 S1 S2 H1 H2 Hne Heq. apply Hne.
  destruct (create_project_folder_success _ _ _ _ _ _ _ E1 S1)
    as (P1 & U1 & _).
  destruct (create_project_folder_success _ _ _ _ _ _ _ E2 S2)
    as (P2 & U2 & _).
  rewrite U1, U2 in *. rewrite P1, P2 in Heq.
  exact (project_root_inj _ _ _ _ _ H1 H2 Heq).
Qed.

Lemma project_folders_differ_witness :
  let other : pystr := "9c5b94b1-35ad-49bb-b118-8e8fc24abf80" in
  let run1 := create_project_folder "/srv" sample_uuid sample_time "Solar" host in
  let run2 := create_project_folder "/srv" other sample_time "Solar" host in
  match run1.1, run2.1 with
  | Ok r1, Ok r2 => ToolsPPT.project_folder r1 <> ToolsPPT.project_folder r2
  | _, _ => False
  end.
Proof.
  intros other run1 run2.
  pose (r1 := {| unique_id := "1b4e28ba";
                 ToolsPPT.project_folder :=
                   "/srv/generated_presentations/ppt_presentation_Solar_20250101_120000_1b4e28ba";
                 folder_status := "success";
                 folder_error := None |}).
  pose (r2 := {| unique_id := "9c5b94b1";
                 ToolsPPT.project_folder :=
                   "/srv/generated_presentations/ppt_presentation_Solar_20250101_120000_9c5b94b1";
                 folder_status := "success";
                 folder_error := None |}).
  assert (H1 : run1.1 = Ok r1) by (vm_compute; reflexivity).
  assert (H2 : run2.1 = Ok r2) by (vm_compute; reflexivity).
  rewrite H1, H2.
  apply (project_folders_differ "/srv" "Solar" sample_time sample_uuid other
           host host r1 r2 run1.2 run2.2).
  - rewrite <- H1. apply surjective_pairing.
  - rewrite <- H2. apply surjective_pairing.
  - reflexivity.
  - reflexivity.
  - intros H. cbn [unique_id r1] in H. skip_chars H. inversion H.
  - intros H. cbn [unique_id r2] in H. skip_chars H. inversion H.
  - discriminate.
Defined.

(** ** Themes in the validator *)
Section ThemeCheck.

Lemma contains_chars (p s : pystr) c :
  contains p s = true -> c ∈ p -> c ∈ s.
Proof.
  intros H Hc. apply contains_elim in H. destruct H as (u & v & ->).
  apply elem_of_app. right. apply elem_of_app. left. exact Hc.
Qed.

Lemma theme_call_quoted t : dquote ∈ theme_call t.
Proof.
  unfold theme_call. apply elem_of_app. right. apply elem_of_app. left.
  apply list_elem_of_singleton. reflexivity.
Qed.

Lemma no_theme_without_quotes code :
  dquote ∉ code ->
  existsb (fun t => contains (theme_call t) code) themes = false.
Proof.
  intros H. apply not_true_iff_false. intros E.
  apply existsb_exists in E. destruct E as (t & _ & E).
  apply H. exact (contains_chars _ _ _ E (theme_call_quoted t)).
Qed.

End ThemeCheck.

(** X11.  The theme check looks for the factory call with the theme between
    double quotes only.  A source that parses and holds no double quote,
    for instance one that passes the theme between single quotes as the
    validator's own error message writes it, is always told that the theme
    is not clearly specified. *)
Theorem single_quoted_theme_is_warned ast_parse code w :
  ast_parse code = None ->
  dquote ∉ code ->
  exists r w',
    validate_ppt_code ast_parse code w = (Ok r, w')
    /\ template_theme_selected r = Some false
    /\ theme_warning ∈ warnings r.
Proof.
  intros Hp Hq. eexists _, _. split; [apply validate_ppt_code_run|].
  unfold report_of. rewrite Hp. unfold check_requirements.
  rewrite code_text_eq. cbn [template_theme_selected warnings].
  rewrite (no_theme_without_quotes code Hq). split; [reflexivity|].
  apply elem_of_app. right. apply elem_of_app. left.
  apply list_elem_of_singleton. reflexivity.
Qed.

Lemma single_quoted_theme_is_warned_witness :
  contains "create_template('business')" contract_source = true
  /\ exists r w',
       validate_ppt_code sample_parser contract_source workspace = (Ok r, w')
       /\ errors r = []
       /\ theme_warning ∈ warnings r.
Proof.
  split; [vm_compute; reflexivity|].
  assert (Hq : dquote ∉ contract_source).
  { intros H. unfold contract_source in H.
    repeat (apply elem_of_app in H; destruct H as [H|H];
            [skip_chars H; inversion H|]).
    skip_chars H. inversion H. }
  destruct (single_quoted_theme_is_warned sample_parser contract_source
              workspace eq_refl Hq) as (r & w' & E & _ & Hw).
  exists r, w'. split; [exact E|]. split; [|exact Hw].
  rewrite validate_ppt_code_run in E. injection E as <- _.
  vm_compute. reflexivity.
Defined.

(** ** What a run keeps of the stream *)
Section LastWord.
Variable now : nat -> pystr.

(** What [generate_powerpoint_presentation] returns when the stream
    raises. *)
Lemma generate_failed sup uuid4 topic_ tid rcpt w e :
  failure (sup (request_text topic_ rcpt) (thread_of uuid4 tid)) = Some e ->
  exists w1,
    generate_powerpoint_presentation sup now uuid4 topic_ tid rcpt w
    = (Ok {| success := false; topic := topic_;
             thread_id := thread_of uuid4 tid;
             workflow_log :=
               (tracked now ([], ∅)
                  (events (sup (request_text topic_ rcpt)
                               (thread_of uuid4 tid)))).1;
             agent_outputs := None;
             Agent.ppt_path := None; Agent.project_folder := None;
             email_sent := None; email_recipient := None;
             Agent.error := Some (exn_str e) |},
       logged ERROR ("Error during presentation generation: " ++ exn_str e) w1).
Proof.
  intros Hf. unfold generate_powerpoint_presentation.
  erewrite bind_step by reflexivity.
  erewrite bind_step by reflexivity.
  match goal with
  | |- context [(record_events now ?s ?ev ≫= _) ?w0] =>
      destruct (record_events_run now ev s w0) as [w1 E]
  end.
  erewrite bind_step by exact E. rewrite Hf.
  exists w1. reflexivity.
Qed.

Lemma lower_char_star c : lower_char c = "*"%char -> c = "*"%char.
Proof.
  destruct c as [[] [] [] [] [] [] [] []]; vm_compute; congruence.
Qed.

Lemma lower_star (s : pystr) : "*"%char ∈ lower s -> "*"%char ∈ s.
Proof.
  unfold lower. intros H. apply list_elem_of_fmap in H.
  destruct H as (c & Hc & Hin). symmetry in Hc.
  apply lower_char_star in Hc. subst c. exact Hin.
Qed.

Lemma lower_app (a b : pystr) : lower (a ++ b) = lower a ++ lower b.
Proof. apply map_app. Qed.

End LastWord.

(** X12.  When the stream of the supervisor raises, the run is reported as
    failed with the text of the exception as its error, whatever the agents
    had said before, the executor's announcement of the artifact included.
    The log of the items read before the exception is returned; the
    outputs of the agents and the delivery flag are not; and the exception
    is logged at level ERROR. *)
Theorem failed_stream_reports_error sup now uuid4 topic_ tid rcpt w e :
  failure (sup (request_text topic_ rcpt) (thread_of uuid4 tid)) = Some e ->
  exists r w',
    generate_powerpoint_presentation sup now uuid4 topic_ tid rcpt w = (Ok r, w')
    /\ success r = false
    /\ Agent.error r = Some (exn_str e)
    /\ workflow_log r
       = (tracked now ([], ∅)
            (events (sup (request_text topic_ rcpt) (thread_of uuid4 tid)))).1
    /\ agent_outputs r = None
    /\ email_sent r = None
    /\ last (log w')
       = Some (ERROR, "Error during presentation generation: " ++ exn_str e).
Proof.
  intros Hf.
  destruct (generate_failed now sup uuid4 topic_ tid rcpt w e Hf) as [w1 E].
  eexists _, _. split; [exact E|]. cbn.
  repeat split. apply last_snoc.
Qed.

Lemma failed_stream_reports_error_witness :
  let run := generate_powerpoint_presentation (fun _ _ => interrupted) clock
               sample_uuid "Solar" None None host in
  is_successful "PowerPoint presentation generated successfully" = true
  /\ exists r w',
       run = (Ok r, w')
       /\ success r = false
       /\ Agent.error r = Some ("Recursion limit of 25 reached" : pystr)
       /\ length (workflow_log r) = 5.
Proof.
  intros run. split; [vm_compute; reflexivity|].
  destruct (failed_stream_reports_error (fun _ _ => interrupted) clock
              sample_uuid "Solar" None None host
              (OtherException "Recursion limit of 25 reached") eq_refl)
    as (r & w' & E & Hs & He & Hl & _).
  exists r, w'. split; [exact E|]. split; [exact Hs|]. split; [exact He|].
  rewrite Hl. vm_compute. reflexivity.
Defined.

(** X13.  In a run whose stream ends normally, success is decided by the
    last message of the last item the executor agent yielded, and by
    nothing the executor said earlier: the run succeeds exactly when that
    text holds a success indicator, and fails when the executor yielded no
    message. *)
Theorem last_executor_message_decides sup now uuid4 topic_ tid rcpt w :
  failure (sup (request_text topic_ rcpt) (thread_of uuid4 tid)) = None ->
  exists r w',
    generate_powerpoint_presentation sup now uuid4 topic_ tid rcpt w = (Ok r, w')
    /\ success r
       = match last_said "ppt_executor_agent"
                 (events (sup (request_text topic_ rcpt) (thread_of uuid4 tid)))
         with
         | Some text => is_successful text
         | None => false
         end.
Proof.
  intros Hf.
  destruct (generate_run now sup uuid4 topic_ tid rcpt w)
    as (r & w' & E & _ & Hs & _).
  exists r, w'. split; [exact E|]. rewrite Hs, Hf, outputs_last_said.
  destruct (last_said _ _); reflexivity.
Qed.

Lemma last_executor_message_decides_witness :
  let run := generate_powerpoint_presentation (fun _ _ => overturned) clock
               sample_uuid "Solar" None None host in
  yielded "ppt_executor_agent" (events overturned) = 2
  /\ exists r w', run = (Ok r, w') /\ success r = false.
Proof.
  intros run. split; [vm_compute; reflexivity|].
  destruct (last_executor_message_decides (fun _ _ => overturned) clock
              sample_uuid "Solar" None None host eq_refl)
    as (r & w' & E & Hs).
  exists r, w'. split; [exact E|]. rewrite Hs. vm_compute. reflexivity.
Defined.

(** X14.  Two of the four success indicators are written as patterns but
    are looked for as they stand.  On a text without an asterisk they never
    fire: such a text counts as a success exactly when, in lower case, it
    holds the success message of the executor or the word [ppt_path]. *)
Theorem success_indicators_literal (out : pystr) :
  "*"%char ∉ out ->
  is_successful out
  = contains "powerpoint presentation generated successfully" (lower out)
    || contains "ppt_path" (lower out).
Proof.
  intros Hstar. unfold is_successful, success_indicators. cbn [existsb].
  assert (Hno : forall p : pystr,
             "*"%char ∈ lower p -> contains (lower p) (lower out) = false).
  { intros p Hp. apply not_true_iff_false. intros E.
    apply Hstar, lower_star. exact (contains_chars _ _ _ E Hp). }
  rewrite (Hno "status.*success"), (Hno "presentation.*created").
  - rewrite !orb_false_r. reflexivity.
  - apply (bool_decide_unpack _). vm_compute. exact I.
  - apply (bool_decide_unpack _). vm_compute. exact I.
Qed.

Lemma success_indicators_literal_witness :
  is_successful "{'status': 'success', 'slides': 6}" = false
  /\ is_successful "{'status': 'error', 'ppt_path': ''}" = true.
Proof.
  split.
  - rewrite success_indicators_literal; [vm_compute; reflexivity|].
    intros H. skip_chars H. inversion H.
  - rewrite success_indicators_literal; [vm_compute; reflexivity|].
    intros H. skip_chars H. inversion H.
Defined.

(** X15.  The message [execute_ppt_code] gives with a result [success] is
    one the run analysis recognises: handed on as it is, it counts as a
    success. *)
Theorem executor_success_is_recognised child exe code pf fn w :
  exists r w',
    execute_ppt_code child exe code pf fn w = (Ok r, w')
    /\ (status r = "success" -> is_successful (ToolsPPT.message r) = true).
Proof.
  destruct (execute_outcome child exe code pf fn w) as (r & w' & E & H).
  exists r, w'. split; [exact E|]. intros Hs.
  destruct (H Hs) as (_ & _ & _ & ->). vm_compute. reflexivity.
Qed.

Lemma executor_success_is_recognised_witness :
  let child : list pystr -> pystr -> nat -> World -> proc_outcome * World :=
    fun _ _ _ w =>
      (Completed 0 "saved" [],
       {| dirs := dirs w;
          files := <[("ws/presentations/talk.pptx" : pystr) := ("PK" : pystr)]> (files w);
          log := log w |}) in
  exists r w',
    execute_ppt_code child "python" "print(2)" "ws" "talk" workspace = (Ok r, w')
    /\ status r = "success"
    /\ is_successful (ToolsPPT.message r) = true.
Proof.
  intros child.
  destruct (executor_success_is_recognised child "python" "print(2)" "ws" "talk"
              workspace) as (r & w' & E & H).
  assert (Hs : status r = "success").
  { assert (Hc : (execute_ppt_code child "python" "print(2)" "ws" "talk"
                    workspace).1
                 = Ok {| status := "success";
                         ToolsPPT.ppt_path := "ws/presentations/talk.pptx";
                         output := Some ("saved" : pystr);
                         ToolsPPT.error := None;
                         ToolsPPT.message :=
                           "PowerPoint presentation generated successfully" |})
      by (vm_compute; reflexivity).
    rewrite E in Hc. cbn [fst] in Hc. injection Hc as ->. reflexivity. }
  exists r, w'. split; [exact E|]. split; [exact Hs|exact (H Hs)].
Defined.

(** ** Mail *)
Section MailFacts.
Variable getenv : pystr -> option pystr.
Variable guess_type : pystr -> option pystr * option pystr.
Variable smtp_session :
  pystr -> pystr -> list pystr -> Email.mime_message -> M unit.

(** Preparing the attachment reads the file system and changes nothing. *)
Lemma attach_world ap w : (Email.attach guess_type ap w).2 = w.
Proof.
  unfold Email.attach. destruct ap as [[|c p]|]; try reflexivity.
  unfold mbind, M_bind, os_path_exists.
  destruct (path_exists _ w); [|reflexivity].
  destruct (Email.split_once _) as [[a b]|]; [|reflexivity].
  unfold Email.read_bytes. destruct (files w !! _); [reflexivity|].
  destruct (is_dir _ w); reflexivity.
Qed.

Lemma attach_missing p w :
  path_exists (str (Path p)) w = false ->
  Email.attach guess_type (Some p) w = (Ok (None, []), w).
Proof.
  intros H. unfold Email.attach. destruct p as [|c p]; [reflexivity|].
  unfold mbind, M_bind, os_path_exists. rewrite H. reflexivity.
Qed.

Lemma send_gmail_eq to_ subj body ap se sp cc bcc sender pw w :
  Email.or_getenv getenv se "GMAIL_EMAIL" = Some sender -> sender <> [] ->
  Email.or_getenv getenv sp "GMAIL_APP_PASSWORD" = Some pw -> pw <> [] ->
  Email.send_gmail_with_attachment getenv guess_type smtp_session
    to_ subj body ap se sp cc bcc w
  = match Email.attach guess_type ap w with
    | (Ok (an, ps), w0) =>
        match smtp_session sender pw
                (to_ :: Email.given cc ++ Email.given bcc)
                (outgoing sender to_ subj body (Email.given cc)
                          (Email.given bcc) ps) w0 with
        | (Ok _, w1) =>
            (Ok {| Email.success := true;
                   Email.message := Some ("Email sent successfully to " ++ to_);
                   Email.attachment :=
                     match an with
                     | Some (a :: n) => Some (a :: n)
                     | _ => None
                     end;
                   Email.recipients :=
                     Some (length (to_ :: Email.given cc ++ Email.given bcc));
                   Email.error := None |},
             logged INFO ("Email sent successfully to " ++ to_) w1)
        | (Raise e, w1) =>
            (Ok (send_failed e),
             logged ERROR ("Failed to send email: " ++ exn_str e) w1)
        end
    | (Raise e, w0) =>
        (Ok (send_failed e),
         logged ERROR ("Failed to send email: " ++ exn_str e) w0)
    end.
Proof.
  intros Hs Hsn Hp Hpn. unfold Email.send_gmail_with_attachment.
  rewrite Hs, Hp. destruct sender as [|c s]; [congruence|].
  destruct pw as [|d p]; [congruence|].
  unfold try_except, mbind, M_bind, mret, M_ret, logger, logged, send_failed.
  destruct (Email.attach guess_type ap w) as [[[an ps]|e] w0]; [|reflexivity].
  unfold outgoing.
  destruct (Email.given cc) as [|c1 cc'], (Email.given bcc) as [|b1 bcc'];
    cbn [app];
    match goal with
    | |- context [smtp_session ?a ?b ?c ?m w0] =>
        destruct (smtp_session a b c m w0) as [[[]|e] w1]; reflexivity
    end.
Qed.

End MailFacts.

Section ToolMail.
Variable getenv : pystr -> option pystr.
Variable guess_type : pystr -> option pystr * option pystr.
Variable smtp_session :
  pystr -> pystr -> list pystr -> Email.mime_message -> M unit.

Lemma contains_app_l (p a b : pystr) :
  contains p a = true -> contains p (a ++ b) = true.
Proof.
  intros H. apply contains_elim in H. destruct H as (u & v & ->).
  rewrite <- !app_assoc. apply contains_intro.
Qed.

(** The whole of [send_presentation_email] on a host that holds the
    credentials. *)
Lemma send_presentation_email_eq to_ subj ppt topic_ custom sender pw w :
  has_credentials getenv sender pw ->
  Email.send_presentation_email getenv guess_type smtp_session
    to_ subj ppt topic_ custom w
  = match Email.attach guess_type (Some ppt) w with
    | (Ok (an, ps), w0) =>
        match smtp_session sender pw [to_]
                (outgoing sender to_ subj (tool_body topic_ ppt custom)
                          [] [] ps) w0 with
        | (Ok _, w1) =>
            (Ok (Email.white_check_mark ++ " Email sent successfully to "
                 ++ to_ ++ ". Attachment: "
                 ++ match an with
                    | Some (a :: n) => a :: n
                    | _ => "None"
                    end),
             logged INFO ("Email sent successfully to " ++ to_) w1)
        | (Raise e, w1) =>
            (Ok (Email.cross_mark ++ " Failed to send email: "
                 ++ "Failed to send email: " ++ exn_str e),
             logged ERROR ("Failed to send email: " ++ exn_str e) w1)
        end
    | (Raise e, w0) =>
        (Ok (Email.cross_mark ++ " Failed to send email: "
             ++ "Failed to send email: " ++ exn_str e),
         logged ERROR ("Failed to send email: " ++ exn_str e) w0)
    end.
Proof.
  intros (Hs & Hsn & Hp & Hpn).
  unfold Email.send_presentation_email, Email.send_ppt_email_tool.
  change (match custom with
          | Some (c :: m) =>
              "<p>" ++ (c :: m) ++ "</p><br>"
              ++ Email.create_ppt_email_body topic_ ppt
                   (default Email.no_details None)
          | _ => Email.create_ppt_email_body topic_ ppt
                   (default Email.no_details None)
          end) with (tool_body topic_ ppt custom).
  unfold try_except. unfold mbind at 1. unfold M_bind at 1.
  rewrite (send_gmail_eq getenv guess_type smtp_session to_ subj
             (tool_body topic_ ppt custom) (Some ppt) None None None None
             sender pw w Hs Hsn Hp Hpn).
  change (Email.given None) with (@nil pystr). cbn [app].
  destruct (Email.attach guess_type (Some ppt) w) as [[[an ps]|e] w0];
    [|reflexivity].
  destruct (smtp_session _ _ _ _ w0) as [[[]|e] w1]; [|reflexivity].
  cbn [Email.success Email.attachment]. unfold mret, M_ret.
  destruct an as [[|a n]|]; reflexivity.
Qed.

(** The body always holds markup, the status line for a run without
    details, and the sentence about the attached presentation. *)
Lemma tool_body_facts topic_ ppt custom :
  contains "<" (tool_body topic_ ppt custom) = true
  /\ contains (Email.cross_mark ++ " Generation had issues")
       (tool_body topic_ ppt custom) = true
  /\ contains "Please find the PowerPoint presentation attached to this email."
       (tool_body topic_ ppt custom) = true.
Proof.
  assert (H : forall p : pystr,
             (p = ("<" : pystr)
              \/ p = Email.cross_mark ++ " Generation had issues"
              \/ p = ("Please find the PowerPoint presentation attached to this email." : pystr)) ->
             contains p (Email.create_ppt_email_body topic_ ppt Email.no_details)
             = true).
  { intros p Hp. unfold Email.create_ppt_email_body.
    cbn [Email.succeeded Email.timestamp Email.no_details default].
    destruct Hp as [-> | [-> | ->]];
      repeat first [ apply contains_app_l; vm_compute; reflexivity
                   | apply contains_app_r ]. }
  unfold tool_body. destruct custom as [[|c m]|];
    repeat split;
    first [ apply H; auto | do 3 apply contains_app_r; apply H; auto ].
Qed.

End ToolMail.

(** X16.  Without a sender address or without a password, given or in the
    environment, [send_gmail_with_attachment] returns the credentials error
    at once: no SMTP session is opened, no file is read, nothing is logged
    and the world is as it was. *)
Theorem missing_credentials_no_session
    getenv guess_type smtp_session to_ subj body ap se sp cc bcc w :
  default [] (Email.or_getenv getenv se "GMAIL_EMAIL") = []
  \/ default [] (Email.or_getenv getenv sp "GMAIL_APP_PASSWORD") = [] ->
  Email.send_gmail_with_attachment getenv guess_type smtp_session
    to_ subj body ap se sp cc bcc w
  = (Ok {| Email.success := false; Email.message := None;
           Email.attachment := None; Email.recipients := None;
           Email.error := Some Email.credentials_error |}, w).
Proof.
  intros H. unfold Email.send_gmail_with_attachment, try_except.
  destruct (Email.or_getenv getenv se "GMAIL_EMAIL") as [[|c s]|];
    try reflexivity.
  destruct (Email.or_getenv getenv sp "GMAIL_APP_PASSWORD") as [[|d p]|];
    try reflexivity.
  destruct H as [H|H]; discriminate H.
Qed.

Lemma missing_credentials_no_session_witness :
  let getenv : pystr -> option pystr :=
    fun k => if bool_decide (k = ("GMAIL_EMAIL" : pystr))
             then Some ("bot@example.org" : pystr) else None in
  let smtp_session : pystr -> pystr -> list pystr -> Email.mime_message -> M unit :=
    fun _ _ _ _ w => (Ok (), w) in
  Email.send_gmail_with_attachment getenv (fun _ => (None, None)) smtp_session
    "ann@example.org" "Slides" "Hello" None None (Some []) None None host
  = (Ok {| Email.success := false; Email.message := None;
           Email.attachment := None; Email.recipients := None;
           Email.error := Some Email.credentials_error |}, host).
Proof.
  intros getenv smtp_session.
  apply missing_credentials_no_session. right. reflexivity.
Defined.

(** X17.  A result with [success] true means that the SMTP session ran to
    its end for the sender of the credentials, with the recipient, every
    CC and every BCC address as envelope recipients, in this order; the
    count returned is their number.  The message of that session names the
    BCC addresses in a [Bcc] header of its own. *)
Theorem sent_means_session_completed
    getenv guess_type smtp_session to_ subj body ap se sp cc bcc sender pw
    w r w' :
  Email.or_getenv getenv se "GMAIL_EMAIL" = Some sender -> sender <> [] ->
  Email.or_getenv getenv sp "GMAIL_APP_PASSWORD" = Some pw -> pw <> [] ->
  Email.send_gmail_with_attachment getenv guess_type smtp_session
    to_ subj body ap se sp cc bcc w = (Ok r, w') ->
  Email.success r = true ->
  exists an ps w1,
    Email.attach guess_type ap w = (Ok (an, ps), w)
    /\ let msg := outgoing sender to_ subj body (Email.given cc)
                           (Email.given bcc) ps in
       smtp_session sender pw (to_ :: Email.given cc ++ Email.given bcc) msg w
       = (Ok (), w1)
       /\ Email.recipients r
          = Some (1 + length (Email.given cc) + length (Email.given bcc))
       /\ w' = logged INFO ("Email sent successfully to " ++ to_) w1
       /\ (Email.given bcc <> [] ->
           ("Bcc" : pystr, join ", " (Email.given bcc)) ∈ Email.headers msg).
Proof.
  intros Hs Hsn Hp Hpn E Hok.
  rewrite (send_gmail_eq getenv guess_type smtp_session _ _ _ _ _ _ _ _
             sender pw w Hs Hsn Hp Hpn) in E.
  pose proof (attach_world guess_type ap w) as Hw.
  destruct (Email.attach guess_type ap w) as [[[an ps]|e] w0];
    cbn [snd] in Hw; subst w0.
  2:{ injection E as <- _. discriminate Hok. }
  destruct (smtp_session _ _ _ _ w) as [[[]|e] w1] eqn:Es.
  2:{ injection E as <- _. discriminate Hok. }
  injection E as <- <-.
  exists an, ps, w1. split; [reflexivity|]. cbv zeta.
  split; [exact Es|]. split.
  { cbn [Email.recipients length]. rewrite length_app. f_equal. }
  split; [reflexivity|].
  intros Hb. unfold outgoing. cbn [Email.headers].
  apply elem_of_app. right. apply elem_of_app. right.
  destruct (Email.given bcc) as [|b l]; [congruence|].
  apply list_elem_of_singleton. reflexivity.
Qed.

Lemma sent_means_session_completed_witness :
  let getenv : pystr -> option pystr :=
    fun k => if bool_decide (k = ("GMAIL_EMAIL" : pystr))
             then Some ("bot@example.org" : pystr)
             else Some ("app-password" : pystr) in
  let smtp_session : pystr -> pystr -> list pystr -> Email.mime_message -> M unit :=
    fun _ _ _ _ w => (Ok (), w) in
  let run :=
    Email.send_gmail_with_attachment getenv (fun _ => (None, None)) smtp_session
      "ann@example.org" "Slides" "Hello" None None None
      (Some ["bob@example.org" : pystr])
      (Some ["eve@example.org" : pystr; "dan@example.org" : pystr]) host in
  exists r,
    run.1 = Ok r
    /\ Email.recipients r = Some 4
    /\ ("Bcc" : pystr, "eve@example.org, dan@example.org" : pystr)
       ∈ Email.headers
           (outgoing "bot@example.org" "ann@example.org" "Slides" "Hello"
              ["bob@example.org" : pystr]
              ["eve@example.org" : pystr; "dan@example.org" : pystr] []).
Proof.
  intros getenv smtp_session run.
  pose (r := {| Email.success := true;
                Email.message :=
                  Some ("Email sent successfully to ann@example.org" : pystr);
                Email.attachment := None;
                Email.recipients := Some 4;
                Email.error := None |}).
  assert (Hfst : run.1 = Ok r) by (vm_compute; reflexivity).
  assert (Hrun : run = (Ok r, run.2))
    by (rewrite <- Hfst; apply surjective_pairing).
  destruct (sent_means_session_completed getenv (fun _ => (None, None))
              smtp_session "ann@example.org" "Slides" "Hello" None None None
              (Some ["bob@example.org" : pystr])
              (Some ["eve@example.org" : pystr; "dan@example.org" : pystr])
              "bot@example.org" "app-password" host r run.2
              eq_refl ltac:(discriminate) eq_refl ltac:(discriminate)
              Hrun eq_refl)
    as (an & ps & w1 & Ha & Hm).
  cbv zeta in Hm. destruct Hm as (_ & Hn & _ & Hb).
  exists r. split; [exact Hfst|]. split; [exact Hn|].
  injection Ha as _ <-. apply Hb. discriminate.
Defined.

(** X18.  When the presentation file does not exist, the tool of the
    delivery agent still sends the mail, without any attachment, and
    reports it as sent with [Attachment: None]; the body of that mail tells
    the reader that the presentation is attached, and the run analysis
    counts the report as a delivery. *)
Theorem missing_attachment_still_sent
    getenv guess_type smtp_session to_ subj ppt topic_ custom sender pw w w1 :
  has_credentials getenv sender pw ->
  path_exists (str (Path ppt)) w = false ->
  smtp_session sender pw [to_]
    (outgoing sender to_ subj (tool_body topic_ ppt custom) [] [] []) w
  = (Ok (), w1) ->
  let report := Email.white_check_mark ++ " Email sent successfully to "
                ++ to_ ++ ". Attachment: None" in
  Email.send_presentation_email getenv guess_type smtp_session
    to_ subj ppt topic_ custom w
  = (Ok report, logged INFO ("Email sent successfully to " ++ to_) w1)
  /\ contains "Please find the PowerPoint presentation attached to this email."
       (tool_body topic_ ppt custom) = true
  /\ Agent.email_delivered report = true.
Proof.
  intros Hc Hmiss Hs report. split; [|split].
  - rewrite (send_presentation_email_eq getenv guess_type smtp_session
               _ _ _ _ _ sender pw w Hc).
    rewrite (attach_missing guess_type ppt w Hmiss), Hs. reflexivity.
  - apply tool_body_facts.
  - unfold Agent.email_delivered, report. apply andb_true_intro. split.
    + reflexivity.
    + apply orb_true_intro. right.
      apply contains_here, startswith_app.
Qed.

Lemma missing_attachment_still_sent_witness :
  let getenv : pystr -> option pystr :=
    fun k => if bool_decide (k = ("GMAIL_EMAIL" : pystr))
             then Some ("bot@example.org" : pystr)
             else Some ("app-password" : pystr) in
  let smtp_session : pystr -> pystr -> list pystr -> Email.mime_message -> M unit :=
    fun _ _ _ _ w => (Ok (), w) in
  (Email.send_presentation_email getenv (fun _ => (None, None)) smtp_session
     "ann@example.org" "Slides" "ws/presentations/deck.pptx" "Solar" None
     workspace).1
  = Ok (Email.white_check_mark
        ++ " Email sent successfully to ann@example.org. Attachment: None").
Proof.
  intros getenv smtp_session.
  destruct (missing_attachment_still_sent getenv (fun _ => (None, None))
              smtp_session "ann@example.org" "Slides"
              "ws/presentations/deck.pptx" "Solar" None
              "bot@example.org" "app-password" workspace workspace)
    as (E & _).
  - repeat split; discriminate.
  - vm_compute. reflexivity.
  - reflexivity.
  - rewrite E. reflexivity.
Defined.

(** X19.  When the SMTP session raises, the tool returns a text instead of
    raising; the text carries the failure prefix twice, once from
    [send_gmail_with_attachment] and once from the tool, and the failure
    is logged at level ERROR. *)
Theorem session_failure_is_reported
    getenv guess_type smtp_session to_ subj ppt topic_ custom sender pw
    w an ps e w1 :
  has_credentials getenv sender pw ->
  Email.attach guess_type (Some ppt) w = (Ok (an, ps), w) ->
  smtp_session sender pw [to_]
    (outgoing sender to_ subj (tool_body topic_ ppt custom) [] [] ps) w
  = (Raise e, w1) ->
  Email.send_presentation_email getenv guess_type smtp_session
    to_ subj ppt topic_ custom w
  = (Ok (Email.cross_mark
         ++ " Failed to send email: Failed to send email: " ++ exn_str e),
     logged ERROR ("Failed to send email: " ++ exn_str e) w1).
Proof.
  intros Hc Ha Hs.
  rewrite (send_presentation_email_eq getenv guess_type smtp_session
             _ _ _ _ _ sender pw w Hc).
  rewrite Ha, Hs. reflexivity.
Qed.

Lemma session_failure_is_reported_witness :
  let getenv : pystr -> option pystr :=
    fun k => if bool_decide (k = ("GMAIL_EMAIL" : pystr))
             then Some ("bot@example.org" : pystr)
             else Some ("app-password" : pystr) in
  let smtp_session : pystr -> pystr -> list pystr -> Email.mime_message -> M unit :=
    fun _ _ _ _ w =>
      (Raise (OtherException "(535, b'5.7.8 Username and Password not accepted')"),
       w) in
  (Email.send_presentation_email getenv (fun _ => (None, None)) smtp_session
     "ann@example.org" "Slides" "ws/presentations/deck.pptx" "Solar" None
     workspace).1
  = Ok (Email.cross_mark
        ++ " Failed to send email: Failed to send email: "
        ++ "(535, b'5.7.8 Username and Password not accepted')").
Proof.
  intros getenv smtp_session.
  rewrite (session_failure_is_reported getenv (fun _ => (None, None))
             smtp_session "ann@example.org" "Slides"
             "ws/presentations/deck.pptx" "Solar" None
             "bot@example.org" "app-password" workspace None []
             (OtherException "(535, b'5.7.8 Username and Password not accepted')")
             workspace).
  - reflexivity.
  - repeat split; discriminate.
  - vm_compute. reflexivity.
  - reflexivity.
Defined.

(** X20.  The tool of the delivery agent opens an SMTP session only for a
    message to the one recipient whose text part is HTML and whose status
    line reads that the generation had issues, since the tool passes no
    generation details: two hosts whose sessions agree on such messages
    give the same result. *)
Theorem tool_mail_is_html_with_issues
    getenv guess_type smtp1 smtp2 to_ subj ppt topic_ custom sender pw w :
  has_credentials getenv sender pw ->
  (forall ps w0,
     let msg := outgoing sender to_ subj (tool_body topic_ ppt custom)
                         [] [] ps in
     Email.text_subtype msg = "html" ->
     contains (Email.cross_mark ++ " Generation had issues")
              (Email.text_body msg) = true ->
     smtp1 sender pw [to_] msg w0 = smtp2 sender pw [to_] msg w0) ->
  Email.send_presentation_email getenv guess_type smtp1
    to_ subj ppt topic_ custom w
  = Email.send_presentation_email getenv guess_type smtp2
      to_ subj ppt topic_ custom w.
Proof.
  intros Hc Hagree.
  rewrite !(send_presentation_email_eq getenv guess_type _
              _ _ _ _ _ sender pw w Hc).
  destruct (Email.attach guess_type (Some ppt) w) as [[[an ps]|e] w0];
    [|reflexivity].
  rewrite (Hagree ps w0); [reflexivity| |].
  - unfold outgoing. cbn [Email.text_subtype].
    destruct (tool_body_facts topic_ ppt custom) as (-> & _). reflexivity.
  - unfold outgoing. cbn [Email.text_body]. apply tool_body_facts.
Qed.

Lemma tool_mail_is_html_with_issues_witness :
  let getenv : pystr -> option pystr :=
    fun k => if bool_decide (k = ("GMAIL_EMAIL" : pystr))
             then Some ("bot@example.org" : pystr)
             else Some ("app-password" : pystr) in
  let smtp1 : pystr -> pystr -> list pystr -> Email.mime_message -> M unit :=
    fun _ _ _ msg w =>
      if bool_decide (Email.text_subtype msg = ("html" : pystr))
      then (Ok (), w) else (Raise (OSError "plain text refused"), w) in
  let smtp2 : pystr -> pystr -> list pystr -> Email.mime_message -> M unit :=
    fun _ _ _ _ w => (Ok (), w) in
  Email.send_presentation_email getenv (fun _ => (None, None)) smtp1
    "ann@example.org" "Slides" "ws/presentations/deck.pptx" "Solar" None
    workspace
  = Email.send_presentation_email getenv (fun _ => (None, None)) smtp2
      "ann@example.org" "Slides" "ws/presentations/deck.pptx" "Solar" None
      workspace.
Proof.
  intros getenv smtp1 smtp2.
  apply (tool_mail_is_html_with_issues getenv (fun _ => (None, None))
           smtp1 smtp2 "ann@example.org" "Slides"
           "ws/presentations/deck.pptx" "Solar" None
           "bot@example.org" "app-password" workspace).
  - repeat split; discriminate.
  - intros ps w0 msg Hh _. subst smtp1 smtp2. cbv beta.
    rewrite bool_decide_eq_true_2 by exact Hh. reflexivity.
Defined.

(** ** Images *)
Section ImageFacts.
Variable getenv : pystr -> option pystr.
Variable fetch : pystr -> pystr -> nat -> World -> list Images.dict * World.
Variable download_image : Images.pyval -> pystr -> World -> bool * World.
Variable render : pystr -> pystr -> M unit.
Variables uuid4 uuid4_hex : pystr.
Variable title : pystr -> pystr.

Lemma create_image_manager_run w :
  exists w1,
    Images.create_image_manager getenv w
    = (Ok {| Images.access_key := getenv "UNSPLASH_ACCESS_KEY" |}, w1).
Proof.
  unfold Images.create_image_manager, Images.UnsplashImageManager.
  destruct (getenv "UNSPLASH_ACCESS_KEY") as [[|c k]|]; eexists; reflexivity.
Qed.

Lemma get_best_image_for_topic_run self topic_ pf w :
  exists r w',
    Images.get_best_image_for_topic fetch download_image uuid4 self topic_ pf w
    = (Ok r, w').
Proof.
  unfold Images.get_best_image_for_topic, Images.search_images, try_except.
  unfold mbind, M_bind, mret, M_ret, logger.
  destruct (Images.access_key self) as [[|c k]|];
    try (eexists _, _; reflexivity).
  destruct (fetch (c :: k) topic_ (Nat.min 5 30) w) as [[|best rest] w1];
    [eexists _, _; reflexivity|].
  destruct (Images.py_truthy _).
  - destruct (download_image _ _ w1) as [[] w2]; eexists _, _; reflexivity.
  - eexists _, _; reflexivity.
Qed.

Lemma create_placeholder_image_run text_ path w :
  path <> [] ->
  exists w',
    Images.create_placeholder_image render uuid4_hex text_ (Some path) w
    = (Ok (match render text_ path w with
           | (Ok _, _) => path
           | (Raise _, _) => []
           end), w').
Proof.
  intros Hp. destruct path as [|c p]; [congruence|].
  unfold Images.create_placeholder_image, try_except.
  unfold mbind, M_bind, mret, M_ret, logger.
  destruct (render text_ (c :: p) w) as [[[]|e] w1]; eexists; reflexivity.
Qed.

Lemma str_nonempty p : normal p -> str p <> [].
Proof.
  intros [_ Hp]. unfold str.
  destruct (root p) as [|c r]; destruct (parts p) as [|x l];
    try discriminate.
  apply Forall_cons in Hp. destruct Hp as [[Hx _] _].
  destruct x as [|a x]; [discriminate Hx|].
  cbn [app]. destruct l; discriminate.
Qed.

End ImageFacts.

Section ImageSearch.
Variable getenv : pystr -> option pystr.
Variable fetch : pystr -> pystr -> nat -> World -> list Images.dict * World.
Variable download_image : Images.pyval -> pystr -> World -> bool * World.
Variable render : pystr -> pystr -> M unit.
Variables uuid4 uuid4_hex : pystr.
Variable title : pystr -> pystr.

(** A dict that gives a place for the image. *)
Lemma get_best_image_for_topic_path self topic_ pf w :
  exists r w',
    Images.get_best_image_for_topic fetch download_image uuid4 self topic_ pf w
    = (Ok r, w')
    /\ forall d, r = Some d ->
         exists p, d !! ("local_path" : pystr) = Some (Images.PyStr p) /\ p <> [].
Proof.
  unfold Images.get_best_image_for_topic, Images.search_images, try_except.
  unfold mbind, M_bind, mret, M_ret, logger.
  destruct (Images.access_key self) as [[|c k]|];
    try (eexists _, _; split; [reflexivity|]; intros d; discriminate).
  destruct (fetch (c :: k) topic_ (Nat.min 5 30) w) as [[|best rest] w1];
    [eexists _, _; split; [reflexivity|]; intros d; discriminate|].
  destruct (Images.py_truthy _).
  2:{ eexists _, _; split; [reflexivity|]; intros d; discriminate. }
  destruct (download_image _ _ w1) as [[] w2].
  2:{ eexists _, _; split; [reflexivity|]; intros d; discriminate. }
  eexists _, _; split; [reflexivity|]. intros d [= <-].
  eexists. split.
  - rewrite lookup_insert_ne by discriminate. apply lookup_insert_eq.
  - apply str_nonempty. auto using div_normal, Path_normal.
Qed.

Lemma search_and_download_image_path topic_ pf w :
  exists r w',
    Images.search_and_download_image getenv fetch download_image render
      uuid4 uuid4_hex title topic_ pf true w = (Ok r, w')
    /\ forall d, r = Some d ->
         d <> ∅
         /\ exists p, d !! ("local_path" : pystr) = Some (Images.PyStr p)
                      /\ p <> [].
Proof.
  unfold Images.search_and_download_image.
  destruct (create_image_manager_run getenv w) as [w1 E1].
  erewrite bind_step by exact E1.
  destruct (get_best_image_for_topic_path
              {| Images.access_key := getenv "UNSPLASH_ACCESS_KEY" |}
              topic_ pf w1) as (r & w2 & E2 & Hr).
  erewrite bind_step by exact E2.
  assert (Hne : forall d, (exists p, d !! ("local_path" : pystr)
                                     = Some (Images.PyStr p) /\ p <> []) ->
                          d <> (∅ : Images.dict)).
  { intros d (p & Hp & _) ->. rewrite lookup_empty in Hp. discriminate. }
  destruct r as [d|].
  - assert (Ht : Images.dict_truthy (Some d) = true).
    { unfold Images.dict_truthy. rewrite bool_decide_eq_false_2; [reflexivity|].
      apply Hne, Hr. reflexivity. }
    rewrite Ht. cbn [negb andb]. eexists _, _. split; [reflexivity|].
    intros d' [= <-]. split; [apply Hne|]; apply Hr; reflexivity.
  - cbn [Images.dict_truthy negb andb].
    set (path := str (div (div (Path pf) "assets")
                          ("placeholder_" ++ take 8 uuid4_hex ++ ".jpg"))).
    assert (Hp : path <> [])
      by (apply str_nonempty; auto using div_normal, Path_normal).
    destruct (create_placeholder_image_run render uuid4_hex (title topic_)
                path w2 Hp) as [w3 E3].
    erewrite bind_step by exact E3.
    destruct (render (title topic_) path w2) as [[[]|e] w4].
    + destruct path as [|c p] eqn:Epath; [congruence|]. cbn [truthy].
      eexists _, _. split; [reflexivity|]. intros d [= <-].
      assert (Hl : Images.placeholder_info topic_ (c :: p)
                   !! ("local_path" : pystr) = Some (Images.PyStr (c :: p))).
      { unfold Images.placeholder_info.
        rewrite !lookup_insert_ne by discriminate. apply lookup_insert_eq. }
      split; [apply Hne|]; exists (c :: p); split; auto; discriminate.
    + cbn [truthy]. eexists _, _. split; [reflexivity|]. intros d; discriminate.
Qed.

Lemma search_each_run pf tl : forall acc w,
  exists res w',
    Images.search_each getenv fetch download_image render uuid4 uuid4_hex title
      pf tl acc w
    = (Ok (acc.1 ++ res,
           acc.2 + length (List.filter
                             (fun e => bool_decide
                                         (Images.entry_status e
                                          = ("success" : pystr))) res)), w')
    /\ map Images.entry_topic res = List.filter truthy tl.
Proof.
  induction tl as [|t rest IH]; intros acc w.
  - exists [], w. cbn. rewrite app_nil_r, Nat.add_0_r.
    destruct acc; split; reflexivity.
  - cbn [Images.search_each]. destruct t as [|c t].
    { destruct (IH acc w) as (res & w' & E & Hm).
      exists res, w'. split; [exact E|exact Hm]. }
    destruct (search_and_download_image_path (c :: t) pf w)
      as (r & w1 & E1 & _).
    erewrite bind_step by exact E1.
    assert (Hmiss :
      exists res w',
        Images.search_each getenv fetch download_image render uuid4 uuid4_hex
          title pf rest (acc.1 ++ [Images.missing_entry (c :: t)], acc.2) w1
        = (Ok (acc.1 ++ res,
               acc.2 + length (List.filter
                                 (fun e => bool_decide
                                             (Images.entry_status e
                                              = ("success" : pystr))) res)), w')
        /\ map Images.entry_topic res = List.filter truthy ((c :: t) :: rest)).
    { destruct (IH (acc.1 ++ [Images.missing_entry (c :: t)], acc.2) w1)
        as (res & w' & E & Hm).
      exists (Images.missing_entry (c :: t) :: res), w'. split.
      - rewrite E. cbn [fst snd]. rewrite <- app_assoc. reflexivity.
      - cbn [map List.filter truthy Images.entry_topic Images.missing_entry].
        rewrite Hm. reflexivity. }
    destruct r as [d|]; [|exact Hmiss].
    destruct (Images.dict_truthy (Some d)); [|exact Hmiss].
    destruct (IH (acc.1 ++ [Images.found_entry (c :: t) d], S acc.2) w1)
      as (res & w' & E & Hm).
    exists (Images.found_entry (c :: t) d :: res), w'. split.
    + rewrite E. cbn [fst snd]. rewrite <- app_assoc.
      cbn [List.filter Images.entry_status Images.found_entry].
      rewrite bool_decide_eq_true_2 by reflexivity. cbn [length app].
      rewrite Nat.add_succ_r. reflexivity.
    + cbn [map List.filter truthy Images.entry_topic Images.found_entry].
      rewrite Hm. reflexivity.
Qed.

Lemma prefix_length {A} (n : Z) (l : list A) :
  (0 <= n)%Z -> length (Images.prefix n l) <= Z.to_nat n.
Proof.
  intros H. unfold Images.prefix.
  rewrite (proj2 (Z.leb_le 0 n) H), length_take. lia.
Qed.

End ImageSearch.

(** X21.  [search_multiple_images] never raises.  It counts as requested
    every topic among the first [max_images] of the comma-separated list,
    blank ones included, but searches only for the ones that are not blank
    after trimming, where trimming removes the white space of [str.strip],
    the no-break space and the other spaces outside ASCII included:
    [results] has one entry for each of these, in order.
    [successful_downloads] is the number of entries with status [success],
    and the overall status is [success] exactly when there is one. *)
Theorem image_batch_counts
    getenv fetch download_image render uuid4 uuid4_hex title
    topics pf max_images w :
  exists r w',
    Images.search_multiple_images getenv fetch download_image render
      uuid4 uuid4_hex title topics pf max_images w = (Ok r, w')
    /\ let topic_list :=
         Images.prefix max_images (map strip (split "," topics)) in
       Images.total_requested r = length topic_list
       /\ map Images.entry_topic (Images.results r)
          = List.filter truthy topic_list
       /\ Images.successful_downloads r
          = length (List.filter
                      (fun e => bool_decide (Images.entry_status e
                                             = ("success" : pystr)))
                      (Images.results r))
       /\ (Images.images_status r = "success"
           <-> 0 < Images.successful_downloads r)
       /\ length (Images.results r) <= Images.total_requested r
       /\ ((0 <= max_images)%Z ->
           Images.total_requested r <= Z.to_nat max_images).
Proof.
  unfold Images.search_multiple_images.
  set (tl := Images.prefix max_images (map strip (split "," topics))).
  destruct (search_each_run getenv fetch download_image render uuid4 uuid4_hex
              title pf tl ([], 0) w) as (res & w' & E & Hm).
  cbn [fst snd app] in E. rewrite Nat.add_0_l in E.
  erewrite try_except_Ok.
  2:{ erewrite bind_step by exact E. reflexivity. }
  eexists _, _. split; [reflexivity|]. cbv zeta.
  cbn [Images.total_requested Images.results Images.successful_downloads
       Images.images_status].
  split; [reflexivity|]. split; [exact Hm|]. split; [reflexivity|].
  split; [|split].
  - destruct (Nat.ltb_spec 0 (length (List.filter
              (fun e => bool_decide (Images.entry_status e
                                     = ("success" : pystr))) res))) as [H|H].
    + split; [intros _; exact H|reflexivity].
    + split; [discriminate|lia].
  - rewrite <- (length_map Images.entry_topic), Hm. apply List.filter_length_le.
  - intros H. apply prefix_length. exact H.
Qed.

(** X22.  Without an access key in the environment no request is made to
    the search API and nothing is downloaded: [search_and_download_image]
    gives the same result and the same world whatever the API and the
    downloader would answer. *)
Theorem no_key_no_request
    (getenv : pystr -> option pystr) fetch1 fetch2 download1 download2
    render uuid4 uuid4_hex title topic_ pf use_fallback w :
  default [] (getenv "UNSPLASH_ACCESS_KEY") = [] ->
  Images.search_and_download_image getenv fetch1 download1 render
    uuid4 uuid4_hex title topic_ pf use_fallback w
  = Images.search_and_download_image getenv fetch2 download2 render
      uuid4 uuid4_hex title topic_ pf use_fallback w.
Proof.
  intros H. unfold Images.search_and_download_image,
    Images.create_image_manager, Images.UnsplashImageManager.
  destruct (getenv "UNSPLASH_ACCESS_KEY") as [[|c k]|];
    [reflexivity|discriminate H|reflexivity].
Qed.

Lemma no_key_no_request_witness :
  let render : pystr -> pystr -> M unit := fun _ _ w => (Ok (), w) in
  Images.search_and_download_image (fun _ => None)
    (fun _ _ _ w => ([], w)) (fun _ _ w => (false, w)) render
    sample_uuid "1b4e28ba2fa111d2883f0016d3cca427" (fun s => s)
    "solar panels" "ws" true workspace
  = Images.search_and_download_image (fun _ => None)
      (fun _ _ _ w => ([{[ ("id" : pystr) := Images.PyStr "abc" ]}], w))
      (fun _ _ w => (true, w)) render
      sample_uuid "1b4e28ba2fa111d2883f0016d3cca427" (fun s => s)
      "solar panels" "ws" true workspace.
Proof.
  intros render. apply no_key_no_request. reflexivity.
Defined.

Lemma image_batch_counts_witness :
  let render : pystr -> pystr -> M unit := fun _ _ w => (Ok (), w) in
  let topics : pystr :=
    "solar," ++ no_break_space ++ ",wind" ++ em_space ++ ",hydro" in
  exists r w',
    Images.search_multiple_images (fun _ => None)
      (fun _ _ _ w => ([], w)) (fun _ _ w => (false, w)) render
      sample_uuid "1b4e28ba2fa111d2883f0016d3cca427" (fun s => s)
      topics "ws" 3 workspace = (Ok r, w')
    /\ Images.total_requested r = 3
    /\ map Images.entry_topic (Images.results r)
       = ["solar" : pystr; "wind" : pystr]
    /\ Images.images_status r = "success".
Proof.
  intros render topics.
  destruct (image_batch_counts (fun _ => None)
              (fun _ _ _ w => ([], w)) (fun _ _ w => (false, w)) render
              sample_uuid "1b4e28ba2fa111d2883f0016d3cca427" (fun s => s)
              topics "ws" 3 workspace)
    as (r & w' & E & Ht & Hm & Hs & Hst & _).
  exists r, w'. split; [exact E|]. split; [rewrite Ht; vm_compute; reflexivity|].
  split; [rewrite Hm; vm_compute; reflexivity|].
  apply Hst. rewrite Hs.
  assert (Hr : (Images.search_multiple_images (fun _ => None)
                  (fun _ _ _ w => ([], w)) (fun _ _ w => (false, w)) render
                  sample_uuid "1b4e28ba2fa111d2883f0016d3cca427" (fun s => s)
                  topics "ws" 3 workspace).1 = Ok r)
    by (rewrite E; reflexivity).
  vm_compute in Hr. injection Hr as <-. vm_compute. lia.
Defined.

Section Placeholder.
Variable getenv : pystr -> option pystr.
Variable fetch : pystr -> pystr -> nat -> World -> list Images.dict * World.
Variable download_image : Images.pyval -> pystr -> World -> bool * World.
Variable render : pystr -> pystr -> M unit.
Variables uuid4 uuid4_hex : pystr.
Variable title : pystr -> pystr.

(** [search_and_download_image] on a host without an access key. *)
Lemma search_without_key topic_ pf w :
  default [] (getenv "UNSPLASH_ACCESS_KEY") = [] ->
  let path := str (div (div (Path pf) "assets")
                       ("placeholder_" ++ take 8 uuid4_hex ++ ".jpg")) in
  let w2 :=
    logged WARNING ("No images found for topic: " ++ topic_)
      (logged ERROR "No Unsplash access key available for image search"
         (logged WARNING
            "No Unsplash access key provided. Image search will not work." w)) in
  Images.search_and_download_image getenv fetch download_image render
    uuid4 uuid4_hex title topic_ pf true w
  = match render (title topic_) path w2 with
    | (Ok _, w3) =>
        (Ok (Some (Images.placeholder_info topic_ path)),
         logged INFO ("Created placeholder image: " ++ path) w3)
    | (Raise e, w3) =>
        (Ok None,
         logged ERROR ("Error creating placeholder image: " ++ exn_str e) w3)
    end.
Proof.
  intros Hk path w2.
  assert (Hp : path <> [])
    by (apply str_nonempty; auto using div_normal, Path_normal).
  unfold Images.search_and_download_image.
  assert (E12 :
    (Images.create_image_manager getenv ≫= fun manager_ =>
       Images.get_best_image_for_topic fetch download_image uuid4 manager_
         topic_ pf) w = (Ok None, w2)).
  { unfold Images.create_image_manager, Images.UnsplashImageManager.
    destruct (getenv "UNSPLASH_ACCESS_KEY") as [[|c k]|];
      [reflexivity|discriminate Hk|reflexivity]. }
  unfold mbind at 1 in E12. unfold M_bind at 1 in E12.
  unfold mbind at 1. unfold M_bind at 1.
  destruct (Images.create_image_manager getenv w) as [[m|e] w1];
    [|discriminate E12].
  erewrite bind_step by exact E12.
  cbn [Images.dict_truthy negb andb]. fold path.
  unfold Images.create_placeholder_image, try_except.
  unfold mbind, M_bind, mret, M_ret, logger, logged.
  destruct path as [|c p]; [congruence|].
  destruct (render (title topic_) (c :: p) w2) as [[[]|e] w3]; reflexivity.
Qed.

End Placeholder.

(** X23.  On a host without an access key, when the placeholder can be
    drawn, [search_presentation_image] reports success and says that the
    image was found and downloaded, although no request was made: the
    result is the placeholder under [assets], marked [is_placeholder], with
    the id [placeholder] and no photographer. *)
Theorem placeholder_is_reported_as_found
    (getenv : pystr -> option pystr) fetch download_image render
    uuid4 uuid4_hex title topic_ pf w w3 :
  default [] (getenv "UNSPLASH_ACCESS_KEY") = [] ->
  let path := str (div (div (Path pf) "assets")
                       ("placeholder_" ++ take 8 uuid4_hex ++ ".jpg")) in
  render (title topic_) path
    (logged WARNING ("No images found for topic: " ++ topic_)
       (logged ERROR "No Unsplash access key available for image search"
          (logged WARNING
             "No Unsplash access key provided. Image search will not work." w)))
  = (Ok (), w3) ->
  Images.search_presentation_image getenv fetch download_image render
    uuid4 uuid4_hex title topic_ pf w
  = (Ok {| Images.status := "success";
           Images.image_id := Images.PyStr "placeholder";
           Images.local_path := Images.PyStr path;
           Images.filename := Images.PyStr (name (Path path));
           Images.description := Images.PyStr ("Placeholder for " ++ topic_);
           Images.photographer := Images.PyStr [];
           Images.is_placeholder := Images.PyBool true;
           Images.message :=
             "Successfully found and downloaded image for '" ++ topic_ ++ "'" |},
     logged INFO ("Created placeholder image: " ++ path) w3).
Proof.
  intros Hk path Hr. unfold Images.search_presentation_image.
  erewrite try_except_Ok; [reflexivity|].
  erewrite bind_step.
  2:{ rewrite (search_without_key getenv fetch download_image render
                 uuid4 uuid4_hex title topic_ pf w Hk).
      cbv zeta. fold path. rewrite Hr. reflexivity. }
  assert (Ht : Images.dict_truthy (Some (Images.placeholder_info topic_ path))
               = true).
  { unfold Images.dict_truthy. rewrite bool_decide_eq_false_2; [reflexivity|].
    intros E. apply (f_equal (fun d => d !! ("id" : pystr))) in E.
    unfold Images.placeholder_info in E.
    rewrite lookup_insert_eq, lookup_empty in E. discriminate E. }
  rewrite Ht. unfold mret, M_ret. f_equal.
Qed.

Lemma placeholder_is_reported_as_found_witness :
  let render : pystr -> pystr -> M unit := fun _ _ w => (Ok (), w) in
  (Images.search_presentation_image (fun _ => None)
     (fun _ _ _ w => ([], w)) (fun _ _ w => (false, w)) render
     sample_uuid "1b4e28ba2fa111d2883f0016d3cca427" (fun s => s)
     "solar" "ws" workspace).1
  = Ok {| Images.status := "success";
          Images.image_id := Images.PyStr "placeholder";
          Images.local_path := Images.PyStr "ws/assets/placeholder_1b4e28ba.jpg";
          Images.filename := Images.PyStr "placeholder_1b4e28ba.jpg";
          Images.description := Images.PyStr "Placeholder for solar";
          Images.photographer := Images.PyStr [];
          Images.is_placeholder := Images.PyBool true;
          Images.message :=
            "Successfully found and downloaded image for 'solar'" |}.
Proof.
  intros render.
  erewrite (placeholder_is_reported_as_found (fun _ => None)
              (fun _ _ _ w => ([], w)) (fun _ _ w => (false, w)) render
              sample_uuid "1b4e28ba2fa111d2883f0016d3cca427" (fun s => s)
              "solar" "ws" workspace _ eq_refl eq_refl).
  vm_compute. reflexivity.
Defined.

(** X24.  [search_presentation_image] never raises, and its result is of
    one of two kinds: a success whose [local_path] is a text that is not
    empty, or the error result with every field empty. *)
Theorem image_tool_success_has_path
    getenv fetch download_image render uuid4 uuid4_hex title topic_ pf w :
  exists r w',
    Images.search_presentation_image getenv fetch download_image render
      uuid4 uuid4_hex title topic_ pf w = (Ok r, w')
    /\ ((Images.status r = "success"
         /\ exists p, Images.local_path r = Images.PyStr p /\ p <> [])
        \/ r = Images.no_image ("Failed to find or download image for '"
                                ++ topic_ ++ "'")).
Proof.
  unfold Images.search_presentation_image.
  destruct (search_and_download_image_path getenv fetch download_image render
              uuid4 uuid4_hex title topic_ pf w) as (o & w1 & E & H).
  destruct o as [d|].
  - destruct (H d eq_refl) as (Hne & p & Hp & Hpn).
    assert (Ht : Images.dict_truthy (Some d) = true).
    { unfold Images.dict_truthy.
      rewrite bool_decide_eq_false_2 by exact Hne. reflexivity. }
    erewrite try_except_Ok.
    2:{ erewrite bind_step by exact E. rewrite Ht. reflexivity. }
    eexists _, _. split; [reflexivity|]. left.
    split; [reflexivity|]. exists p. split; [|exact Hpn].
    cbn [Images.local_path]. unfold Images.get. rewrite Hp. reflexivity.
  - erewrite try_except_Ok.
    2:{ erewrite bind_step by exact E. reflexivity. }
    eexists _, _. split; [reflexivity|]. right. reflexivity.
Qed.

(** X25.  The themes the validator accepts are keys of the table of the
    template factory, and the factory gives each of them a colour scheme of
    its own: two themes with the same colours are the same theme. *)
Theorem theme_schemes_differ (t1 t2 : pystr) :
  t1 ∈ themes -> t2 ∈ themes ->
  is_Some (templates !! t1)
  /\ COLORS !! (match class_of (create_template t1) with
                | BusinessTemplate => "business_blue"
                | TechTemplate => "tech_green"
                | CreativeTemplate => "modern_purple"
                | CorporateTemplate => "corporate_red"
                end : pystr)
     = Some (color_scheme (create_template t1))
  /\ (color_scheme (create_template t1) = color_scheme (create_template t2) ->
      t1 = t2).
Proof.
  intros H1 H2. unfold themes in *.
  repeat (apply elem_of_cons in H1; destruct H1 as [->|H1]);
    try (inversion H1; fail);
    (split; [vm_compute; eexists; reflexivity|]);
    (split; [vm_compute; reflexivity|]);
    repeat (apply elem_of_cons in H2; destruct H2 as [->|H2]);
    try (inversion H2; fail);
    try (intros _; reflexivity);
    vm_compute; intros E; discriminate E.
Qed.

Lemma theme_schemes_differ_witness :
  is_Some (templates !! ("tech" : pystr))
  /\ color_scheme (create_template "tech")
     <> color_scheme (create_template "creative").
Proof.
  assert (H1 : ("tech" : pystr) ∈ themes).
  { unfold themes. apply elem_of_cons. right. apply elem_of_cons. left.
    reflexivity. }
  assert (H2 : ("creative" : pystr) ∈ themes).
  { unfold themes. do 2 (apply elem_of_cons; right). apply elem_of_cons. left.
    reflexivity. }
  destruct (theme_schemes_differ "tech" "creative" H1 H2) as (Hk & _ & Hd).
  split; [exact Hk|]. intros E. specialize (Hd E). discriminate Hd.
Defined.

(** ** The save of a template and the path the executor checks *)
Section TemplateSave.

Lemma endswith_app_r (p a b : pystr) :
  endswith p b = true -> endswith p (a ++ b) = true.
Proof.
  unfold endswith. intros H. apply startswith_split in H.
  destruct H as [r H]. rewrite rev_app_distr, H, <- app_assoc.
  apply startswith_app.
Qed.

Lemma join_last sep (ps : list pystr) x :
  exists u, join sep (ps ++ [x]) = u ++ x.
Proof.
  induction ps as [|y ps (u & IH)].
  - exists []. reflexivity.
  - cbn [app]. destruct (ps ++ [x]) as [|z l] eqn:E.
    + destruct ps; discriminate E.
    + exists (y ++ sep ++ u).
      change (join sep (y :: z :: l)) with (y ++ sep ++ join sep (z :: l)).
      rewrite IH, <- !app_assoc. reflexivity.
Qed.

Lemma str_endswith sfx rt (ps : list pystr) x :
  endswith sfx x = true ->
  endswith sfx (str {| root := rt; parts := ps ++ [x] |}) = true.
Proof.
  intros H. destruct (join_last "/" ps x) as [u Hu].
  assert (E : str {| root := rt; parts := ps ++ [x] |} = (rt ++ u) ++ x).
  { unfold str. cbn [root parts]. rewrite <- app_assoc, <- Hu.
    destruct rt; [|reflexivity].
    destruct (ps ++ [x]) eqn:E; [destruct ps; discriminate E|reflexivity]. }
  rewrite E. apply endswith_app_r. exact H.
Qed.

End TemplateSave.

(** X26.  The save of a template leaves the path of the executor as it
    is: for a file name without a slash, when the destination holds no
    backslash, the path text that [PPTTemplate.save] hands to the library
    for the argument the executor has written into the save call is the
    very path whose existence [execute_ppt_code] checks after the run. *)
Theorem template_save_reaches_checked_path pf fn :
  slash ∉ fn ->
  backslash ∉ str (output_path pf fn) ->
  save_target (output_path_str pf fn) = str (output_path pf fn).
Proof.
  intros Hs Hb. unfold output_path_str. rewrite (replace_char_id _ _ _ Hb).
  unfold save_target.
  assert (He : endswith ".pptx" (str (output_path pf fn)) = true).
  { rewrite (output_path_parts pf fn Hs).
    change (parts (Path pf) ++ ["presentations" : pystr; ensure_pptx fn])
      with (parts (Path pf) ++ ["presentations" : pystr] ++ [ensure_pptx fn]).
    rewrite app_assoc. apply str_endswith, ensure_pptx_endswith. }
  rewrite He. f_equal. apply Path_str.
  unfold output_path. auto using div_normal, Path_normal.
Qed.

Lemma template_save_reaches_checked_path_witness :
  save_target (output_path_str "/srv/ws" "deck")
  = ("/srv/ws/presentations/deck.pptx" : pystr).
Proof.
  rewrite (template_save_reaches_checked_path "/srv/ws" "deck").
  - vm_compute. reflexivity.
  - intros H. skip_chars H. inversion H.
  - intros H. vm_compute in H. skip_chars H. inversion H.
Defined.

(** X27.  No run names the artifact: whatever the supervisor streams, and
    whether the run counts as a success or not, the result returned by
    [generate_powerpoint_presentation] holds no presentation path and no
    project folder; it returns the topic and the thread id it was given. *)
Theorem run_never_names_artifact sup now uuid4 topic_ tid rcpt w :
  exists r w',
    generate_powerpoint_presentation sup now uuid4 topic_ tid rcpt w = (Ok r, w')
    /\ Agent.ppt_path r = None
    /\ Agent.project_folder r = None
    /\ topic r = topic_
    /\ thread_id r = thread_of uuid4 tid.
Proof.
  unfold generate_powerpoint_presentation.
  erewrite bind_step by reflexivity.
  erewrite bind_step by reflexivity.
  match goal with
  | |- context [(record_events now ?s ?ev ≫= _) ?w0] =>
      destruct (record_events_run now ev s w0) as [w1 E]
  end.
  erewrite bind_step by exact E.
  destruct (failure _) as [e|]; eexists _, _; repeat split.
Qed.

(** X28.  [create_project_folder] never raises.  It returns either
    [success], with the folder it has made, which is then a directory, and
    no error text, or [error], with an empty id, an empty folder and the
    text of the exception, which is also logged at level ERROR. *)
Theorem create_project_folder_always_answers cwd uuid4 ts topic_ w :
  exists r w',
    create_project_folder cwd uuid4 ts topic_ w = (Ok r, w')
    /\ ((folder_status r = "success"
         /\ folder_error r = None
         /\ unique_id r = take 8 uuid4
         /\ ToolsPPT.project_folder r
            = str (project_root cwd topic_ ts (take 8 uuid4))
         /\ is_dir (ToolsPPT.project_folder r) w' = true)
        \/ (folder_status r = "error"
            /\ unique_id r = []
            /\ ToolsPPT.project_folder r = []
            /\ exists text,
                 folder_error r = Some text
                 /\ last (log w')
                    = Some (ERROR, "Error creating project folder: " ++ text))).
Proof.
  destruct (create_project_folder cwd uuid4 ts topic_ w) as [[r|e] w'] eqn:E.
  2:{ exfalso. unfold create_project_folder, try_except in E.
      match type of E with
      | match ?body w with _ => _ end = _ => destruct (body w) as [[r0|e0] w0]
      end; discriminate E. }
  exists r, w'. split; [reflexivity|].
  pose proof E as E'. unfold create_project_folder, try_except in E'.
  match type of E' with
  | match ?body w with _ => _ end = _ =>
      destruct (body w) as [[r0|e0] w0] eqn:Eb
  end.
  - left. injection E' as <- <-.
    assert (Hst : folder_status r0 = "success").
    { repeat (apply bind_Ok in Eb; destruct Eb as (? & ? & _ & Eb)).
      injection Eb as <- _. reflexivity. }
    destruct (create_project_folder_success _ _ _ _ _ _ _ E Hst)
      as (Hp & Hu & Hd & _).
    split; [exact Hst|]. split.
    { repeat (apply bind_Ok in Eb; destruct Eb as (? & ? & _ & Eb)).
      injection Eb as <- _. reflexivity. }
    split; [exact Hu|]. split; [exact Hp|].
    apply Forall_cons in Hd. destruct Hd as [Hd _].
    rewrite Hp. apply bool_decide_eq_true. exact Hd.
  - right. cbn in E'. injection E' as <- <-. cbn.
    repeat split. eexists. split; [reflexivity|]. apply last_snoc.
Qed.
